(** * RoboFleetServerMal: telemetry relay, session and task lifecycle

    A shallow embedding of [database.py] and [redis_server.py] and the
    properties of the fleet-monitor specification that were checked
    against them.

    Layout: [Python] holds the few pieces of the Python runtime the two
    files rely on (exception classes, binary64 floats, decoded JSON values,
    strings that carry JSON text); [Database] embeds [database.py] over an
    explicit table state; [RedisServer] embeds [redis_server.py] over a
    world made of the database, the broker store and a trace of observable
    effects. The theorems follow the definitions. *)

From Stdlib Require Import ZArith String List Bool Lia.
From Stdlib Require Import Floats.SpecFloat.
From stdpp Require Import gmap strings pretty list fin_maps.

Set Warnings "-register-all".

Local Open Scope string_scope.
Local Open Scope Z_scope.

(* ===================================================================== *)
(** * The Python runtime, as far as the two files use it *)
(* ===================================================================== *)

Module Python.

(** Exception classes that the modelled code raises, catches or reports by
    name. [CancelledError] derives from [BaseException] only; all the
    others derive from [Exception]. *)
Inductive exn : Type :=
| TimeoutError          (* asyncio.TimeoutError *)
| ConnectionClosed      (* websockets.exceptions.ConnectionClosed *)
| WebSocketException    (* websockets.exceptions.WebSocketException *)
| OSError
| CancelledError        (* asyncio.CancelledError *)
| JSONDecodeError
| AttributeError
| TypeError
| ValueError
| KeyError
| IndexError
| OverflowError
| PostgresError         (* asyncpg.PostgresError *)
| RedisError.           (* redis.exceptions.RedisError *)

(** [type(e).__name__] *)
Definition exn_name (e : exn) : string :=
  match e with
  | TimeoutError => "TimeoutError"
  | ConnectionClosed => "ConnectionClosed"
  | WebSocketException => "WebSocketException"
  | OSError => "OSError"
  | CancelledError => "CancelledError"
  | JSONDecodeError => "JSONDecodeError"
  | AttributeError => "AttributeError"
  | TypeError => "TypeError"
  | ValueError => "ValueError"
  | KeyError => "KeyError"
  | IndexError => "IndexError"
  | OverflowError => "OverflowError"
  | PostgresError => "PostgresError"
  | RedisError => "RedisError"
  end.

(** [isinstance(e, Exception)] *)
Definition is_Exception (e : exn) : bool :=
  match e with CancelledError => false | _ => true end.

(** The result of evaluating an expression or a call: a value, or a raised
    exception. *)
Inductive outcome (A : Type) : Type :=
| Ok (a : A)
| Raise (e : exn).
Arguments Ok {A} a.
Arguments Raise {A} e.

Definition obind {A B} (o : outcome A) (k : A -> outcome B) : outcome B :=
  match o with
  | Ok a => k a
  | Raise e => Raise e
  end.

(** ** Floats: IEEE 754 binary64 *)

Abbreviation float := spec_float.

Definition prec : Z := 53.
Definition emax : Z := 1024.

Definition float_zero : float := S754_zero false.
Definition float_add : float -> float -> float := SFadd prec emax.
Definition float_sub : float -> float -> float := SFsub prec emax.
Definition float_mul : float -> float -> float := SFmul prec emax.
Definition float_eqb : float -> float -> bool := SFeqb.


(** The float nearest to an integer (ties to even), without the range
    check of [float(int)]. *)
Definition float_of_Z_round (z : Z) : float :=
  binary_normalize prec emax z 0 false.

(** [float(z)] for an int [z]: an int beyond the binary64 range raises
    [OverflowError]. *)
Definition float_of_int (z : Z) : outcome float :=
  match float_of_Z_round z with
  | S754_infinity _ => Raise OverflowError
  | f => Ok f
  end.

(** [x ** 2] on a float, after CPython's [float_pow]: NaN stays NaN, an
    infinity gives [+inf], a zero gives [+0.0], and a finite non-zero [x]
    goes to the C library's [pow(x, 2.0)], an overflowing result raising
    [OverflowError]. The C [pow] is taken to round the square correctly,
    that is, to agree with the binary64 product [x * x]. *)
Definition float_pow2 (x : float) : outcome float :=
  match x with
  | S754_nan => Ok S754_nan
  | S754_infinity _ => Ok (S754_infinity false)
  | S754_zero _ => Ok (S754_zero false)
  | S754_finite _ _ _ =>
      match float_mul x x with
      | S754_infinity _ => Raise OverflowError
      | r => Ok r
      end
  end.

(** [math.sqrt(x)]: a negative argument (or [-inf]) raises [ValueError]
    (math domain error); NaN, [+inf] and both zeros are returned as the C
    [sqrt] gives them. *)
Definition math_sqrt (x : float) : outcome float :=
  match x with
  | S754_infinity true | S754_finite true _ _ => Raise ValueError
  | _ => Ok (SFsqrt prec emax x)
  end.

(** ** Decoded JSON values: what [json.loads] returns *)

Inductive json : Type :=
| JNull
| JBool (b : bool)
| JInt (z : Z)
| JFloat (f : float)
| JStr (s : string)
| JList (l : list json)
| JDict (d : list (string * json)).

(** ** Python [str] values that are not literals of the program

    A [str] is either given by its characters, or it is a JSON text, given
    by the value it encodes: the text of a received frame, the result of
    [json.dumps], or the decimal text of an int written to the broker.
    [DumpsDict d] is [json.dumps] of a [dict] whose values are such strings
    (the [compile_list] of the telemetry loop). *)
Inductive pystr : Type :=
| Lit (s : string)
| Dumps (j : json)
| DumpsDict (d : list (string * pystr)).

(** Truth value of an [Optional[str]]: [None] and the empty string are
    false; a JSON text is never empty. *)
Definition str_truthy (o : option pystr) : bool :=
  match o with
  | None => false
  | Some (Lit s) => negb (String.eqb s EmptyString)
  | Some _ => true
  end.

(** Truth value of a decoded JSON value. *)
Definition json_truthy (j : json) : bool :=
  match j with
  | JNull => false
  | JBool b => b
  | JInt z => negb (Z.eqb z 0)
  | JFloat f => negb (float_eqb f float_zero)
  | JStr s => negb (String.eqb s EmptyString)
  | JList l => match l with [] => false | _ => true end
  | JDict d => match d with [] => false | _ => true end
  end.

(** [v == "literal"] for a decoded value [v]: only a [str] with the same
    characters compares equal. *)
Definition json_eq_str (j : json) (s : string) : bool :=
  match j with
  | JStr s' => String.eqb s' s
  | _ => false
  end.

(** Lookup in a [dict] with [str] keys. *)
Fixpoint assoc {A} (k : string) (d : list (string * A)) : option A :=
  match d with
  | [] => None
  | (k', v) :: d' => if String.eqb k' k then Some v else assoc k d'
  end.

(** [d.update({k: v})] on a [dict]: an existing key keeps its place. *)
Fixpoint dict_update {A} (k : string) (v : A) (d : list (string * A))
  : list (string * A) :=
  match d with
  | [] => [(k, v)]
  | (k', v') :: d' =>
      if String.eqb k' k then (k', v) :: d' else (k', v') :: dict_update k v d'
  end.

(** [data.get(k, default)]: only a [dict] has the method. *)
Definition json_get (data : json) (k : string) (default : json) : outcome json :=
  match data with
  | JDict d => Ok (match assoc k d with Some v => v | None => default end)
  | _ => Raise AttributeError
  end.

(** [len(v)] *)
Definition json_len (v : json) : outcome Z :=
  match v with
  | JStr s => Ok (Z.of_nat (String.length s))
  | JList l => Ok (Z.of_nat (List.length l))
  | JDict d => Ok (Z.of_nat (List.length d))
  | _ => Raise TypeError
  end.

(** [v[i]] for a literal index [i >= 0]. A dict decoded from JSON has only
    [str] keys, so an int subscript raises [KeyError]. *)
Definition json_index (v : json) (i : nat) : outcome json :=
  match v with
  | JList l => match nth_error l i with Some x => Ok x | None => Raise IndexError end
  | JStr s => match String.get i s with
              | Some c => Ok (JStr (String c EmptyString))
              | None => Raise IndexError
              end
  | JDict _ => Raise KeyError
  | _ => Raise TypeError
  end.

(** The two conversions of a [str] given by its characters to a number,
    [int(s)] and [float(s)], are Python's numeral parsers; they are taken
    as given ([None]: the parser raises [ValueError]). *)
Class StrNumerals : Type := {
  int_of_str : string -> option Z;
  float_of_str : string -> option float
}.

Section Conversions.
Context `{StrNumerals}.

(** [float(v)] for a decoded JSON value. *)
Definition py_float (v : json) : outcome float :=
  match v with
  | JInt z => float_of_int z
  | JFloat f => Ok f
  | JBool b => Ok (float_of_Z_round (if b then 1 else 0))
  | JStr s => match float_of_str s with Some f => Ok f | None => Raise ValueError end
  | JNull | JList _ | JDict _ => Raise TypeError
  end.

(** [int(s)] for a [str]: the decimal text of an int converts back to
    it; every other JSON text (a quoted string, [7.0], [true], an object)
    is not an int literal. *)
Definition py_int (s : pystr) : outcome Z :=
  match s with
  | Lit s => match int_of_str s with Some z => Ok z | None => Raise ValueError end
  | Dumps (JInt z) => Ok z
  | Dumps _ | DumpsDict _ => Raise ValueError
  end.
End Conversions.

(** [f"{v:.2f}"]: the format code applies to numbers (a bool is an int);
    a [str] raises [ValueError], anything else [TypeError]. *)
Definition format_2f (v : json) : outcome unit :=
  match v with
  | JInt z => match float_of_int z with Ok _ => Ok tt | Raise e => Raise e end
  | JFloat _ | JBool _ => Ok tt
  | JStr _ => Raise ValueError
  | JNull | JList _ | JDict _ => Raise TypeError
  end.

End Python.

(* ===================================================================== *)
(** * database.py *)
(* ===================================================================== *)

(** The PostgreSQL tables are lists of rows in insertion order. Every
    function takes the reading [now] of the server clock and the table
    state, and returns its result with the new state: one call is one
    completed sequence of statements. The [print] lines of [database.py]
    touch no table and are left out. *)

Module Database.
Import Python.

(** [calculate_distance]: [math.sqrt((x2 - x1)**2 + (y2 - y1)**2)], the
    operands evaluated left to right. *)
Definition calculate_distance (x1 y1 x2 y2 : float) : outcome float :=
  obind (float_pow2 (float_sub x2 x1)) (fun dx2 =>
  obind (float_pow2 (float_sub y2 y1)) (fun dy2 =>
  math_sqrt (float_add dx2 dy2))).

(** ** Tables *)

Record robot_row : Type := {
  r_id : Z;
  r_sn : string
}.

(** [notes] of a task is either NULL or the text ["Failed: {fail_reason}"],
    kept by the reason it was formatted from. *)
Record task_row : Type := {
  t_task_id : Z;
  t_robot_id : Z;
  t_status : string;
  t_end_time : Z;
  t_notes : option json
}.

Record movement_row : Type := {
  m_time : Z;
  m_robot_id : Z;
  m_x : float;
  m_y : float;
  m_ori : float;
  m_distance : float
}.

Record session_row : Type := {
  s_id : Z;
  s_robot_id : Z;
  s_status : string;
  s_timestamp : Z;
  s_session_duration : option Z;
  s_notes : option string
}.

(** [robot_sessions_seq] is the next value of the serial [id] column of
    [robot_sessions]. *)
Record db : Type := {
  robots : list robot_row;
  tasks_history : list task_row;
  robot_movement : list movement_row;
  robot_sessions : list session_row;
  robot_sessions_seq : Z
}.

Definition empty_db : db :=
  {| robots := []; tasks_history := []; robot_movement := [];
     robot_sessions := []; robot_sessions_seq := 1 |}.

(** ** Robot operations *)

(** [get_robot_id_by_sn]: [SELECT id FROM robots WHERE sn = $1], the first
    row's id or [None]. *)
Definition get_robot_id_by_sn (sn : string) (d : db) : option Z :=
  option_map r_id (List.find (fun r => String.eqb (r_sn r) sn) (robots d)).

(** ** Task operations *)

(** [update_task_status]: with a true [fail_reason] the matching rows get
    the status, [end_time = NOW()] and the note; otherwise the status and
    [end_time] only. These are the statements of a call that completes. A
    call the driver refuses before any statement runs (asyncpg raises
    [DataError] for a [task_id] outside int64) writes nothing, like a call
    that fails otherwise: where the function is awaited
    ([RedisServer.update_task_status]) that is a call whose fate is to
    raise. *)
Definition update_task_status (now : Z) (task_id : Z) (status : string)
    (fail_reason : option json) (d : db) : db :=
  let noted := match fail_reason with Some r => json_truthy r | None => false end in
  let upd (t : task_row) :=
    if t_task_id t =? task_id then
      {| t_task_id := t_task_id t; t_robot_id := t_robot_id t;
         t_status := status; t_end_time := now;
         t_notes := if noted then fail_reason else t_notes t |}
    else t in
  {| robots := robots d; tasks_history := List.map upd (tasks_history d);
     robot_movement := robot_movement d; robot_sessions := robot_sessions d;
     robot_sessions_seq := robot_sessions_seq d |}.

(** ** Movement tracking *)

(** [record_position]: the distance is [0.0] unless both previous
    coordinates are given; one row is appended to [robot_movement]. An
    exception of [calculate_distance] leaves the table alone. *)
Definition record_position (now : Z) (robot_id : Z) (x y ori : float)
    (prev_x prev_y : option float) (d : db) : outcome db :=
  obind (match prev_x, prev_y with
         | Some px, Some py => calculate_distance px py x y
         | _, _ => Ok float_zero
         end) (fun distance =>
  Ok {| robots := robots d; tasks_history := tasks_history d;
        robot_movement := robot_movement d ++
          [{| m_time := now; m_robot_id := robot_id; m_x := x; m_y := y;
              m_ori := ori; m_distance := distance |}];
        robot_sessions := robot_sessions d;
        robot_sessions_seq := robot_sessions_seq d |}).

(** ** Robot session tracking *)

Definition is_online_of (robot_id : Z) (row : session_row) : bool :=
  (s_robot_id row =? robot_id) && String.eqb (s_status row) "online".

(** [ORDER BY timestamp DESC LIMIT 1]: a row with the greatest timestamp.
    PostgreSQL leaves the choice among equal timestamps open; the model
    takes the one inserted first. *)
Fixpoint latest (rows : list session_row) : option session_row :=
  match rows with
  | [] => None
  | row :: rest =>
      match latest rest with
      | Some best => if s_timestamp row <? s_timestamp best then Some best else Some row
      | None => Some row
      end
  end.

(** [SELECT ... FROM robot_sessions WHERE robot_id = $1 AND status =
    'online' ORDER BY timestamp DESC LIMIT 1] *)
Definition last_online_session (robot_id : Z) (d : db) : option session_row :=
  latest (List.filter (is_online_of robot_id) (robot_sessions d)).

(** [INSERT INTO robot_sessions (...) VALUES (...) RETURNING id] *)
Definition insert_session (robot_id : Z) (status : string) (timestamp : Z)
    (duration : option Z) (notes : option string) (d : db) : Z * db :=
  let id := robot_sessions_seq d in
  (id,
   {| robots := robots d; tasks_history := tasks_history d;
      robot_movement := robot_movement d;
      robot_sessions := robot_sessions d ++
        [{| s_id := id; s_robot_id := robot_id; s_status := status;
            s_timestamp := timestamp; s_session_duration := duration;
            s_notes := notes |}];
      robot_sessions_seq := id + 1 |}).

(** [start_robot_session]: [unclosed] is the id of the latest online row;
    when it is true (not [None], not [0]) an offline row is inserted with
    [NOW() - timestamp] of the row of that id, then the online row is
    inserted and its id returned. *)
Definition start_robot_session (now : Z) (robot_id : Z) (d : db) : Z * db :=
  let unclosed := option_map s_id (last_online_session robot_id d) in
  let d1 :=
    match unclosed with
    | Some id =>
        if negb (id =? 0) then
          let duration :=
            option_map (fun row => now - s_timestamp row)
                       (List.find (fun row => s_id row =? id) (robot_sessions d)) in
          snd (insert_session robot_id "offline" now duration
                 (Some "Auto-closed: New session started") d)
        else d
    | None => d
    end in
  insert_session robot_id "online" now None None d1.

(** [end_robot_session]: without a latest online row nothing is written
    and [None] is returned; otherwise an offline row is inserted with the
    duration since that row's timestamp, and its id returned. *)
Definition end_robot_session (now : Z) (robot_id : Z) (reason : string) (d : db)
  : option Z * db :=
  match last_online_session robot_id d with
  | None => (None, d)
  | Some last_online =>
      let duration := now - s_timestamp last_online in
      let '(session_id, d') :=
        insert_session robot_id "offline" now (Some duration)
          (Some ("Disconnected: " +:+ reason)) d in
      (Some session_id, d')
  end.

(** [get_robot_current_session_duration] decides whether the robot is
    online by the status of its latest row, whatever that status is:
    [SELECT status, timestamp ... WHERE robot_id = $1 ORDER BY timestamp
    DESC LIMIT 1]. Only that test is kept here. *)
Definition latest_row_is_online (robot_id : Z) (d : db) : bool :=
  match latest (List.filter (fun row => s_robot_id row =? robot_id) (robot_sessions d)) with
  | Some row => String.eqb (s_status row) "online"
  | None => false
  end.

(** A caller of the session functions, and a run of calls. *)
Inductive session_call : Type :=
| StartSession (now : Z) (robot_id : Z)
| EndSession (now : Z) (robot_id : Z) (reason : string).

Definition do_call (d : db) (c : session_call) : db :=
  match c with
  | StartSession now robot_id => snd (start_robot_session now robot_id d)
  | EndSession now robot_id reason => snd (end_robot_session now robot_id reason d)
  end.

Definition run_calls (calls : list session_call) (d : db) : db :=
  fold_left do_call calls d.

(** The rows of one robot, in insertion order, and their count by status. *)
Definition rows_of (robot_id : Z) (d : db) : list session_row :=
  List.filter (fun row => s_robot_id row =? robot_id) (robot_sessions d).

Definition online_rows (robot_id : Z) (d : db) : list session_row :=
  List.filter (is_online_of robot_id) (robot_sessions d).

(** No two consecutive statuses are both ['online']. *)
Fixpoint no_two_online (statuses : list string) : bool :=
  match statuses with
  | a :: (b :: _) as rest =>
      negb (String.eqb a "online" && String.eqb b "online") && no_two_online rest
  | _ => true
  end.

Definition offline_has_duration (row : session_row) : bool :=
  if String.eqb (s_status row) "offline"
  then match s_session_duration row with Some _ => true | None => false end
  else true.

(** The last of a list of statuses is ['online']. *)
Definition ends_online (statuses : list string) : bool :=
  match last statuses with
  | Some a => String.eqb a "online"
  | None => false
  end.

(** The number of ['online'] entries with no ['offline'] entry after them:
    the sessions that were opened and not closed since. *)
Fixpoint unclosed_online (statuses : list string) : nat :=
  match statuses with
  | [] => 0%nat
  | a :: rest =>
      ((if String.eqb a "online" && negb (existsb (fun b => String.eqb b "offline") rest)
        then 1 else 0) + unclosed_online rest)%nat
  end.

(** A session table as the two session functions leave it: ids come from
    the positive serial, statuses are the two literals, no robot has two
    consecutive online rows, and offline rows carry a duration. *)
Record sessions_ok (d : db) : Prop := {
  ok_seq : 0 < robot_sessions_seq d;
  ok_ids : Forall (fun row => 0 < s_id row) (robot_sessions d);
  ok_status : Forall (fun row => s_status row = "online" \/ s_status row = "offline")
                     (robot_sessions d);
  ok_alt : forall r, no_two_online (map s_status (rows_of r d)) = true;
  ok_dur : Forall (fun row => offline_has_duration row = true) (robot_sessions d)
}.

(** The table after [record_position] has stored [distance]. *)
Definition with_sample (now robot_id : Z) (x y ori distance : float) (d : db) : db :=
  {| robots := robots d; tasks_history := tasks_history d;
     robot_movement := robot_movement d ++
       [{| m_time := now; m_robot_id := robot_id; m_x := x; m_y := y;
           m_ori := ori; m_distance := distance |}];
     robot_sessions := robot_sessions d;
     robot_sessions_seq := robot_sessions_seq d |}.

(** The distance [record_position] stores for a pose, given the previous
    pose it is handed. *)
Definition expected_distance (prev : option (float * float)) (x y : float)
  : outcome float :=
  match prev with
  | Some (px, py) => calculate_distance px py x y
  | None => Ok float_zero
  end.

(** Movement samples whose distances chain: each sample carries the
    distance from the sample before it, the first one from [prev]. *)
Fixpoint chained_from (prev : option (float * float)) (rows : list movement_row) : Prop :=
  match rows with
  | [] => True
  | r :: rest =>
      expected_distance prev (m_x r) (m_y r) = Ok (m_distance r) /\
      chained_from (Some (m_x r, m_y r)) rest
  end.

(** The pose of the last sample, or [prev] when there is none. *)
Definition last_pose (prev : option (float * float)) (rows : list movement_row)
  : option (float * float) :=
  match last rows with
  | Some r => Some (m_x r, m_y r)
  | None => prev
  end.

(** ** Vocabulary for the ids and the signs *)

(** The ids of the session rows, in insertion order. *)
Definition session_ids (d : db) : list Z := map s_id (robot_sessions d).

(** Every id of the table is below the next value of the serial. *)
Definition ids_below_seq (d : db) : Prop :=
  Forall (fun row => s_id row < robot_sessions_seq d) (robot_sessions d).

(** The sign bit of a float; a NaN counts as unsigned. *)
Definition float_sign_bit (x : float) : bool :=
  match x with
  | S754_zero s | S754_infinity s | S754_finite s _ _ => s
  | S754_nan => false
  end.

(** No task row has the id [task_id]. *)
Definition unknown_task (task_id : Z) (d : db) : bool :=
  forallb (fun t => negb (t_task_id t =? task_id)) (tasks_history d).

(** The robot a call is about. *)
Definition call_robot (c : session_call) : Z :=
  match c with
  | StartSession _ robot_id => robot_id
  | EndSession _ robot_id _ => robot_id
  end.

(** The table after a robot connected at 10 and disconnected at 20. *)
Definition reconnected_db : db :=
  run_calls [StartSession 10 1; EndSession 20 1 "normal"] empty_db.

(** ** What a task of the process may do to the tables *)

(** Rows are only appended to the movement and session tables, the session
    log stays well formed, the robots and the ids of the tasks stay. *)
Definition db_step (d d' : db) : Prop :=
  robots d' = robots d /\
  map t_task_id (tasks_history d') = map t_task_id (tasks_history d) /\
  (exists added, robot_movement d' = (robot_movement d ++ added)%list) /\
  (exists added, robot_sessions d' = (robot_sessions d ++ added)%list) /\
  (sessions_ok d -> sessions_ok d').

(** Only the status, end time and notes of task rows change. *)
Definition task_step (d d' : db) : Prop :=
  robots d' = robots d /\
  robot_movement d' = robot_movement d /\
  robot_sessions d' = robot_sessions d /\
  robot_sessions_seq d' = robot_sessions_seq d /\
  map t_task_id (tasks_history d') = map t_task_id (tasks_history d) /\
  map t_robot_id (tasks_history d') = map t_robot_id (tasks_history d).

End Database.

(* ===================================================================== *)
(** * redis_server.py *)
(* ===================================================================== *)

Module RedisServer.
Import Python.

(** ** Observable effects *)

(** An argument of a formatted [print]. *)
Inductive parg : Type :=
| AInt (z : Z)
| ABool (b : bool)
| AStr (s : string)
| AJson (j : json)
| AOptInt (o : option Z)
| AExn (e : exn).

Inductive db_call : Type :=
| GetRobotIdBySn (sn : string)
| StartRobotSession (robot_id : Z)
| EndRobotSession (robot_id : Z) (reason : string)
| RecordPosition (robot_id : Z) (x y ori : float) (prev_x prev_y : option float)
| UpdateTaskStatus (task_id : Z) (status : string) (fail_reason : option json).

Inductive redis_call : Type :=
| RedisGet (key : string)
| RedisSet (key : string) (value : pystr)
| RedisDelete (key : string)
| RedisPublish (channel : string) (message : pystr).

(** What the process does that can be seen from outside, in order:
    console lines (by format string and arguments), calls to the
    persistence functions, broker commands, and the life of the telemetry
    socket. A call is recorded when it is made, whether or not it then
    fails. *)
Inductive effect : Type :=
| Printed (fmt : string) (args : list parg)
| Traceback (e : exn)
| Db (c : db_call)
| Redis (c : redis_call)
| WsOpen
| WsSend (j : json)
| WsClose.

(** ** The world of the process *)

(** [w_faults] fixes the fate of the awaited calls still to come (calls to
    [database.py], broker commands, [ws.send]), the next call first:
    [Some e] makes the call raise [e] before it has any effect, [None] and
    a used-up list let it succeed. [w_clock] is the clock that [NOW()] and
    [time.time()] read. *)
Record world : Type := {
  w_db : Database.db;
  w_redis : gmap string pystr;
  w_active_sessions : gmap Z Z;     (* active_sessions *)
  w_shutdown : bool;                (* shutdown_event *)
  w_clock : Z;
  w_faults : list (option exn);
  w_trace : list effect
}.

Definition set_db (d : Database.db) (w : world) : world :=
  {| w_db := d; w_redis := w_redis w; w_active_sessions := w_active_sessions w;
     w_shutdown := w_shutdown w; w_clock := w_clock w; w_faults := w_faults w;
     w_trace := w_trace w |}.
Definition set_redis (r : gmap string pystr) (w : world) : world :=
  {| w_db := w_db w; w_redis := r; w_active_sessions := w_active_sessions w;
     w_shutdown := w_shutdown w; w_clock := w_clock w; w_faults := w_faults w;
     w_trace := w_trace w |}.
Definition set_active_sessions (a : gmap Z Z) (w : world) : world :=
  {| w_db := w_db w; w_redis := w_redis w; w_active_sessions := a;
     w_shutdown := w_shutdown w; w_clock := w_clock w; w_faults := w_faults w;
     w_trace := w_trace w |}.
Definition set_shutdown (b : bool) (w : world) : world :=
  {| w_db := w_db w; w_redis := w_redis w; w_active_sessions := w_active_sessions w;
     w_shutdown := b; w_clock := w_clock w; w_faults := w_faults w;
     w_trace := w_trace w |}.
Definition set_clock (t : Z) (w : world) : world :=
  {| w_db := w_db w; w_redis := w_redis w; w_active_sessions := w_active_sessions w;
     w_shutdown := w_shutdown w; w_clock := t; w_faults := w_faults w;
     w_trace := w_trace w |}.
Definition set_faults (f : list (option exn)) (w : world) : world :=
  {| w_db := w_db w; w_redis := w_redis w; w_active_sessions := w_active_sessions w;
     w_shutdown := w_shutdown w; w_clock := w_clock w; w_faults := f;
     w_trace := w_trace w |}.
Definition set_trace (t : list effect) (w : world) : world :=
  {| w_db := w_db w; w_redis := w_redis w; w_active_sessions := w_active_sessions w;
     w_shutdown := w_shutdown w; w_clock := w_clock w; w_faults := w_faults w;
     w_trace := t |}.

Definition initial_world (d : Database.db) : world :=
  {| w_db := d; w_redis := ∅; w_active_sessions := ∅; w_shutdown := false;
     w_clock := 0; w_faults := []; w_trace := [] |}.

(** ** Code that runs in a state and may raise *)

Definition M (S A : Type) : Type := S -> outcome A * S.

Definition ret {S A} (a : A) : M S A := fun s => (Ok a, s).
Definition raise {S A} (e : exn) : M S A := fun s => (Raise e, s).
Definition bind {S A B} (m : M S A) (k : A -> M S B) : M S B :=
  fun s => match m s with
           | (Ok a, s') => k a s'
           | (Raise e, s') => (Raise e, s')
           end.
Definition get {S} : M S S := fun s => (Ok s, s).
Definition modify {S} (f : S -> S) : M S unit := fun s => (Ok tt, f s).
Definition of_outcome {S A} (o : outcome A) : M S A := fun s => (o, s).

Declare Scope py_scope.
Delimit Scope py_scope with py.
Notation "x <- m ;; k" := (bind m (fun x => k))
  (at level 100, m at next level, k at level 200, right associativity) : py_scope.
Notation "m ;; k" := (bind m (fun _ => k))
  (at level 100, k at level 200, right associativity) : py_scope.
Local Open Scope py_scope.

Definition when {S} (b : bool) (m : M S unit) : M S unit :=
  if b then m else ret tt.

(** *** Primitive actions on the world *)

Definition emit (e : effect) : M world unit :=
  modify (fun w => set_trace (w_trace w ++ [e]) w).

Definition print (fmt : string) (args : list parg) : M world unit :=
  emit (Printed fmt args).

(** The fate of the awaited call being made: the head of [w_faults]
    decides whether it raises. *)
Definition fate : M world unit :=
  w <- get ;;
  match w_faults w with
  | [] => ret tt
  | f :: rest =>
      modify (set_faults rest) ;;
      match f with
      | Some exc => raise exc
      | None => ret tt
      end
  end.

(** The awaited call [e] is made. *)
Definition await_call (e : effect) : M world unit :=
  emit e ;; fate.

(** [time.time()] *)
Definition time_time : M world json :=
  w <- get ;; ret (JFloat (float_of_Z_round (w_clock w))).

(** The broker: [redis.get], [redis.set], [redis.delete], [redis.publish].
    Subscribers are outside the process; a publish leaves its trace only. *)
Definition redis_get (key : string) : M world (option pystr) :=
  await_call (Redis (RedisGet key)) ;;
  w <- get ;; ret (w_redis w !! key).

Definition redis_set (key : string) (value : pystr) : M world unit :=
  await_call (Redis (RedisSet key value)) ;;
  modify (fun w => set_redis (<[key := value]> (w_redis w)) w).

Definition redis_delete (key : string) : M world unit :=
  await_call (Redis (RedisDelete key)) ;;
  modify (fun w => set_redis (delete key (w_redis w)) w).

Definition redis_publish (channel : string) (message : pystr) : M world unit :=
  await_call (Redis (RedisPublish channel message)).

(** The functions imported from [database.py]. [on_db f] runs the
    statements [f] of a call on the clock and the tables. *)
Definition on_db {A} (f : Z -> Database.db -> outcome (A * Database.db)) : M world A :=
  fun w => match f (w_clock w) (w_db w) with
           | Ok (a, d) => (Ok a, set_db d w)
           | Raise e => (Raise e, w)
           end.

Definition get_robot_id_by_sn (sn : string) : M world (option Z) :=
  await_call (Db (GetRobotIdBySn sn)) ;;
  on_db (fun _ d => Ok (Database.get_robot_id_by_sn sn d, d)).

Definition start_robot_session (robot_id : Z) : M world Z :=
  await_call (Db (StartRobotSession robot_id)) ;;
  on_db (fun now d => Ok (Database.start_robot_session now robot_id d)).

Definition end_robot_session (robot_id : Z) (reason : string) : M world (option Z) :=
  await_call (Db (EndRobotSession robot_id reason)) ;;
  on_db (fun now d => Ok (Database.end_robot_session now robot_id reason d)).

(** [record_position] computes the distance before it reaches the
    database, so an exception of the computation comes first; then the
    [INSERT] is awaited. *)
Definition record_position (robot_id : Z) (x y ori : float)
    (prev_x prev_y : option float) : M world unit :=
  emit (Db (RecordPosition robot_id x y ori prev_x prev_y)) ;;
  on_db (fun now d =>
           obind (Database.record_position now robot_id x y ori prev_x prev_y d)
                 (fun _ => Ok (tt, d))) ;;
  fate ;;
  on_db (fun now d =>
           obind (Database.record_position now robot_id x y ori prev_x prev_y d)
                 (fun d' => Ok (tt, d'))).

Definition update_task_status (task_id : Z) (status : string)
    (fail_reason : option json) : M world unit :=
  await_call (Db (UpdateTaskStatus task_id status fail_reason)) ;;
  on_db (fun now d =>
           Ok (tt, Database.update_task_status now task_id status fail_reason d)).

(** [start_redis_status] *)
Definition start_redis_status (stat : bool) : M world unit :=
  print "ROBOT REDIS BOOL STATUS: " [ABool stat] ;;
  let status := if stat then "online" else "offline" in
  redis_set "robot:status" (Lit status) ;;
  redis_set "robot:last_poi" (Lit "origin").

(** ** Frames of the telemetry socket *)

(** What [ws.recv()] returns: a text that [json.loads] decodes to [data],
    or a text that it rejects. *)
Inductive frame : Type :=
| Frame (data : json)
| Garbled (raw : string).

Definition frame_text (f : frame) : pystr :=
  match f with
  | Frame data => Dumps data
  | Garbled raw => Lit raw
  end.

Definition json_loads (f : frame) : outcome json :=
  match f with
  | Frame data => Ok data
  | Garbled _ => Raise JSONDecodeError
  end.

(** What the surroundings of a task do while it is suspended: the clock
    moves, a signal sets [shutdown_event], the task is cancelled, a
    [websockets.connect] or a [ws.recv()] completes, or a timed wait
    ([wait_for(shutdown_event.wait(), ...)], [asyncio.sleep]) runs out. *)
Inductive input : Type :=
| Clock (t : Z)
| Signal
| Cancel
| ConnectOk
| ConnectFail (e : exn)
| Recv (f : frame)
| RecvTimeout
| RecvFail (e : exn)
| Elapsed.

Section WithNumerals.
Context `{StrNumerals}.

(** ** handle_planning_state *)

Definition handle_planning_state (data : json) : M world unit :=
  move_state <- of_outcome (json_get data "move_state" JNull) ;;
  action_id <- of_outcome (json_get data "action_id" JNull) ;;
  fail_reason <- of_outcome (json_get data "fail_reason_str" (JStr "none")) ;;
  remaining_distance <- of_outcome (json_get data "remaining_distance" (JFloat float_zero)) ;;
  print " Planning_state {move_state} | Action: {action_id} | Distance:{remaining_distance}m"
        [AJson move_state; AJson action_id; AJson remaining_distance] ;;
  redis_set "robot:planning_state" (Dumps data) ;;
  current_task_id <- redis_get "robot:current_task_id" ;;
  match current_task_id with
  | Some task_id_str =>
      if str_truthy current_task_id then
        current_task_id <- of_outcome (py_int task_id_str) ;;
        if json_eq_str move_state "moving" then
          redis_set "robot:status" (Lit "active") ;;
          redis_set "robot:state" (Lit "moving") ;;
          of_outcome (format_2f remaining_distance) ;;
          print "Task {current_task_id} in progress ({remaining_distance:.2f})m remaining"
                [AInt current_task_id; AJson remaining_distance]
        else if json_eq_str move_state "succeeded" then
          redis_set "robot:status" (Lit "idle") ;;
          redis_set "robot:state" (Lit "idle") ;;
          update_task_status current_task_id "completed" None ;;
          print "Task {current_task_id} complete successfully" [AInt current_task_id] ;;
          timestamp <- time_time ;;
          redis_publish "robot:task_completed"
            (Dumps (JDict [("task_id", JInt current_task_id);
                           ("status", JStr "completed");
                           ("timestamp", timestamp)]))
        else if json_eq_str move_state "failed" then
          redis_set "robot:status" (Lit "error") ;;
          redis_set "robot:state" (Lit "failed") ;;
          update_task_status current_task_id "failed" (Some fail_reason) ;;
          redis_delete "robot:current_task_id" ;;
          print "Task {current_task_id} failed: {fail_reason}"
                [AInt current_task_id; AJson fail_reason] ;;
          timestamp <- time_time ;;
          redis_publish "robot:task_failed"
            (Dumps (JDict [("task_id", JInt current_task_id);
                           ("status", JStr "failed");
                           ("reason", fail_reason);
                           ("timestamp", timestamp)]))
        else if json_eq_str move_state "cancelled" then
          redis_set "robot:status" (Lit "idle") ;;
          redis_set "robot:state" (Lit "cancelled") ;;
          update_task_status current_task_id "cancelled" None ;;
          redis_delete "robot:current_task_id" ;;
          print "Task {current_task_id} cancelled" [AInt current_task_id] ;;
          timestamp <- time_time ;;
          redis_publish "robot:task_cancelled"
            (Dumps (JDict [("task_id", JInt current_task_id);
                           ("status", JStr "cancelled");
                           ("timestamp", timestamp)]))
        else ret tt
      else print "No active task ID found" []
  | None => print "No active task ID found" []
  end.

(** ** monitor_planning_state *)

(** One turn of [while True]: after [msg = await ws.recv()]. *)
Definition monitor_frame (msg : frame) : M world unit :=
  data <- of_outcome (json_loads msg) ;;
  topic <- of_outcome (json_get data "topic" JNull) ;;
  when (json_eq_str topic "/planning_state") (handle_planning_state data).

(** Where the task is suspended, or how it ended. *)
Inductive monitor_pc : Type :=
| MonConnecting           (* in websockets.connect(url) *)
| MonReceiving            (* in ws.recv() *)
| MonReturned
| MonRaised (e : exn).

(** [except Exception as e: print(...)] and [finally: await ws.close()],
    then the exit of [async with]. *)
Definition monitor_leave (e : exn) : M world monitor_pc :=
  when (is_Exception e) (print "Planning state monitor error: {e}" [AExn e]) ;;
  emit WsClose ;;
  ret (if is_Exception e then MonReturned else MonRaised e).

Definition monitor_guard (body : M world unit) : M world monitor_pc :=
  fun w => match body w with
           | (Ok _, w') => (Ok MonReceiving, w')
           | (Raise e, w') => monitor_leave e w'
           end.

Definition monitor_step (i : input) (pc : monitor_pc) : M world monitor_pc :=
  match i, pc with
  | Clock t, _ => modify (set_clock t) ;; ret pc
  | Signal, _ => modify (set_shutdown true) ;; ret pc
  | ConnectOk, MonConnecting =>
      emit WsOpen ;;
      monitor_guard
        (await_call (WsSend (JDict [("enable_topic", JList [JStr "/planning_state"])])) ;;
         print "Subcribed to /planning_state" [])
  | ConnectFail e, MonConnecting => ret (MonRaised e)
  | Cancel, MonConnecting => ret (MonRaised CancelledError)
  | Recv msg, MonReceiving => monitor_guard (monitor_frame msg)
  | RecvFail e, MonReceiving => monitor_leave e
  | Cancel, MonReceiving => monitor_leave CancelledError
  | _, _ => ret pc
  end.

(** The monitor task driven by what happens around it. A step cannot
    itself raise: an exception ends in [MonReturned] or [MonRaised]. *)
Definition monitor_run_step (st : monitor_pc * world) (i : input) : monitor_pc * world :=
  match monitor_step i (fst st) (snd st) with
  | (Ok pc, w) => (pc, w)
  | (Raise e, w) => (MonRaised e, w)
  end.

Definition monitor_planning_state (inputs : list input) (w : world) : monitor_pc * world :=
  fold_left monitor_run_step inputs (MonConnecting, w).

(** ** pub_robot_status *)

(** The local variables of [pub_robot_status]. *)
Record locals : Type := {
  compile_list : list (string * pystr);
  prev_pose : option (float * float);
  session_id : option Z;
  connection_lost_logged : bool
}.

Definition initial_locals : locals :=
  {| compile_list := []; prev_pose := None; session_id := None;
     connection_lost_logged := false |}.

Definition set_compile_list (c : list (string * pystr)) (l : locals) : locals :=
  {| compile_list := c; prev_pose := prev_pose l; session_id := session_id l;
     connection_lost_logged := connection_lost_logged l |}.
Definition set_prev_pose (p : option (float * float)) (l : locals) : locals :=
  {| compile_list := compile_list l; prev_pose := p; session_id := session_id l;
     connection_lost_logged := connection_lost_logged l |}.
Definition set_session_id (i : option Z) (l : locals) : locals :=
  {| compile_list := compile_list l; prev_pose := prev_pose l; session_id := i;
     connection_lost_logged := connection_lost_logged l |}.
Definition set_connection_lost_logged (b : bool) (l : locals) : locals :=
  {| compile_list := compile_list l; prev_pose := prev_pose l;
     session_id := session_id l; connection_lost_logged := b |}.

(** Code of [pub_robot_status]: it runs on its locals and the world. *)
Definition P (A : Type) : Type := M (locals * world) A.

Definition in_world {A} (m : M world A) : P A :=
  fun s => match m (snd s) with (r, w) => (r, (fst s, w)) end.
Definition local {A} (f : locals -> A) : P A := fun s => (Ok (f (fst s)), s).
Definition assign (f : locals -> locals) : P unit := fun s => (Ok tt, (f (fst s), snd s)).
Definition shutdown_is_set : P bool := fun s => (Ok (w_shutdown (snd s)), s).

(** Truth value of an [Optional[int]] and of an int. *)
Definition opt_int_truthy (o : option Z) : bool :=
  match o with
  | Some z => negb (z =? 0)
  | None => false
  end.

Definition url : string := "ws://192.168.0.250:8090/ws/v2/topics".

(** [active_sessions.pop(robot_id, None)] *)
Definition pop_active_session (robot_id : Z) : P unit :=
  in_world (modify (fun w => set_active_sessions (delete robot_id (w_active_sessions w)) w)).

(** The three branches on the topic of a decoded frame: the statements of
    the inner [try] after [msg = await asyncio.wait_for(ws.recv(), ...)]. *)
Definition telemetry_frame (robot_id : Z) (msg : frame) : P unit :=
  data <- of_outcome (json_loads msg) ;;
  topic <- of_outcome (json_get data "topic" JNull) ;;
  if json_eq_str topic "/battery_state" then
    percentage <- of_outcome (json_get data "percentage" (JInt 0)) ;;
    assign (fun l => set_compile_list (dict_update "battery" (frame_text msg) (compile_list l)) l) ;;
    compiled <- local compile_list ;;
    let data_json := DumpsDict compiled in
    in_world (redis_set "robot:battery" data_json) ;;
    in_world (redis_publish "robot:status" data_json)
  else if json_eq_str topic "/tracked_pose" && negb (robot_id =? 0) then
    pose_data <- of_outcome (json_get data "pos" (JList [])) ;;
    ori_data <- of_outcome (json_get data "ori" (JInt 0)) ;;
    n <- of_outcome (json_len pose_data) ;;
    if 2 <=? n then
      x <- of_outcome (obind (json_index pose_data 0) py_float) ;;
      y <- of_outcome (obind (json_index pose_data 1) py_float) ;;
      ori <- of_outcome (py_float ori_data) ;;
      prev <- local prev_pose ;;
      in_world (record_position robot_id x y ori
                  (option_map fst prev) (option_map snd prev)) ;;
      assign (set_prev_pose (Some (x, y))) ;;
      assign (fun l => set_compile_list (dict_update "pose" (frame_text msg) (compile_list l)) l) ;;
      compiled <- local compile_list ;;
      in_world (redis_publish "robot:pose" (DumpsDict compiled))
    else ret tt
  else if json_eq_str topic "/planning_state" then
    move_state <- of_outcome (json_get data "move_state" JNull) ;;
    let key := "robot:" +:+ pretty robot_id +:+ ":current_task" in
    task_id_str <- in_world (redis_get key) ;;
    match task_id_str with
    | Some id_str =>
        if json_eq_str move_state "succeed" && str_truthy task_id_str then
          task_id <- of_outcome (py_int id_str) ;;
          in_world (update_task_status task_id "completed" None) ;;
          in_world (redis_delete key) ;;
          in_world (print "Task {task_id} completed" [AInt task_id])
        else if json_eq_str move_state "failed" && str_truthy task_id_str then
          task_id <- of_outcome (py_int id_str) ;;
          in_world (update_task_status task_id "failed" None) ;;
          in_world (redis_delete key) ;;
          in_world (print "Task {task_id} failed" [AInt task_id])
        else ret tt
    | None => ret tt
    end
  else ret tt.

(** Where [pub_robot_status] is suspended, or how it ended. *)
Inductive pub_pc : Type :=
| Connecting              (* in websockets.connect(url, ...) *)
| Receiving               (* in asyncio.wait_for(ws.recv(), timeout=5.0) *)
| ReconnectWait           (* in asyncio.wait_for(shutdown_event.wait(), 5) *)
| Sleeping                (* in asyncio.sleep(5) *)
| PubReturned
| PubRaised (e : exn).

(** After the outer loop: [if session_id: ...]. *)
Definition pub_finish (robot_id : Z) : P unit :=
  sid <- local session_id ;;
  when (opt_int_truthy sid)
    (in_world (end_robot_session robot_id "server_shutdown") ;;
     in_world (start_redis_status false) ;;
     pop_active_session robot_id ;;
     in_world (print "ROBOT SESSION CLOSED - Server shutdown - Session {session_id}"
                     [AOptInt sid])).

(** The test of the outer [while not shutdown_event.is_set()]. *)
Definition outer_loop_test (robot_id : Z) : P pub_pc :=
  stop <- shutdown_is_set ;;
  if stop then pub_finish robot_id ;; ret PubReturned else ret Connecting.

(** The test of the inner [while not shutdown_event.is_set()]; leaving the
    loop leaves [async with], which closes the socket. *)
Definition inner_loop_test (robot_id : Z) : P pub_pc :=
  stop <- shutdown_is_set ;;
  if stop then in_world (emit WsClose) ;; outer_loop_test robot_id else ret Receiving.

(** [except (ConnectionClosed, WebSocketException, OSError,
    asyncio.TimeoutError) as e] *)
Definition is_connection_error (e : exn) : bool :=
  match e with
  | ConnectionClosed | WebSocketException | OSError | TimeoutError => true
  | _ => false
  end.

Definition connection_lost (robot_id : Z) (e : exn) : P pub_pc :=
  logged <- local connection_lost_logged ;;
  when (negb logged)
    (in_world (print "Robot connection lost: {type(e).__name__}: {e}"
                     [AStr (exn_name e); AExn e]) ;;
     assign (set_connection_lost_logged true)) ;;
  sid <- local session_id ;;
  when (opt_int_truthy sid)
    (in_world (end_robot_session robot_id ("Connection_lost: " +:+ exn_name e)) ;;
     in_world (start_redis_status false) ;;
     assign (fun l => set_compile_list (dict_update "status" (Lit "offline") (compile_list l)) l) ;;
     compiled <- local compile_list ;;
     in_world (redis_publish "robot:status" (DumpsDict compiled)) ;;
     in_world (print "ROBOT OFFLINE - Session {session_id} ended" [AOptInt sid]) ;;
     pop_active_session robot_id ;;
     assign (set_session_id None)) ;;
  stop <- shutdown_is_set ;;
  if negb stop then
    in_world (print "Reconnecting in {reconnect_delay}s..." [AInt 5]) ;;
    ret ReconnectWait
  else outer_loop_test robot_id.

(** [except Exception as e] *)
Definition unexpected_error (robot_id : Z) (e : exn) : P pub_pc :=
  in_world (print "Unexpected error in pub_robot_status: {e}" [AExn e]) ;;
  in_world (emit (Traceback e)) ;;
  sid <- local session_id ;;
  when (opt_int_truthy sid)
    (in_world (end_robot_session robot_id ("unexpected_error: " +:+ exn_name e)) ;;
     pop_active_session robot_id ;;
     assign (set_session_id None)) ;;
  ret Sleeping.

(** The two handlers of the outer [try]; an exception that neither
    accepts leaves [pub_robot_status]. *)
Definition pub_except (robot_id : Z) (e : exn) : P pub_pc :=
  if is_connection_error e then connection_lost robot_id e
  else if is_Exception e then unexpected_error robot_id e
  else raise e.

(** The body of [async with] before the inner loop. *)
Definition connected (robot_id : Z) : P unit :=
  in_world (print "Websocket connected to {url}" [AStr url]) ;;
  sid <- local session_id ;;
  when (match sid with None => true | Some _ => false end)
    (new_id <- in_world (start_robot_session robot_id) ;;
     assign (set_session_id (Some new_id)) ;;
     in_world (modify (fun w => set_active_sessions
                                  (<[robot_id := new_id]> (w_active_sessions w)) w)) ;;
     in_world (start_redis_status true) ;;
     in_world (print "ROBOT ONLINE - Session {session_id} started (Robot ID: {robot_id})"
                     [AInt new_id; AInt robot_id]) ;;
     assign (set_connection_lost_logged false)) ;;
  in_world (await_call (WsSend (JDict [("disable_topic", JList [JStr "/slam/state"])]))) ;;
  in_world (await_call (WsSend (JDict [("enable_topic",
              JList [JStr "/battery_state"; JStr "/tracked_pose"; JStr "/planning_state"])]))).

(** An exception inside [async with] closes the socket on its way to the
    handlers of the outer [try]. *)
Definition leave_connection (robot_id : Z) (e : exn) : P pub_pc :=
  in_world (emit WsClose) ;; pub_except robot_id e.

(** The part of [async with] before the inner loop, under the outer
    [try]. *)
Definition setup (robot_id : Z) : P pub_pc :=
  fun s => match connected robot_id s with
           | (Ok _, s') => inner_loop_test robot_id s'
           | (Raise e, s') => leave_connection robot_id e s'
           end.

(** One turn of the inner loop after a frame has arrived: the inner [try]
    accepts [asyncio.TimeoutError] only and goes on with the loop. *)
Definition inner_turn (robot_id : Z) (msg : frame) : P pub_pc :=
  fun s => match telemetry_frame robot_id msg s with
           | (Ok _, s') => inner_loop_test robot_id s'
           | (Raise TimeoutError, s') => inner_loop_test robot_id s'
           | (Raise e, s') => leave_connection robot_id e s'
           end.

Definition pub_step (robot_id : Z) (i : input) (pc : pub_pc) : P pub_pc :=
  match i, pc with
  | Clock t, _ => in_world (modify (set_clock t)) ;; ret pc
  | Signal, ReconnectWait =>
      in_world (modify (set_shutdown true)) ;; pub_finish robot_id ;; ret PubReturned
  | Signal, _ => in_world (modify (set_shutdown true)) ;; ret pc
  | Cancel, Receiving => leave_connection robot_id CancelledError
  | Cancel, (Connecting | ReconnectWait | Sleeping) => raise CancelledError
  | ConnectOk, Connecting => in_world (emit WsOpen) ;; setup robot_id
  | ConnectFail e, Connecting => pub_except robot_id e
  | Recv msg, Receiving => inner_turn robot_id msg
  | RecvTimeout, Receiving => inner_loop_test robot_id
  | RecvFail TimeoutError, Receiving => inner_loop_test robot_id
  | RecvFail e, Receiving => leave_connection robot_id e
  | Elapsed, (ReconnectWait | Sleeping) => outer_loop_test robot_id
  | _, _ => ret pc
  end.

(** The state of a running [pub_robot_status]. *)
Definition pub_state : Type := pub_pc * (locals * world).

Definition settle (r : outcome pub_pc * (locals * world)) : pub_state :=
  match r with
  | (Ok pc, s) => (pc, s)
  | (Raise e, s) => (PubRaised e, s)
  end.

Definition pub_run_step (robot_id : Z) (st : pub_state) (i : input) : pub_state :=
  settle (pub_step robot_id i (fst st) (snd st)).

(** Entry: fresh locals, then the first test of the outer loop. *)
Definition pub_enter (robot_id : Z) (w : world) : pub_state :=
  settle (outer_loop_test robot_id (initial_locals, w)).

Definition pub_robot_status (robot_id : Z) (inputs : list input) (w : world) : pub_state :=
  fold_left (pub_run_step robot_id) inputs (pub_enter robot_id w).

(** ** pub_robot_status_manager *)

(** Where the manager is suspended, or how it ended: inside the
    [pub_robot_status] it awaits, in the backoff wait
    [wait_for(shutdown_event.wait(), timeout=wait_time)], returned, or left
    by an exception. *)
Inductive manager_pc : Type :=
| MgrRunning (pc : pub_pc) (l : locals)
| MgrBackoff (wait_time : Z)
| MgrStopped
| MgrRaised (e : exn).

Record manager : Type := {
  mgr_robot_id : option Z;
  restart_count : Z;
  mgr_pc : manager_pc
}.

Definition serial_number : string := "2682406203417T7".

(** After the loop: the last line of the manager. *)
Definition manager_stop : M world manager_pc :=
  print "Robot status manager stopped" [] ;; ret MgrStopped.

(** The statements after the [try] of the loop body, [if not
    shutdown_event.is_set(): ...], up to the backoff wait; with the event
    set the loop test fails next. *)
Definition restart_block (count : Z) : M world (Z * manager_pc) :=
  w <- get ;;
  if negb (w_shutdown w) then
    let count := count + 1 in
    let wait_time := Z.min (5 * count) 60 in
    print "Restarting robot monitor in {wait_time}s..." [AInt wait_time] ;;
    ret (count, MgrBackoff wait_time)
  else
    pc <- manager_stop ;; ret (count, pc).

(** What the manager does once the awaited [pub_robot_status] has
    returned or raised. *)
Definition after_publisher (robot_id count : Z) (ended : outcome unit)
  : M world (Z * manager_pc) :=
  match ended with
  | Ok _ =>
      w <- get ;;
      if w_shutdown w then
        print "Robot status publisher (restart #{restart_count})" [AInt count] ;;
        pc <- manager_stop ;; ret (count, pc)
      else restart_block count
  | Raise CancelledError =>
      print "Robot status publisher cancelled" [] ;;
      w <- get ;;
      match w_active_sessions w !! robot_id with
      | Some sid =>
          end_robot_session robot_id "task_cancelled" ;;
          modify (fun w => set_active_sessions (delete robot_id (w_active_sessions w)) w) ;;
          print "Session {session_id} ended on cancellation" [AInt sid]
      | None => ret tt
      end ;;
      pc <- manager_stop ;; ret (count, pc)
  | Raise e =>
      print "Robot status publisher crahsed: {e}" [AExn e] ;;
      emit (Traceback e) ;;
      restart_block count
  end.

(** The manager follows the publisher it awaits. *)
Definition follow (robot_id count : Z) (st : pub_state) : outcome (Z * manager_pc) * world :=
  match st with
  | (PubReturned, (_, w)) => after_publisher robot_id count (Ok tt) w
  | (PubRaised e, (_, w)) => after_publisher robot_id count (Raise e) w
  | (pc, (l, w)) => (Ok (count, MgrRunning pc l), w)
  end.

(** The loop test and the start of the loop body. *)
Definition manager_loop (robot_id count : Z) : M world (Z * manager_pc) :=
  w <- get ;;
  if w_shutdown w then pc <- manager_stop ;; ret (count, pc)
  else
    print "Starting robot status publisher (restart #{restart_count})" [AInt count] ;;
    (fun w => follow robot_id count (pub_enter robot_id w)).

Definition manager_settle (robot_id : option Z) (count : Z)
    (r : outcome (Z * manager_pc) * world) : manager * world :=
  match r with
  | (Ok (count', pc), w) =>
      ({| mgr_robot_id := robot_id; restart_count := count'; mgr_pc := pc |}, w)
  | (Raise e, w) =>
      ({| mgr_robot_id := robot_id; restart_count := count; mgr_pc := MgrRaised e |}, w)
  end.

(** Entry: the robot id is resolved once; without it the manager logs the
    error and returns. *)
Definition manager_enter (w : world) : manager * world :=
  match get_robot_id_by_sn serial_number w with
  | (Ok robot_id, w') =>
      match robot_id with
      | Some id =>
          if negb (id =? 0) then manager_settle robot_id 0 (manager_loop id 0 w')
          else manager_settle robot_id 0
                 ((print "ERROR: Robot not found in database. cannot start monitor." [] ;;
                   ret (0, MgrStopped)) w')
      | None =>
          manager_settle robot_id 0
            ((print "ERROR: Robot not found in database. cannot start monitor." [] ;;
              ret (0, MgrStopped)) w')
      end
  | (Raise e, w') =>
      ({| mgr_robot_id := None; restart_count := 0; mgr_pc := MgrRaised e |}, w')
  end.

Definition manager_step (st : manager * world) (i : input) : manager * world :=
  let (m, w) := st in
  match mgr_pc m, mgr_robot_id m with
  | MgrRunning pc l, Some robot_id =>
      manager_settle (Some robot_id) (restart_count m)
        (follow robot_id (restart_count m) (pub_run_step robot_id (pc, (l, w)) i))
  | MgrBackoff wait_time, Some robot_id =>
      manager_settle (Some robot_id) (restart_count m)
        (match i with
         | Clock t => (Ok (restart_count m, MgrBackoff wait_time), set_clock t w)
         | Signal =>
             (modify (set_shutdown true) ;;
              pc <- manager_stop ;; ret (restart_count m, pc)) w
         | Elapsed => manager_loop robot_id (restart_count m) w
         | Cancel => (Raise CancelledError, w)
         | _ => (Ok (restart_count m, MgrBackoff wait_time), w)
         end)
  | _, _ =>
      match i with
      | Clock t => (m, set_clock t w)
      | Signal => (m, set_shutdown true w)
      | _ => (m, w)
      end
  end.

Definition pub_robot_status_manager (inputs : list input) (w : world) : manager * world :=
  fold_left manager_step inputs (manager_enter w).

End WithNumerals.

(** ** cleanup_active_sessions *)

(** [for x in items: body] *)
Fixpoint for_each {A} (items : list A) (body : A -> M world unit) : M world unit :=
  match items with
  | [] => ret tt
  | x :: rest => body x ;; for_each rest body
  end.

(** The body of the loop of [cleanup_active_sessions] with its [try]:
    [except Exception] reports the failure and the loop goes on. *)
Definition cleanup_session (item : Z * Z) : M world unit :=
  fun w => match end_robot_session (fst item) "server_shutdown" w with
           | (Ok _, w') =>
               print "Ended session {session_id} for robot {robot_id}"
                     [AInt (snd item); AInt (fst item)] w'
           | (Raise e, w') =>
               if is_Exception e
               then print "Error ending session {session_id}: {e}"
                          [AInt (snd item); AExn e] w'
               else (Raise e, w')
           end.

(** [cleanup_active_sessions]. The registry is a finite map, which does
    not keep the insertion order of a [dict]: [items] is
    [list(active_sessions.items())] in the order Python yields it. The
    call runs to its end with no other task in between. *)
Definition cleanup_active_sessions (items : list (Z * Z)) : M world unit :=
  w <- get ;;
  if Nat.eqb (size (w_active_sessions w)) 0 then
    print "No active sessions to clean up" []
  else
    print "Cleaning up {len(active_sessions)} active sessions..."
          [AInt (Z.of_nat (size (w_active_sessions w)))] ;;
    for_each items cleanup_session ;;
    modify (set_active_sessions ∅) ;;
    print "All session cleaned up" [].

(** ** pub_lidar_points *)

(** Where the task is suspended, or how it ended. *)
Inductive lidar_pc : Type :=
| LidarConnecting         (* in websockets.connect(url) *)
| LidarReceiving          (* in ws.recv() *)
| LidarReturned
| LidarRaised (e : exn).

(** [except Exception as e: print(e)], then the exit of [async with],
    which closes the socket. *)
Definition lidar_leave (e : exn) : M world lidar_pc :=
  when (is_Exception e) (print "{e}" [AExn e]) ;;
  emit WsClose ;;
  ret (if is_Exception e then LidarReturned else LidarRaised e).

Definition lidar_guard (body : M world unit) : M world lidar_pc :=
  fun w => match body w with
           | (Ok _, w') => (Ok LidarReceiving, w')
           | (Raise e, w') => lidar_leave e w'
           end.

Definition lidar_step (i : input) (pc : lidar_pc) : M world lidar_pc :=
  match i, pc with
  | Clock t, _ => modify (set_clock t) ;; ret pc
  | Signal, _ => modify (set_shutdown true) ;; ret pc
  | ConnectOk, LidarConnecting =>
      emit WsOpen ;;
      lidar_guard
        (await_call (WsSend (JDict [("disable_topic", JList [JStr "/slam/state"])])) ;;
         await_call (WsSend (JDict [("enable", JList [JStr "/scan_matched_points2"])])))
  | ConnectFail e, LidarConnecting => ret (LidarRaised e)
  | Cancel, LidarConnecting => ret (LidarRaised CancelledError)
  | Recv msg, LidarReceiving => lidar_guard (redis_publish "robot:lidar" (frame_text msg))
  | RecvFail e, LidarReceiving => lidar_leave e
  | Cancel, LidarReceiving => lidar_leave CancelledError
  | _, _ => ret pc
  end.

Definition lidar_run_step (st : lidar_pc * world) (i : input) : lidar_pc * world :=
  match lidar_step i (fst st) (snd st) with
  | (Ok pc, w) => (pc, w)
  | (Raise e, w) => (LidarRaised e, w)
  end.

Definition pub_lidar_points (inputs : list input) (w : world) : lidar_pc * world :=
  fold_left lidar_run_step inputs (LidarConnecting, w).

(** ** ConnectionManager *)

(** The client sockets are told apart by identity: [client] numbers them.
    What the manager does to them is traced; [hub_faults] fixes the fate of
    the awaited [accept] and [send_text] calls still to come, as
    [w_faults] does. *)
Definition client : Type := Z.

Inductive hub_effect : Type :=
| Accept (ws : client)
| SendText (ws : client) (message : pystr)
| HubPrinted (fmt : string) (args : list parg).

Record hub : Type := {
  active_connections : list client;
  hub_faults : list (option exn);
  hub_trace : list hub_effect
}.

Definition hub_emit (e : hub_effect) : M hub unit :=
  modify (fun h => {| active_connections := active_connections h;
                      hub_faults := hub_faults h;
                      hub_trace := hub_trace h ++ [e] |}).

Definition hub_await (e : hub_effect) : M hub unit :=
  hub_emit e ;;
  h <- get ;;
  match hub_faults h with
  | [] => ret tt
  | f :: rest =>
      modify (fun h => {| active_connections := active_connections h;
                          hub_faults := rest;
                          hub_trace := hub_trace h |}) ;;
      match f with
      | Some exc => raise exc
      | None => ret tt
      end
  end.

Definition set_connections (c : list client) : M hub unit :=
  modify (fun h => {| active_connections := c;
                      hub_faults := hub_faults h;
                      hub_trace := hub_trace h |}).

(** [list.remove(x)]: the list without the first occurrence of [x];
    [None] when there is none ([ValueError]). *)
Fixpoint list_remove (x : client) (l : list client) : option (list client) :=
  match l with
  | [] => None
  | y :: rest =>
      if y =? x then Some rest else option_map (cons y) (list_remove x rest)
  end.

Definition connect (websocket : client) : M hub unit :=
  hub_await (Accept websocket) ;;
  h <- get ;;
  set_connections (active_connections h ++ [websocket]) ;;
  h <- get ;;
  hub_emit (HubPrinted "Client connected: {len(self.active_connections)} total"
              [AInt (Z.of_nat (List.length (active_connections h)))]).

Definition disconnect (websocket : client) : M hub unit :=
  h <- get ;;
  match list_remove websocket (active_connections h) with
  | None => raise ValueError
  | Some rest =>
      set_connections rest ;;
      hub_emit (HubPrinted "Client disconnected: {len(self.active_connections)} remaining"
                  [AInt (Z.of_nat (List.length rest))])
  end.

Definition send_personal_message (message : pystr) (websocket : client) : M hub unit :=
  hub_await (SendText websocket message).

(** [for connection in self.active_connections: await
    connection.send_text(message)] *)
Fixpoint send_each (message : pystr) (connections : list client) : M hub unit :=
  match connections with
  | [] => ret tt
  | connection :: rest => hub_await (SendText connection message) ;; send_each message rest
  end.

Definition broadcast (message : pystr) : M hub unit :=
  h <- get ;; send_each message (active_connections h).

(** ** Vocabulary for the movement samples of a run *)

Definition movement (s : locals * world) : list Database.movement_row :=
  Database.robot_movement (w_db (snd s)).

(** The movement table and the previous pose are the same in both states. *)
Definition same_track (s s' : locals * world) : Prop :=
  movement s' = movement s /\ prev_pose (fst s') = prev_pose (fst s).

(** Code that leaves the movement table alone, and code of
    [pub_robot_status] that also leaves the previous pose alone. *)
Definition keeps_w {A} (m : M world A) : Prop :=
  forall w r w', m w = (r, w') ->
    Database.robot_movement (w_db w') = Database.robot_movement (w_db w).

Definition keeps {A} (m : P A) : Prop :=
  forall s r s', m s = (r, s') -> same_track s s'.

(** Nothing changed, or one sample was appended with the distance from
    the previous pose and became the previous pose. *)
Definition track_step (s s' : locals * world) : Prop :=
  same_track s s' \/
  exists row,
    movement s' = (movement s ++ [row])%list /\
    Database.expected_distance (prev_pose (fst s)) (Database.m_x row) (Database.m_y row)
      = Ok (Database.m_distance row) /\
    prev_pose (fst s') = Some (Database.m_x row, Database.m_y row).

Definition tracks {A} (m : P A) : Prop :=
  forall s r s', m s = (r, s') -> track_step s s'.

(** The samples added to [base] chain from the start of the run, and the
    previous pose is the pose of the last of them. *)
Definition tracked (base : list Database.movement_row) (s : locals * world) : Prop :=
  exists added,
    movement s = (base ++ added)%list /\
    Database.chained_from None added /\
    prev_pose (fst s) = Database.last_pose None added.

(** Code that leaves the broker entry [key] as it was. *)
Definition keeps_key {A} (key : string) (m : M world A) : Prop :=
  forall w r w', m w = (r, w') -> w_redis w' !! key = w_redis w !! key.

(** Counting in a trace. *)
Definition count (p : effect -> bool) (t : list effect) : nat :=
  List.length (List.filter p t).

Definition is_task_write (task_id : Z) (status : string) (e : effect) : bool :=
  match e with
  | Db (UpdateTaskStatus t s _) => (t =? task_id) && String.eqb s status
  | _ => false
  end.

Definition is_any_task_write (e : effect) : bool :=
  match e with
  | Db (UpdateTaskStatus _ _ _) => true
  | _ => false
  end.

Definition is_publish_on (channel : string) (e : effect) : bool :=
  match e with
  | Redis (RedisPublish c _) => String.eqb c channel
  | _ => false
  end.

(** ** Worlds after a handler has run *)

(** The world after [effects] were traced, the session of [robot_id] was
    ended with [reason] and its entry was taken out of [active_sessions]. *)
Definition session_ended (robot_id : Z) (reason : string) (effects : list effect)
    (w : world) : world :=
  set_active_sessions (delete robot_id (w_active_sessions w))
    (set_db (snd (Database.end_robot_session (w_clock w) robot_id reason (w_db w)))
       (set_trace (w_trace w ++ effects) w)).

(** The same with the broker status set to offline, as
    [start_redis_status(redis, False)] does. *)
Definition gone_offline (robot_id : Z) (reason : string) (effects : list effect)
    (w : world) : world :=
  set_redis (<["robot:last_poi" := Lit "origin"]>
               (<["robot:status" := Lit "offline"]> (w_redis w)))
    (session_ended robot_id reason effects w).

(** The world after a session of [robot_id] was started and announced. *)
Definition session_started (robot_id : Z) (effects : list effect) (w : world) : world :=
  set_redis (<["robot:last_poi" := Lit "origin"]>
               (<["robot:status" := Lit "online"]> (w_redis w)))
    (set_active_sessions
       (<[robot_id := fst (Database.start_robot_session (w_clock w) robot_id (w_db w))]>
          (w_active_sessions w))
       (set_db (snd (Database.start_robot_session (w_clock w) robot_id (w_db w)))
          (set_trace (w_trace w ++ effects) w))).

(** The backoff wait the manager enters after a failed run, when
    [restart_count] was [count] before. *)
Definition backoff_after (count : Z) (w : world) : option Z :=
  match fst (restart_block count w) with
  | Ok (_, MgrBackoff wait_time) => Some wait_time
  | _ => None
  end.

(** ** Frames and worlds of the examples *)

(** The numeral parsers under which no [str] is a numeral. The closed
    examples are run with it; none of them hands a [str] to [int] or
    [float], so they come out the same under every parser. *)
Definition no_numeral_strings : StrNumerals :=
  {| int_of_str := fun _ => None; float_of_str := fun _ => None |}.

(** [{"topic": "/tracked_pose", "pos": [x, y], "ori": 0}] *)
Definition pose_frame (x y : Z) : frame :=
  Frame (JDict [("topic", JStr "/tracked_pose");
                ("pos", JList [JInt x; JInt y]);
                ("ori", JInt 0)]).

(** [{"topic": "/planning_state", "move_state": ..., "action_id": 3,
    "remaining_distance": 2}] *)
Definition planning_frame (move_state : string) : frame :=
  Frame (JDict [("topic", JStr "/planning_state");
                ("move_state", JStr move_state);
                ("action_id", JInt 3);
                ("remaining_distance", JInt 2)]).

(** [{"topic": "/battery_state", "percentage": 80}] *)
Definition battery_frame : frame :=
  Frame (JDict [("topic", JStr "/battery_state"); ("percentage", JInt 80)]).

(** A database with the monitored robot and its task 7 in progress. *)
Definition fleet_db : Database.db :=
  {| Database.robots := [{| Database.r_id := 1; Database.r_sn := serial_number |}];
     Database.tasks_history :=
       [{| Database.t_task_id := 7; Database.t_robot_id := 1;
           Database.t_status := "in_progress"; Database.t_end_time := 0;
           Database.t_notes := None |}];
     Database.robot_movement := [];
     Database.robot_sessions := [];
     Database.robot_sessions_seq := 1 |}.

(** The world in which the dispatcher has written the cross-reference of
    task 7. *)
Definition tracking_world : world :=
  set_redis (<["robot:current_task_id" := Dumps (JInt 7)]> ∅) (initial_world fleet_db).

(** The telemetry loop of robot 1 after its first connect: a session is
    open and the loop waits for a frame. *)
Definition online_state : locals * world :=
  snd (@pub_robot_status no_numeral_strings 1 [ConnectOk] (initial_world fleet_db)).

(** The same state when the next awaited call is going to raise [e]. *)
Definition failing_next (e : exn) (s : locals * world) : locals * world :=
  (fst s, set_faults [Some e] (snd s)).

(** The world in which the [end_robot_session] of the generic handler
    raises twice: in the first run of the telemetry loop (after the lookup
    of the robot id and the five calls of a first connect) and in the
    second (after the five calls of its connect). *)
Definition crashing_world : world :=
  set_faults [None; None; None; None; None; None; Some PostgresError;
              None; None; None; None; None; Some PostgresError]
    (initial_world fleet_db).

(** ** Vocabulary for the effects of the tasks *)

(** Code whose effect on the database stays within the relation [R]. *)
Definition respects_w (R : Database.db -> Database.db -> Prop) {A} (m : M world A) : Prop :=
  forall w r w', m w = (r, w') -> R (w_db w) (w_db w').

Definition respects (R : Database.db -> Database.db -> Prop) {A} (m : P A) : Prop :=
  forall s r s', m s = (r, s') -> R (w_db (snd s)) (w_db (snd s')).

(** The first line [handle_planning_state] prints for the event [d], and
    the failure reason it reads from it. *)
Definition planning_state_line (d : list (string * json)) : effect :=
  Printed " Planning_state {move_state} | Action: {action_id} | Distance:{remaining_distance}m"
    [AJson (match assoc "move_state" d with Some v => v | None => JNull end);
     AJson (match assoc "action_id" d with Some v => v | None => JNull end);
     AJson (match assoc "remaining_distance" d with Some v => v | None => JFloat float_zero end)].

Definition fail_reason_of (d : list (string * json)) : json :=
  match assoc "fail_reason_str" d with Some v => v | None => JStr "none" end.

Definition is_publish (e : effect) : bool :=
  match e with
  | Redis (RedisPublish _ _) => true
  | _ => false
  end.

(** [f"robot:{robot_id}:current_task"], the cross-reference of the
    telemetry loop. *)
Definition current_task_key (robot_id : Z) : string :=
  "robot:" +:+ pretty robot_id +:+ ":current_task".

(** Connection attempts that fail with [errors], each followed by the end
    of the reconnect wait. *)
Definition retries (errors : list exn) : list input :=
  flat_map (fun e => [ConnectFail e; Elapsed]) errors.

Definition reconnecting_line : effect :=
  Printed "Reconnecting in {reconnect_delay}s..." [AInt 5].

Definition connection_lost_line (e : exn) : effect :=
  Printed "Robot connection lost: {type(e).__name__}: {e}" [AStr (exn_name e); AExn e].

(** The receive of the telemetry loop timed out. *)
Definition is_receive_timeout (i : input) : bool :=
  match i with
  | RecvTimeout | RecvFail TimeoutError => true
  | _ => false
  end.

(** Fates under which no call is cancelled: a failing call raises an
    [Exception]. *)
Definition harmless (faults : list (option exn)) : Prop :=
  Forall (fun f => match f with Some e => is_Exception e = true | None => True end) faults.

Definition is_session_end (e : effect) : bool :=
  match e with
  | Db (EndRobotSession _ _) => true
  | _ => false
  end.

(** The call the cleanup makes for an entry of the registry. *)
Definition shutdown_end (item : Z * Z) : effect :=
  Db (EndRobotSession (fst item) "server_shutdown").

(** What the lidar relay sends when it has connected, and what it does
    with a frame. *)
Definition lidar_subscription : list effect :=
  [WsOpen;
   WsSend (JDict [("disable_topic", JList [JStr "/slam/state"])]);
   WsSend (JDict [("enable", JList [JStr "/scan_matched_points2"])])].

Definition lidar_publish (f : frame) : effect :=
  Redis (RedisPublish "robot:lidar" (frame_text f)).


(** The fields of a [/planning_state] event, as in [planning_frame]. *)
Definition planning_event (move_state : string) : list (string * json) :=
  [("topic", JStr "/planning_state");
   ("move_state", JStr move_state);
   ("action_id", JInt 3);
   ("remaining_distance", JInt 2)].

(** The state after the first connect in which the dispatcher has written
    the cross-reference of the telemetry loop for task 7. *)
Definition inline_tracking_state : locals * world :=
  (fst online_state,
   set_redis (<[current_task_key 1 := Dumps (JInt 7)]> (w_redis (snd online_state)))
     (snd online_state)).

(** A connection manager with two clients. *)
Definition two_clients : hub :=
  {| active_connections := [1; 2]; hub_faults := []; hub_trace := [] |}.

(** The backoff wait a step of the manager enters, if it enters one. *)
Definition entered_wait (before after : manager) : option Z :=
  match mgr_pc before, mgr_pc after with
  | MgrBackoff _, _ => None
  | _, MgrBackoff wait_time => Some wait_time
  | _, _ => None
  end.

(** The backoff waits the manager enters in a run, in order. *)
Fixpoint waits_of_run `{StrNumerals} (st : manager * world) (inputs : list input) : list Z :=
  match inputs with
  | [] => []
  | i :: rest =>
      match entered_wait (fst st) (fst (manager_step st i)) with
      | Some wait_time => [wait_time]
      | None => []
      end ++ waits_of_run (manager_step st i) rest
  end.

(** [min(5 * k, 60)] for [k = first + 1 .. first + n]. *)
Definition backoff_waits (first n : nat) : list Z :=
  map (fun k => Z.min (5 * Z.of_nat k) 60) (seq (S first) n).

(** The telemetry loop of robot 1 left by the [PostgresError] that the
    [end_robot_session] of its generic handler raises after a frame that
    is no JSON. *)
Definition crashed_state : pub_state :=
  @pub_run_step no_numeral_strings 1
    (Receiving, failing_next PostgresError online_state) (Recv (Garbled "not json")).

(** The world at shutdown with the sessions of robots 1 and 2 in the
    registry, in which the first awaited call is going to raise. *)
Definition two_sessions_world : world :=
  set_faults [Some PostgresError]
    (set_active_sessions (<[2 := 2]> (<[1 := 1]> ∅))
       (set_shutdown true
          (initial_world
             (Database.run_calls [Database.StartSession 10 1; Database.StartSession 11 2]
                fleet_db)))).

End RedisServer.

(* ===================================================================== *)
(** * Properties of database.py *)
(* ===================================================================== *)

Section DatabaseFacts.
Import Python Database.

(** ** Distances *)




Lemma record_position_expected now robot_id x y ori prev d :
  record_position now robot_id x y ori (option_map fst prev) (option_map snd prev) d =
  obind (expected_distance prev x y)
        (fun distance => Ok (with_sample now robot_id x y ori distance d)).
Proof. destruct prev as [[px py] |]; reflexivity. Qed.




(** C10: in [record_position] the stored distance is 0.0 unless both
    previous coordinates are given: a call that supplies only one of them
    does what the call without a previous pose does and stores distance
    0.0; only with both does the distance come from
    [calculate_distance]. *)
Theorem C10_one_previous_coordinate_records_zero
    (now robot_id : Z) (x y ori p q : float) (d : db) :
  record_position now robot_id x y ori None None d
    = Ok (with_sample now robot_id x y ori float_zero d) /\
  record_position now robot_id x y ori (Some p) None d
    = Ok (with_sample now robot_id x y ori float_zero d) /\
  record_position now robot_id x y ori None (Some q) d
    = Ok (with_sample now robot_id x y ori float_zero d) /\
  record_position now robot_id x y ori (Some p) (Some q) d
    = obind (calculate_distance p q x y)
            (fun distance => Ok (with_sample now robot_id x y ori distance d)).
Proof. repeat split. Qed.

End DatabaseFacts.

Section SessionFacts.
Import Python Database.

(** ** The session log *)

Lemma latest_None rows : latest rows = None <-> rows = [].
Proof.
  split.
  - destruct rows as [| row rest]; [reflexivity |]. simpl.
    destruct (latest rest); [destruct (_ <? _) |]; discriminate.
  - intros ->. reflexivity.
Qed.

Lemma latest_In rows row : latest rows = Some row -> In row rows.
Proof.
  revert row. induction rows as [| r rest IH]; simpl; [discriminate |].
  intros row. destruct (latest rest) as [best |].
  - destruct (_ <? _); intros [= <-]; auto.
  - intros [= <-]. auto.
Qed.

Lemma last_online_session_None robot_id d :
  last_online_session robot_id d = None <-> online_rows robot_id d = [].
Proof. apply latest_None. Qed.

Lemma last_online_session_Some robot_id d row :
  last_online_session robot_id d = Some row ->
  In row (robot_sessions d) /\ s_robot_id row = robot_id /\ s_status row = "online".
Proof.
  intros H. apply latest_In, filter_In in H. destruct H as [Hin Hon].
  unfold is_online_of in Hon. apply andb_true_iff in Hon as [Hr Hs].
  apply Z.eqb_eq in Hr. apply String.eqb_eq in Hs. auto.
Qed.


Lemma no_two_online_snoc l x :
  no_two_online (l ++ [x]) =
  no_two_online l && negb (ends_online l && String.eqb x "online").
Proof.
  induction l as [| a [| b l'] IH].
  - reflexivity.
  - simpl. unfold ends_online. simpl. destruct (String.eqb a "online"), (String.eqb x "online"); reflexivity.
  - change (no_two_online ((a :: b :: l') ++ [x]))
      with (negb (String.eqb a "online" && String.eqb b "online") && no_two_online ((b :: l') ++ [x])).
    rewrite IH.
    change (no_two_online (a :: b :: l'))
      with (negb (String.eqb a "online" && String.eqb b "online") && no_two_online (b :: l')).
    unfold ends_online. rewrite !last_cons_cons. rewrite andb_assoc. reflexivity.
Qed.

Lemma no_two_online_lookup l i :
  no_two_online l = true ->
  l !! i = Some "online" -> l !! S i = Some "online" -> False.
Proof.
  revert i. induction l as [| a [| b l'] IH]; intros i Hl Hi HSi.
  - discriminate.
  - destruct i; discriminate.
  - change (negb (String.eqb a "online" && String.eqb b "online") && no_two_online (b :: l') = true) in Hl.
    apply andb_true_iff in Hl as [Hab Hl].
    destruct i as [| i].
    + simpl in Hi, HSi. injection Hi as ->. injection HSi as ->. discriminate.
    + apply (IH i Hl); assumption.
Qed.


Lemma ends_online_In (l : list session_row) :
  ends_online (map s_status l) = true ->
  exists row, In row l /\ s_status row = "online".
Proof.
  induction l as [| a [| b l'] IH]; intros H.
  - discriminate.
  - exists a. split; [left; reflexivity |]. apply String.eqb_eq. exact H.
  - destruct IH as (row & Hin & Hon).
    + unfold ends_online in *. simpl map in *. rewrite last_cons_cons in H. exact H.
    + exists row. split; [right; exact Hin | exact Hon].
Qed.

Lemma ends_online_snoc l x : ends_online (l ++ [x]) = String.eqb x "online".
Proof. unfold ends_online. rewrite last_snoc. reflexivity. Qed.

Lemma no_online_not_ends_online robot_id d :
  last_online_session robot_id d = None ->
  ends_online (map s_status (rows_of robot_id d)) = false.
Proof.
  intros Hnone. apply not_true_is_false. intros Hends.
  apply ends_online_In in Hends as (row & Hin & Hon).
  apply filter_In in Hin as [Hin Hr].
  apply last_online_session_None in Hnone.
  assert (Hin' : In row (online_rows robot_id d)).
  { apply filter_In. split; [exact Hin |]. unfold is_online_of.
    rewrite Hr, Hon. reflexivity. }
  rewrite Hnone in Hin'. destruct Hin'.
Qed.

Lemma sessions_ok_empty : sessions_ok empty_db.
Proof. split; simpl; try constructor; try lia. Qed.

Lemma rows_of_insert r robot_id status ts du notes d :
  rows_of r (snd (insert_session robot_id status ts du notes d)) =
  (rows_of r d ++
   (if robot_id =? r
    then [{| s_id := robot_sessions_seq d; s_robot_id := robot_id; s_status := status;
             s_timestamp := ts; s_session_duration := du; s_notes := notes |}]
    else []))%list.
Proof.
  unfold rows_of. simpl. rewrite List.filter_app. simpl. reflexivity.
Qed.

(** Inserting a row keeps the log well formed when the row is offline with
    a duration, or online after a log that does not end online. *)
Lemma sessions_ok_insert robot_id status ts du notes d :
  sessions_ok d ->
  (status = "offline" /\ du <> None) \/
  (status = "online" /\ ends_online (map s_status (rows_of robot_id d)) = false) ->
  sessions_ok (snd (insert_session robot_id status ts du notes d)).
Proof.
  intros [Hseq Hids Hst Halt Hdur] Hrow. split.
  - simpl. lia.
  - simpl. apply Forall_app. split; [exact Hids |]. constructor; [simpl; lia | constructor].
  - simpl. apply Forall_app. split; [exact Hst |]. constructor; [| constructor].
    simpl. destruct Hrow as [[-> _] | [-> _]]; auto.
  - intros r. rewrite rows_of_insert. destruct (Z.eqb_spec robot_id r) as [-> | Hne].
    + rewrite map_app. simpl map. rewrite no_two_online_snoc, Halt. simpl.
      destruct Hrow as [[-> _] | [-> Hends]].
      * rewrite andb_false_r. reflexivity.
      * rewrite Hends. reflexivity.
    + rewrite app_nil_r. apply Halt.
  - simpl. apply Forall_app. split; [exact Hdur |]. constructor; [| constructor].
    unfold offline_has_duration. simpl.
    destruct Hrow as [[-> Hdu] | [-> _]]; simpl.
    + destruct du; [reflexivity | contradiction].
    + reflexivity.
Qed.

Lemma find_id_of_member (rows : list session_row) row :
  In row rows -> List.find (fun r => s_id r =? s_id row) rows <> None.
Proof.
  induction rows as [| a rest IH]; intros Hin; [destruct Hin |].
  simpl. destruct (Z.eqb_spec (s_id a) (s_id row)); [discriminate |].
  destruct Hin as [-> | Hin]; [contradiction | auto].
Qed.

Lemma sessions_ok_start now robot_id d :
  sessions_ok d -> sessions_ok (snd (start_robot_session now robot_id d)).
Proof.
  intros Hok. unfold start_robot_session.
  destruct (last_online_session robot_id d) as [row |] eqn:Hlast; simpl option_map; cbv iota.
  - apply last_online_session_Some in Hlast as (Hin & Hr & Hon).
    assert (Hid : 0 < s_id row).
    { pose proof (ok_ids d Hok) as Hids. rewrite Forall_forall in Hids.
      apply Hids. apply list_elem_of_In. exact Hin. }
    destruct (Z.eqb_spec (s_id row) 0) as [Hz | _]; [lia |]. simpl negb. cbv iota.
    apply sessions_ok_insert.
    + apply sessions_ok_insert; [exact Hok |]. left. split; [reflexivity |].
      pose proof (find_id_of_member _ _ Hin) as Hfind.
      destruct (List.find _ _); [discriminate | contradiction].
    + right. split; [reflexivity |]. rewrite rows_of_insert, Z.eqb_refl, map_app.
      simpl map. rewrite ends_online_snoc. reflexivity.
  - apply sessions_ok_insert; [exact Hok |]. right. split; [reflexivity |].
    apply no_online_not_ends_online. exact Hlast.
Qed.

Lemma sessions_ok_end now robot_id reason d :
  sessions_ok d -> sessions_ok (snd (end_robot_session now robot_id reason d)).
Proof.
  intros Hok. unfold end_robot_session.
  destruct (last_online_session robot_id d) as [row |]; [| exact Hok].
  apply (sessions_ok_insert robot_id "offline" now
           (Some (now - s_timestamp row)) (Some ("Disconnected: " +:+ reason)) d Hok).
  left. split; [reflexivity | discriminate].
Qed.

Lemma sessions_ok_run calls d :
  sessions_ok d -> sessions_ok (run_calls calls d).
Proof.
  revert d. induction calls as [| c calls IH]; intros d Hok; [exact Hok |].
  simpl. apply IH. destruct c; simpl;
    [apply sessions_ok_start | apply sessions_ok_end]; exact Hok.
Qed.


Lemma unclosed_online_le_1 (l : list string) :
  Forall (fun a => a = "online" \/ a = "offline") l ->
  no_two_online l = true -> (unclosed_online l <= 1)%nat.
Proof.
  induction l as [| a rest IH]; intros Hst Halt; [simpl; lia |].
  inversion Hst as [| ? ? Ha Hrest]; subst.
  assert (Hrest_alt : no_two_online rest = true).
  { destruct rest as [| b rest']; [reflexivity |].
    change (negb (String.eqb a "online" && String.eqb b "online")
            && no_two_online (b :: rest') = true) in Halt.
    apply andb_true_iff in Halt. tauto. }
  specialize (IH Hrest Hrest_alt).
  change (((if String.eqb a "online" && negb (existsb (fun b => String.eqb b "offline") rest)
            then 1 else 0) + unclosed_online rest <= 1)%nat).
  destruct (String.eqb a "online" && negb (existsb (fun b => String.eqb b "offline") rest))
    eqn:Hopen; [| simpl; lia].
  apply andb_true_iff in Hopen as [Hon Hnone].
  destruct rest as [| b rest']; [simpl; lia |].
  exfalso. inversion Hrest as [| ? ? Hb _]; subst.
  change (negb (String.eqb a "online" && String.eqb b "online")
          && no_two_online (b :: rest') = true) in Halt.
  apply andb_true_iff in Halt as [Hab _]. rewrite Hon in Hab. simpl in Hab.
  destruct Hb as [-> | ->]; [discriminate Hab |].
  simpl in Hnone. discriminate Hnone.
Qed.

Lemma statuses_of_rows r d :
  sessions_ok d ->
  Forall (fun a => a = "online" \/ a = "offline") (map s_status (rows_of r d)).
Proof.
  intros Hok. apply List.Forall_map. unfold rows_of.
  apply Forall_forall. intros row Hin. apply list_elem_of_In, filter_In in Hin as [Hin _].
  pose proof (ok_status d Hok) as Hst. rewrite Forall_forall in Hst.
  apply Hst, list_elem_of_In, Hin.
Qed.

Lemma end_robot_session_without_online_row now robot_id reason d :
  online_rows robot_id d = [] ->
  end_robot_session now robot_id reason d = (None, d).
Proof.
  intros Hnone. unfold end_robot_session.
  rewrite (proj2 (last_online_session_None robot_id d) Hnone). reflexivity.
Qed.

(** C2, counterexample: connect, disconnect, connect leaves two rows with
    status online for the robot. *)
Lemma C2_two_online_rows :
  List.length (online_rows 1 (run_calls [StartSession 10 1; EndSession 20 1 "normal";
                                         StartSession 30 1] empty_db)) = 2%nat /\
  ~ (List.length (online_rows 1 (run_calls [StartSession 10 1; EndSession 20 1 "normal";
                                            StartSession 30 1] empty_db)) <= 1)%nat.
Proof. split; [vm_compute; reflexivity | vm_compute; lia]. Qed.

(** C2 (amended): the session table is an append-only log, so online rows
    accumulate; after any sequence of [start_robot_session] and
    [end_robot_session] calls on an empty table, for every robot at most
    one online row has no offline row after it, no two consecutive rows of
    the robot are online, and every offline row has a duration. *)
Theorem C2_session_log_invariant (calls : list session_call) (robot_id : Z) :
  (unclosed_online (map s_status (rows_of robot_id (run_calls calls empty_db))) <= 1)%nat /\
  no_two_online (map s_status (rows_of robot_id (run_calls calls empty_db))) = true /\
  forallb offline_has_duration (robot_sessions (run_calls calls empty_db)) = true.
Proof.
  pose proof (sessions_ok_run calls empty_db sessions_ok_empty) as Hok.
  split; [| split].
  - apply unclosed_online_le_1; [apply statuses_of_rows, Hok | apply (ok_alt _ Hok)].
  - apply (ok_alt _ Hok).
  - apply forallb_forall. intros row Hin.
    pose proof (ok_dur _ Hok) as Hdur. rewrite Forall_forall in Hdur.
    apply Hdur, list_elem_of_In, Hin.
Qed.

(** C4, the code at the failing input: after a session was started and
    ended, the robot's latest row is offline, yet a second
    [end_robot_session] finds the old online row, returns an id and
    inserts one more offline row. *)
Theorem C4_second_end_writes_again :
  latest_row_is_online 1
    (run_calls [StartSession 10 1; EndSession 20 1 "normal"] empty_db) = false /\
  fst (end_robot_session 30 1 "server_shutdown"
         (run_calls [StartSession 10 1; EndSession 20 1 "normal"] empty_db)) = Some 3 /\
  List.length (robot_sessions
    (run_calls [StartSession 10 1; EndSession 20 1 "normal"] empty_db)) = 2%nat /\
  map s_status (robot_sessions (snd (end_robot_session 30 1 "server_shutdown"
    (run_calls [StartSession 10 1; EndSession 20 1 "normal"] empty_db))))
    = ["online"; "offline"; "offline"].
Proof. repeat split. Qed.

End SessionFacts.

(* ===================================================================== *)
(** * Properties of redis_server.py *)
(* ===================================================================== *)

Section TrackFacts.
Import Python Database RedisServer.
Context `{StrNumerals}.
Local Open Scope py_scope.

(** ** Code that leaves the movement table and the previous pose alone *)

Lemma same_track_refl s : same_track s s.
Proof. split; reflexivity. Qed.

Lemma same_track_trans s1 s2 s3 :
  same_track s1 s2 -> same_track s2 s3 -> same_track s1 s3.
Proof. intros [A B] [C D]. split; congruence. Qed.

Lemma keeps_w_ret {A} (a : A) : keeps_w (ret a).
Proof. intros w r w' [= _ <-]. reflexivity. Qed.

Lemma keeps_w_raise {A} e : keeps_w (@raise world A e).
Proof. intros w r w' [= _ <-]. reflexivity. Qed.

Lemma keeps_w_of_outcome {A} (o : outcome A) : keeps_w (of_outcome o).
Proof. intros w r w' [= _ <-]. reflexivity. Qed.

Lemma keeps_w_get : keeps_w get.
Proof. intros w r w' [= _ <-]. reflexivity. Qed.

Lemma keeps_w_bind {A B} (m : M world A) (k : A -> M world B) :
  keeps_w m -> (forall a, keeps_w (k a)) -> keeps_w (bind m k).
Proof.
  intros Hm Hk w r w' Hrun. unfold bind in Hrun.
  destruct (m w) as [[a | e] w1] eqn:Hmw.
  - rewrite (Hk a _ _ _ Hrun). exact (Hm _ _ _ Hmw).
  - injection Hrun as _ <-. exact (Hm _ _ _ Hmw).
Qed.

Lemma keeps_w_modify (f : world -> world) :
  (forall w, robot_movement (w_db (f w)) = robot_movement (w_db w)) ->
  keeps_w (modify f).
Proof. intros Hf w r w' [= _ <-]. apply Hf. Qed.

Lemma keeps_w_when (b : bool) (m : M world unit) : keeps_w m -> keeps_w (when b m).
Proof. destruct b; [auto | intros _; apply keeps_w_ret]. Qed.

Create HintDb keeps discriminated.
#[local] Hint Resolve keeps_w_ret keeps_w_raise keeps_w_of_outcome keeps_w_get : keeps.

Ltac keeps_w_step :=
  first
    [ progress eauto 1 with keeps
    | apply keeps_w_bind; [| intros ?]
    | apply keeps_w_when
    | apply keeps_w_modify; intros ?; reflexivity
    | match goal with
      | |- keeps_w (match ?x with _ => _ end) => destruct x
      | |- keeps_w (if ?b then _ else _) => destruct b
      | |- keeps_w (let '(_, _) := ?x in _) => destruct x
      end ].

Lemma keeps_w_emit e : keeps_w (emit e).
Proof. unfold emit. repeat keeps_w_step. Qed.
#[local] Hint Resolve keeps_w_emit : keeps.

Lemma keeps_w_print fmt args : keeps_w (print fmt args).
Proof. apply keeps_w_emit. Qed.
#[local] Hint Resolve keeps_w_print : keeps.

Lemma keeps_w_fate : keeps_w fate.
Proof. unfold fate. repeat keeps_w_step. Qed.
#[local] Hint Resolve keeps_w_fate : keeps.

Lemma keeps_w_await_call e : keeps_w (await_call e).
Proof. unfold await_call. repeat keeps_w_step. Qed.
#[local] Hint Resolve keeps_w_await_call : keeps.

Lemma keeps_w_redis_get k : keeps_w (redis_get k).
Proof. unfold redis_get. repeat keeps_w_step. Qed.
Lemma keeps_w_redis_set k v : keeps_w (redis_set k v).
Proof. unfold redis_set. repeat keeps_w_step. Qed.
Lemma keeps_w_redis_delete k : keeps_w (redis_delete k).
Proof. unfold redis_delete. repeat keeps_w_step. Qed.
Lemma keeps_w_redis_publish c m : keeps_w (redis_publish c m).
Proof. unfold redis_publish. repeat keeps_w_step. Qed.
#[local] Hint Resolve keeps_w_redis_get keeps_w_redis_set keeps_w_redis_delete
  keeps_w_redis_publish : keeps.

Lemma keeps_w_start_redis_status stat : keeps_w (start_redis_status stat).
Proof. unfold start_redis_status. repeat keeps_w_step. Qed.
#[local] Hint Resolve keeps_w_start_redis_status : keeps.

Lemma keeps_w_on_db {A} (f : Z -> db -> outcome (A * db)) :
  (forall now d a d', f now d = Ok (a, d') -> robot_movement d' = robot_movement d) ->
  keeps_w (on_db f).
Proof.
  intros Hf w r w' Hrun. unfold on_db in Hrun.
  destruct (f (w_clock w) (w_db w)) as [[a d'] | e] eqn:Hcall.
  - injection Hrun as _ <-. simpl. exact (Hf _ _ _ _ Hcall).
  - injection Hrun as _ <-. reflexivity.
Qed.

Lemma keeps_w_start_robot_session r : keeps_w (RedisServer.start_robot_session r).
Proof.
  unfold RedisServer.start_robot_session. apply keeps_w_bind; [eauto with keeps | intros _].
  apply keeps_w_on_db. intros now d a d' Heq.
  assert (Hd : snd (Database.start_robot_session now r d) = d')
    by (injection Heq as Heq; first [rewrite Heq; reflexivity | assumption]).
  subst d'. unfold Database.start_robot_session.
  destruct (option_map s_id (last_online_session r d)) as [id |]; [| reflexivity].
  destruct (negb (id =? 0)); reflexivity.
Qed.

Lemma keeps_w_end_robot_session r reason : keeps_w (RedisServer.end_robot_session r reason).
Proof.
  unfold RedisServer.end_robot_session. apply keeps_w_bind; [eauto with keeps | intros _].
  apply keeps_w_on_db. intros now d a d' Heq.
  assert (Hd : snd (Database.end_robot_session now r reason d) = d')
    by (injection Heq as Heq; first [rewrite Heq; reflexivity | assumption]).
  subst d'. unfold Database.end_robot_session.
  destruct (last_online_session r d); reflexivity.
Qed.

Lemma keeps_w_update_task_status t st fr : keeps_w (RedisServer.update_task_status t st fr).
Proof.
  unfold RedisServer.update_task_status. apply keeps_w_bind; [eauto with keeps | intros _].
  apply keeps_w_on_db. intros now d a d' [= _ <-]. reflexivity.
Qed.
#[local] Hint Resolve keeps_w_start_robot_session keeps_w_end_robot_session
  keeps_w_update_task_status : keeps.

(** *** The same for the code of [pub_robot_status] *)

Lemma keeps_ret {A} (a : A) : keeps (ret a).
Proof. intros s r s' [= _ <-]. apply same_track_refl. Qed.

Lemma keeps_raise {A} e : keeps (@raise (locals * world) A e).
Proof. intros s r s' [= _ <-]. apply same_track_refl. Qed.

Lemma keeps_of_outcome {A} (o : outcome A) : keeps (of_outcome o).
Proof. intros s r s' [= _ <-]. apply same_track_refl. Qed.

Lemma keeps_local {A} (f : locals -> A) : keeps (local f).
Proof. intros s r s' [= _ <-]. apply same_track_refl. Qed.

Lemma keeps_shutdown_is_set : keeps shutdown_is_set.
Proof. intros s r s' [= _ <-]. apply same_track_refl. Qed.

Lemma keeps_assign (f : locals -> locals) :
  (forall l, prev_pose (f l) = prev_pose l) -> keeps (assign f).
Proof. intros Hf s r s' [= _ <-]. split; [reflexivity | apply Hf]. Qed.

Lemma keeps_in_world {A} (m : M world A) : keeps_w m -> keeps (in_world m).
Proof.
  intros Hm [l w] r s' Hrun. unfold in_world in Hrun. simpl in Hrun.
  destruct (m w) as [r' w'] eqn:Hmw. injection Hrun as _ <-.
  split; [exact (Hm _ _ _ Hmw) | reflexivity].
Qed.

Lemma keeps_bind {A B} (m : P A) (k : A -> P B) :
  keeps m -> (forall a, keeps (k a)) -> keeps (bind m k).
Proof.
  intros Hm Hk s r s' Hrun. unfold bind in Hrun.
  destruct (m s) as [[a | e] s1] eqn:Hms.
  - exact (same_track_trans _ _ _ (Hm _ _ _ Hms) (Hk a _ _ _ Hrun)).
  - injection Hrun as _ <-. exact (Hm _ _ _ Hms).
Qed.

Lemma keeps_when (b : bool) (m : P unit) : keeps m -> keeps (when b m).
Proof. destruct b; [auto | intros _; apply keeps_ret]. Qed.

#[local] Hint Resolve keeps_ret keeps_raise keeps_of_outcome keeps_local
  keeps_shutdown_is_set : keeps.

Ltac keeps_step :=
  first
    [ progress eauto 1 with keeps
    | apply keeps_bind; [| intros ?]
    | apply keeps_when
    | apply keeps_in_world; solve [eauto 2 with keeps]
    | apply keeps_in_world, keeps_w_modify; intros ?; reflexivity
    | apply keeps_assign; intros ?; reflexivity
    | match goal with
      | |- keeps (match ?x with _ => _ end) => destruct x
      | |- keeps (if ?b then _ else _) => destruct b
      end ].

Lemma keeps_pop_active_session r : keeps (pop_active_session r).
Proof. unfold pop_active_session. repeat keeps_step. Qed.
#[local] Hint Resolve keeps_pop_active_session : keeps.

Lemma keeps_pub_finish r : keeps (pub_finish r).
Proof. unfold pub_finish. repeat keeps_step. Qed.
#[local] Hint Resolve keeps_pub_finish : keeps.

Lemma keeps_outer_loop_test r : keeps (outer_loop_test r).
Proof. unfold outer_loop_test. repeat keeps_step. Qed.
#[local] Hint Resolve keeps_outer_loop_test : keeps.

Lemma keeps_inner_loop_test r : keeps (inner_loop_test r).
Proof. unfold inner_loop_test. repeat keeps_step. Qed.
#[local] Hint Resolve keeps_inner_loop_test : keeps.

Lemma keeps_connection_lost r e : keeps (connection_lost r e).
Proof. unfold connection_lost. repeat keeps_step. Qed.

Lemma keeps_unexpected_error r e : keeps (unexpected_error r e).
Proof. unfold unexpected_error. repeat keeps_step. Qed.
#[local] Hint Resolve keeps_connection_lost keeps_unexpected_error : keeps.

Lemma keeps_pub_except r e : keeps (pub_except r e).
Proof. unfold pub_except. repeat keeps_step. Qed.
#[local] Hint Resolve keeps_pub_except : keeps.

Lemma keeps_leave_connection r e : keeps (leave_connection r e).
Proof. unfold leave_connection. repeat keeps_step. Qed.
#[local] Hint Resolve keeps_leave_connection : keeps.

Lemma keeps_connected r : keeps (connected r).
Proof. unfold connected. repeat keeps_step. Qed.

Lemma keeps_setup r : keeps (setup r).
Proof.
  intros s res s' Hrun. unfold setup in Hrun.
  destruct (connected r s) as [[[] | e] s1] eqn:Hc.
  - exact (same_track_trans _ _ _ (keeps_connected _ _ _ _ Hc)
             (keeps_inner_loop_test _ _ _ _ Hrun)).
  - exact (same_track_trans _ _ _ (keeps_connected _ _ _ _ Hc)
             (keeps_leave_connection _ _ _ _ _ Hrun)).
Qed.
#[local] Hint Resolve keeps_setup : keeps.


(** ** One frame records at most one sample, measured from the previous pose *)

Lemma keeps_tracks {A} (m : P A) : keeps m -> tracks m.
Proof. intros Hm s r s' Hrun. left. exact (Hm _ _ _ Hrun). Qed.

Lemma track_step_after s1 s2 s3 :
  same_track s1 s2 -> track_step s2 s3 -> track_step s1 s3.
Proof.
  intros [Hm Hp] [Hsame | (row & Hrow & Hdist & Hpose)].
  - left. exact (same_track_trans _ _ _ (conj Hm Hp) Hsame).
  - right. exists row. rewrite Hrow, Hm. rewrite Hp in Hdist. auto.
Qed.

Lemma track_step_before s1 s2 s3 :
  track_step s1 s2 -> same_track s2 s3 -> track_step s1 s3.
Proof.
  intros [Hsame | (row & Hrow & Hdist & Hpose)] [Hm Hp].
  - left. exact (same_track_trans _ _ _ Hsame (conj Hm Hp)).
  - right. exists row. rewrite Hm, Hp. auto.
Qed.

Lemma tracks_bind {A B} (m : P A) (k : A -> P B) :
  keeps m -> (forall a, tracks (k a)) -> tracks (bind m k).
Proof.
  intros Hm Hk s r s' Hrun. unfold bind in Hrun.
  destruct (m s) as [[a | e] s1] eqn:Hms.
  - exact (track_step_after _ _ _ (Hm _ _ _ Hms) (Hk a _ _ _ Hrun)).
  - injection Hrun as _ <-. left. exact (Hm _ _ _ Hms).
Qed.

(** What a call of [record_position] does to the world. *)
Lemma record_position_run robot_id x y ori prev w r w' :
  RedisServer.record_position robot_id x y ori (option_map fst prev) (option_map snd prev) w
    = (r, w') ->
  (robot_movement (w_db w') = robot_movement (w_db w) /\ exists e, r = Raise e) \/
  (exists distance,
     expected_distance prev x y = Ok distance /\ r = Ok tt /\
     robot_movement (w_db w') =
       (robot_movement (w_db w) ++
        [{| m_time := w_clock w; m_robot_id := robot_id; m_x := x; m_y := y;
            m_ori := ori; m_distance := distance |}])%list).
Proof.
  destruct w as [d redis active stop clock faults trace].
  unfold RedisServer.record_position, bind, emit, modify, on_db, fate, get, ret, raise.
  cbn -[Database.record_position].
  rewrite !record_position_expected.
  destruct (expected_distance prev x y) as [distance | e] eqn:Hexp; cbn [obind].
  - destruct faults as [| [e |] rest]; cbn -[Database.record_position];
      rewrite ?record_position_expected, ?Hexp; cbn;
      intros [= <- <-]; cbn;
      solve [ right; exists distance; auto
            | left; split; [reflexivity | eauto] ].
  - intros [= <- <-]. left. split; [reflexivity | eauto].
Qed.


Lemma tracks_record_tail robot_id x y ori (rest : P unit) :
  keeps rest ->
  tracks (prev <- local prev_pose ;;
          in_world (RedisServer.record_position robot_id x y ori
                      (option_map fst prev) (option_map snd prev)) ;;
          assign (set_prev_pose (Some (x, y))) ;;
          rest).
Proof.
  intros Hrest [l w] r s' Hrun.
  unfold bind at 1 in Hrun. unfold local at 1 in Hrun. cbn [fst] in Hrun.
  unfold bind at 1 in Hrun. unfold in_world at 1 in Hrun. cbn [fst snd] in Hrun.
  destruct (RedisServer.record_position robot_id x y ori
              (option_map fst (prev_pose l)) (option_map snd (prev_pose l)) w)
    as [res w1] eqn:Hrec.
  apply record_position_run in Hrec as [[Hmov [e ->]] | (distance & Hexp & -> & Hmov)].
  - injection Hrun as _ <-. left. split; [exact Hmov | reflexivity].
  - unfold bind at 1 in Hrun. unfold assign at 1 in Hrun. cbn [fst snd] in Hrun.
    destruct (Hrest _ _ _ Hrun) as [Hm Hp]. right.
    exists {| m_time := w_clock w; m_robot_id := robot_id; m_x := x; m_y := y;
              m_ori := ori; m_distance := distance |}.
    split; [| split].
    + rewrite Hm. exact Hmov.
    + exact Hexp.
    + rewrite Hp. reflexivity.
Qed.

Ltac tracks_step :=
  first
    [ apply tracks_record_tail; solve [repeat keeps_step]
    | apply tracks_bind; [solve [eauto with keeps] | intros ?]
    | match goal with
      | |- tracks (match ?x with _ => _ end) => destruct x
      | |- tracks (if ?b then _ else _) => destruct b
      end
    | apply keeps_tracks; solve [repeat keeps_step] ].

Lemma tracks_telemetry_frame robot_id msg : tracks (telemetry_frame robot_id msg).
Proof. unfold telemetry_frame. repeat tracks_step. Qed.

Lemma tracks_inner_turn robot_id msg : tracks (inner_turn robot_id msg).
Proof.
  intros s r s' Hrun. unfold inner_turn in Hrun.
  destruct (telemetry_frame robot_id msg s) as [[[] | e] s1] eqn:Hframe.
  - exact (track_step_before _ _ _ (tracks_telemetry_frame _ _ _ _ _ Hframe)
             (keeps_inner_loop_test _ _ _ _ Hrun)).
  - apply (track_step_before _ s1 _ (tracks_telemetry_frame _ _ _ _ _ Hframe)).
    destruct e;
      first [ exact (keeps_inner_loop_test _ _ _ _ Hrun)
            | exact (keeps_leave_connection _ _ _ _ _ Hrun) ].
Qed.

Lemma tracks_pub_step robot_id i pc : tracks (pub_step robot_id i pc).
Proof.
  destruct i as [t | | | | e | msg | | e |], pc; cbn [pub_step];
    try (apply keeps_tracks; solve [repeat keeps_step]).
  apply tracks_inner_turn.
Qed.

Lemma pub_run_step_tracks robot_id st i :
  track_step (snd st) (snd (pub_run_step robot_id st i)).
Proof.
  unfold pub_run_step, settle.
  destruct (pub_step robot_id i (fst st) (snd st)) as [[pc | e] s'] eqn:Hstep;
    exact (tracks_pub_step _ _ _ _ _ _ Hstep).
Qed.

(** ** The samples of a run chain, whatever happens to the connection *)

Lemma last_pose_cons p a rest :
  last_pose p (a :: rest) = last_pose (Some (m_x a, m_y a)) rest.
Proof.
  unfold last_pose. destruct rest as [| b rest']; [reflexivity |].
  rewrite last_cons_cons.
  destruct (last (b :: rest')) as [r |] eqn:Hlast; [reflexivity |].
  apply last_None in Hlast. discriminate Hlast.
Qed.

Lemma last_pose_snoc p added row :
  last_pose p (added ++ [row]) = Some (m_x row, m_y row).
Proof. unfold last_pose. rewrite last_snoc. reflexivity. Qed.

Lemma chained_snoc p added row :
  chained_from p added ->
  expected_distance (last_pose p added) (m_x row) (m_y row) = Ok (m_distance row) ->
  chained_from p (added ++ [row]).
Proof.
  revert p. induction added as [| a rest IH]; intros p Hch Hrow.
  - split; [exact Hrow | exact I].
  - destruct Hch as [Ha Hrest]. split; [exact Ha |].
    apply IH; [exact Hrest |]. rewrite <- last_pose_cons with (p := p). exact Hrow.
Qed.

Lemma tracked_step base s s' : tracked base s -> track_step s s' -> tracked base s'.
Proof.
  intros (added & Hmov & Hch & Hpose) [[Hm Hp] | (row & Hrow & Hdist & Hnew)].
  - exists added. rewrite Hm, Hp. auto.
  - exists (added ++ [row])%list. split; [| split].
    + rewrite Hrow, Hmov, app_assoc. reflexivity.
    + apply chained_snoc; [exact Hch |]. rewrite <- Hpose. exact Hdist.
    + rewrite Hnew, last_pose_snoc. reflexivity.
Qed.

Lemma tracked_run robot_id base inputs st :
  tracked base (snd st) ->
  tracked base (snd (fold_left (pub_run_step robot_id) inputs st)).
Proof.
  revert st. induction inputs as [| i inputs IH]; intros st Hst; [exact Hst |].
  cbn [fold_left]. apply IH. exact (tracked_step _ _ _ Hst (pub_run_step_tracks _ _ _)).
Qed.

Lemma tracked_enter robot_id w :
  tracked (robot_movement (w_db w)) (snd (pub_enter robot_id w)).
Proof.
  unfold pub_enter, settle.
  destruct (outer_loop_test robot_id (initial_locals, w)) as [[pc | e] s'] eqn:Htest;
    destruct (keeps_outer_loop_test _ _ _ _ Htest) as [Hm Hp];
    exists []; cbn [snd fst]; rewrite app_nil_r;
    (split; [exact Hm | split; [exact I | exact Hp]]).
Qed.

(** C3 (amended): the previous pose is a local of the whole run of
    [pub_robot_status] and no disconnect or reconnect resets it. Whatever
    the inputs of a run, the samples it records chain: the first sample of
    the run has distance 0.0, and every later sample, also the first one
    after a reconnect, has the distance [calculate_distance] gives from
    the sample recorded before it. *)
Theorem C3_samples_chain_across_reconnects
    (robot_id : Z) (inputs : list input) (w : world) :
  exists added,
    robot_movement (w_db (snd (snd (pub_robot_status robot_id inputs w))))
      = (robot_movement (w_db w) ++ added)%list /\
    chained_from None added.
Proof.
  destruct (tracked_run robot_id (robot_movement (w_db w)) inputs
              (pub_enter robot_id w) (tracked_enter robot_id w))
    as (added & Hmov & Hch & _).
  exists added. split; [exact Hmov | exact Hch].
Qed.

End TrackFacts.

Section HandlerFacts.
Import Python Database RedisServer.
Context `{StrNumerals}.
Local Open Scope py_scope.

Lemma telemetry_frame_garbled robot_id raw s :
  telemetry_frame robot_id (Garbled raw) s = (Raise JSONDecodeError, s).
Proof. reflexivity. Qed.

Ltac run_handler :=
  unfold unexpected_error, connection_lost, connected, pub_finish, outer_loop_test,
    inner_loop_test, leave_connection, pub_except, start_redis_status,
    redis_set, redis_publish, bind, in_world, print, emit, modify, local, when,
    pop_active_session, shutdown_is_set, assign, RedisServer.end_robot_session,
    RedisServer.start_robot_session, await_call, fate, on_db, get, ret, raise,
    opt_int_truthy;
  cbn -[Database.end_robot_session Database.start_robot_session String.append exn_name
        insert delete].

(** Two results are compared field by field, traces up to the bracketing
    of their appends. *)
Ltac flatten_state :=
  cbv [session_ended gone_offline session_started
       set_trace set_db set_redis set_active_sessions set_faults set_clock set_shutdown
       w_db w_redis w_active_sessions w_shutdown w_clock w_faults w_trace
       set_session_id set_compile_list set_prev_pose set_connection_lost_logged
       compile_list prev_pose session_id connection_lost_logged].

Ltac same_state :=
  flatten_state; cbv [String.append exn_name];
  repeat match goal with
         | |- context [Database.end_robot_session ?c ?r ?why ?t] =>
             destruct (Database.end_robot_session c r why t)
         | |- context [Database.start_robot_session ?c ?r ?t] =>
             destruct (Database.start_robot_session c r t)
         end;
  cbn -[String.append exn_name insert delete]; flatten_state;
  rewrite <- ?app_assoc; cbn [app]; reflexivity.

(** What the generic handler leaves behind when a session is open and its
    calls succeed. *)
Lemma unexpected_error_run robot_id e l w sid :
  session_id l = Some sid -> sid <> 0 -> w_faults w = [] ->
  unexpected_error robot_id e (l, w) =
  (Ok Sleeping,
   (set_session_id None l,
    session_ended robot_id ("unexpected_error: " +:+ exn_name e)
      [Printed "Unexpected error in pub_robot_status: {e}" [AExn e];
       Traceback e;
       Db (EndRobotSession robot_id ("unexpected_error: " +:+ exn_name e))] w)).
Proof.
  intros Hsid Hnz Hfaults.
  destruct l as [cl pp sess logged], w as [d redis active stop clock faults trace].
  cbn in Hsid, Hfaults. subst sess faults.
  apply Z.eqb_neq in Hnz. run_handler. rewrite Hnz.
  cbn -[Database.end_robot_session String.append exn_name insert delete].
  same_state.
Qed.


(** The start of a connection without a session: a session is started and
    the topics are subscribed. *)
Lemma connected_run robot_id l w :
  session_id l = None -> w_faults w = [] ->
  connected robot_id (l, w) =
  (Ok tt,
   (set_connection_lost_logged false
      (set_session_id
         (Some (fst (Database.start_robot_session (w_clock w) robot_id (w_db w)))) l),
    session_started robot_id
      [Printed "Websocket connected to {url}" [AStr url];
       Db (StartRobotSession robot_id);
       Printed "ROBOT REDIS BOOL STATUS: " [ABool true];
       Redis (RedisSet "robot:status" (Lit "online"));
       Redis (RedisSet "robot:last_poi" (Lit "origin"));
       Printed "ROBOT ONLINE - Session {session_id} started (Robot ID: {robot_id})"
             [AInt (fst (Database.start_robot_session (w_clock w) robot_id (w_db w)));
              AInt robot_id];
       WsSend (JDict [("disable_topic", JList [JStr "/slam/state"])]);
       WsSend (JDict [("enable_topic",
                       JList [JStr "/battery_state"; JStr "/tracked_pose";
                              JStr "/planning_state"])])] w)).
Proof.
  intros Hsid Hfaults.
  destruct l as [cl pp sess logged], w as [d redis active stop clock faults trace].
  cbn in Hsid, Hfaults. subst sess faults. run_handler.
  same_state.
Qed.


Lemma session_started_shutdown robot_id effects w :
  w_shutdown (session_started robot_id effects w) = w_shutdown w.
Proof. reflexivity. Qed.

Lemma session_ended_shutdown robot_id reason effects w :
  w_shutdown (session_ended robot_id reason effects w) = w_shutdown w.
Proof. reflexivity. Qed.

(** C5 (amended): a malformed frame makes [json.loads] raise inside the
    receive loop, whose own handler accepts the receive timeout only. With
    a session open and the process not shutting down, the exception closes
    the socket and reaches the generic handler: the error is logged, the
    frame is dropped (nothing of it reaches the broker or the movement
    table), the session is ended with reason
    [unexpected_error: JSONDecodeError] and the loop sleeps; when the sleep
    is over it connects again, and the new connection starts a new
    session. *)
Theorem C5_malformed_frame_ends_session
    (robot_id : Z) (raw : string) (l : locals) (w : world) (sid : Z)
    (Hsid : session_id l = Some sid) (Hnz : sid <> 0)
    (Hfaults : w_faults w = []) (Halive : w_shutdown w = false) :
  let closed :=
    session_ended robot_id "unexpected_error: JSONDecodeError"
      [WsClose;
       Printed "Unexpected error in pub_robot_status: {e}" [AExn JSONDecodeError];
       Traceback JSONDecodeError;
       Db (EndRobotSession robot_id "unexpected_error: JSONDecodeError")] w in
  let new_id := fst (Database.start_robot_session (w_clock w) robot_id (w_db closed)) in
  pub_run_step robot_id (Receiving, (l, w)) (Recv (Garbled raw))
    = (Sleeping, (set_session_id None l, closed)) /\
  pub_run_step robot_id (Sleeping, (set_session_id None l, closed)) Elapsed
    = (Connecting, (set_session_id None l, closed)) /\
  pub_run_step robot_id (Connecting, (set_session_id None l, closed)) ConnectOk
    = (Receiving,
       (set_connection_lost_logged false (set_session_id (Some new_id) l),
        session_started robot_id
          [WsOpen;
           Printed "Websocket connected to {url}" [AStr url];
           Db (StartRobotSession robot_id);
           Printed "ROBOT REDIS BOOL STATUS: " [ABool true];
           Redis (RedisSet "robot:status" (Lit "online"));
           Redis (RedisSet "robot:last_poi" (Lit "origin"));
           Printed "ROBOT ONLINE - Session {session_id} started (Robot ID: {robot_id})"
                 [AInt new_id; AInt robot_id];
           WsSend (JDict [("disable_topic", JList [JStr "/slam/state"])]);
           WsSend (JDict [("enable_topic",
                           JList [JStr "/battery_state"; JStr "/tracked_pose";
                                  JStr "/planning_state"])])] closed)).
Proof.
  intros closed new_id.
  assert (Hclosed_faults : w_faults closed = []) by (rewrite <- Hfaults; reflexivity).
  assert (Hclosed_alive : w_shutdown closed = false) by (rewrite <- Halive; reflexivity).
  split; [| split].
  - unfold pub_run_step. cbn [fst snd pub_step]. unfold inner_turn.
    rewrite telemetry_frame_garbled. unfold leave_connection, bind at 1.
    unfold in_world at 1, emit, modify. cbn [fst snd].
    unfold pub_except. cbn [is_connection_error is_Exception].
    rewrite (unexpected_error_run robot_id JSONDecodeError l _ sid Hsid Hnz)
      by (cbn; exact Hfaults).
    unfold settle, closed. f_equal. f_equal.
    destruct w as [d redis active stop clock faults trace]. same_state.
  - unfold pub_run_step. cbn [fst snd pub_step].
    unfold outer_loop_test, bind, shutdown_is_set. cbn [fst snd].
    rewrite Hclosed_alive. reflexivity.
  - unfold pub_run_step. cbn [fst snd pub_step]. unfold bind at 1.
    unfold in_world at 1, emit, modify. cbn [fst snd]. unfold setup.
    rewrite connected_run by first [reflexivity | exact Hclosed_faults].
    unfold inner_loop_test, bind, shutdown_is_set. cbn [fst snd].
    rewrite session_started_shutdown. cbn [w_shutdown set_trace].
    rewrite Hclosed_alive. unfold ret, settle. f_equal. f_equal.
    subst new_id closed.
    destruct l as [cl pp sess logged], w as [d redis active stop clock faults trace].
    same_state.
Qed.


End HandlerFacts.

Section CrossReferenceFacts.
Import Python Database RedisServer.
Context `{StrNumerals}.
Local Open Scope py_scope.

Lemma keeps_key_ret {A} key (a : A) : keeps_key key (ret a).
Proof. intros w r w' [= _ <-]. reflexivity. Qed.

Lemma keeps_key_raise {A} key e : keeps_key key (@raise world A e).
Proof. intros w r w' [= _ <-]. reflexivity. Qed.

Lemma keeps_key_of_outcome {A} key (o : outcome A) : keeps_key key (of_outcome o).
Proof. intros w r w' [= _ <-]. reflexivity. Qed.

Lemma keeps_key_get key : keeps_key key get.
Proof. intros w r w' [= _ <-]. reflexivity. Qed.

Lemma keeps_key_bind {A B} key (m : M world A) (k : A -> M world B) :
  keeps_key key m -> (forall a, keeps_key key (k a)) -> keeps_key key (bind m k).
Proof.
  intros Hm Hk w r w' Hrun. unfold bind in Hrun.
  destruct (m w) as [[a | e] w1] eqn:Hmw.
  - rewrite (Hk a _ _ _ Hrun). exact (Hm _ _ _ Hmw).
  - injection Hrun as _ <-. exact (Hm _ _ _ Hmw).
Qed.

Lemma keeps_key_known {A B} key (a : A) (k : A -> M world B) :
  keeps_key key (k a) -> keeps_key key (bind (of_outcome (Ok a)) k).
Proof. intros Hk w r w' Hrun. exact (Hk _ _ _ Hrun). Qed.

Lemma keeps_key_modify key (f : world -> world) :
  (forall w, w_redis (f w) = w_redis w) -> keeps_key key (modify f).
Proof. intros Hf w r w' [= _ <-]. rewrite Hf. reflexivity. Qed.

Lemma keeps_key_emit key e : keeps_key key (emit e).
Proof. apply keeps_key_modify. reflexivity. Qed.

Lemma keeps_key_fate key : keeps_key key fate.
Proof.
  unfold fate. apply keeps_key_bind; [apply keeps_key_get | intros w].
  destruct (w_faults w) as [| [e |] rest]; [apply keeps_key_ret | |];
    (apply keeps_key_bind; [apply keeps_key_modify; reflexivity | intros _]);
    [apply keeps_key_raise | apply keeps_key_ret].
Qed.

Lemma keeps_key_await_call key e : keeps_key key (await_call e).
Proof.
  unfold await_call. apply keeps_key_bind; [apply keeps_key_emit | intros _].
  apply keeps_key_fate.
Qed.

Lemma keeps_key_redis_get key k : keeps_key key (redis_get k).
Proof.
  unfold redis_get. apply keeps_key_bind; [apply keeps_key_await_call | intros _].
  apply keeps_key_bind; [apply keeps_key_get | intros w]. apply keeps_key_ret.
Qed.

Lemma keeps_key_redis_publish key c m : keeps_key key (redis_publish c m).
Proof. apply keeps_key_await_call. Qed.

Lemma keeps_key_redis_set key k v : k <> key -> keeps_key key (redis_set k v).
Proof.
  intros Hne. unfold redis_set.
  apply keeps_key_bind; [apply keeps_key_await_call | intros _].
  intros w r w' [= _ <-]. cbn. apply lookup_insert_ne. exact Hne.
Qed.

Lemma keeps_key_on_db {A} key (f : Z -> db -> outcome (A * db)) : keeps_key key (on_db f).
Proof.
  intros w r w' Hrun. unfold on_db in Hrun.
  destruct (f (w_clock w) (w_db w)) as [[a d] | e]; injection Hrun as _ <-; reflexivity.
Qed.

Lemma keeps_key_update_task_status key t st fr :
  keeps_key key (RedisServer.update_task_status t st fr).
Proof.
  unfold RedisServer.update_task_status.
  apply keeps_key_bind; [apply keeps_key_await_call | intros _]. apply keeps_key_on_db.
Qed.

Lemma keeps_key_time_time key : keeps_key key time_time.
Proof.
  unfold time_time. apply keeps_key_bind; [apply keeps_key_get | intros w].
  apply keeps_key_ret.
Qed.

(** Whatever the world and the rest of the frame, handling a succeeded
    event leaves the cross-reference as it was: the branch has no
    [redis.delete]. *)
Lemma succeeded_keeps_cross_reference (d : list (string * json)) :
  assoc "move_state" d = Some (JStr "succeeded") ->
  keeps_key "robot:current_task_id" (handle_planning_state (JDict d)).
Proof.
  intros Hstate. unfold handle_planning_state. cbn [json_get]. rewrite Hstate.
  apply keeps_key_known.
  apply keeps_key_known. apply keeps_key_known. apply keeps_key_known.
  apply keeps_key_bind; [apply keeps_key_emit | intros _].
  apply keeps_key_bind; [apply keeps_key_redis_set; discriminate | intros _].
  apply keeps_key_bind; [apply keeps_key_redis_get | intros [task_id_str |]];
    [| apply keeps_key_emit].
  destruct (str_truthy (Some task_id_str)); [| apply keeps_key_emit].
  apply keeps_key_bind; [apply keeps_key_of_outcome | intros task_id].
  cbn [json_eq_str String.eqb Ascii.eqb Bool.eqb].
  repeat first
    [ apply keeps_key_redis_publish
    | apply keeps_key_bind;
      [ first [ apply keeps_key_redis_set; discriminate
              | apply keeps_key_update_task_status
              | apply keeps_key_emit
              | apply keeps_key_time_time ]
      | intros ? ] ].
Qed.

(** The failed and cancelled branches do clear it. *)
Lemma failed_and_cancelled_clear_cross_reference :
  w_redis (snd (monitor_planning_state [ConnectOk; Recv (planning_frame "failed")]
                  tracking_world)) !! "robot:current_task_id" = None /\
  w_redis (snd (monitor_planning_state [ConnectOk; Recv (planning_frame "cancelled")]
                  tracking_world)) !! "robot:current_task_id" = None.
Proof. split; vm_compute; reflexivity. Qed.

(** The branch on [/planning_state] inside [pub_robot_status] compares
    [move_state] with ["succeed"]: a succeeded event causes no task write
    there and leaves that loop's own cross-reference
    [robot:1:current_task] in place. *)
Lemma inline_branch_ignores_succeeded :
  count is_any_task_write
    (w_trace (snd (snd (pub_run_step 1
       (Receiving,
        (fst online_state,
         set_redis (<["robot:1:current_task" := Dumps (JInt 7)]> (w_redis (snd online_state)))
           (snd online_state)))
       (Recv (planning_frame "succeeded")))))) = 0%nat /\
  w_redis (snd (snd (pub_run_step 1
       (Receiving,
        (fst online_state,
         set_redis (<["robot:1:current_task" := Dumps (JInt 7)]> (w_redis (snd online_state)))
           (snd online_state)))
       (Recv (planning_frame "succeeded"))))) !! "robot:1:current_task"
    = Some (Dumps (JInt 7)).
Proof. split; vm_compute; reflexivity. Qed.

End CrossReferenceFacts.

Section ManagerFacts.
Import Python Database RedisServer.
Context `{StrNumerals}.
Local Open Scope py_scope.

Lemma restart_block_run (count : Z) (w : world) :
  w_shutdown w = false ->
  restart_block count w =
  (Ok (count + 1, MgrBackoff (Z.min (5 * (count + 1)) 60)),
   set_trace (w_trace w ++ [Printed "Restarting robot monitor in {wait_time}s..."
                                  [AInt (Z.min (5 * (count + 1)) 60)]]) w).
Proof.
  intros Halive. unfold restart_block, bind, get, print, emit, modify, ret.
  rewrite Halive. reflexivity.
Qed.

Lemma restart_block_cases (count : Z) (w : world) :
  fst (restart_block count w) = Ok (count, MgrStopped) \/
  fst (restart_block count w) = Ok (count + 1, MgrBackoff (Z.min (5 * (count + 1)) 60)).
Proof.
  destruct (w_shutdown w) eqn:Hs.
  - left. unfold restart_block, manager_stop, bind, get, print, emit, modify, ret.
    rewrite Hs. reflexivity.
  - right. rewrite restart_block_run by exact Hs. reflexivity.
Qed.

Lemma after_publisher_cases (robot_id count : Z) (ended : outcome unit) (w : world) :
  fst (after_publisher robot_id count ended w) = Ok (count, MgrStopped) \/
  fst (after_publisher robot_id count ended w)
    = Ok (count + 1, MgrBackoff (Z.min (5 * (count + 1)) 60)) \/
  exists e, fst (after_publisher robot_id count ended w) = Raise e.
Proof.
  assert (Hrestart : forall w0 : world,
    fst (restart_block count w0) = Ok (count, MgrStopped) \/
    fst (restart_block count w0) = Ok (count + 1, MgrBackoff (Z.min (5 * (count + 1)) 60)) \/
    exists e, fst (restart_block count w0) = Raise e).
  { intros w0. destruct (restart_block_cases count w0) as [-> | ->]; auto. }
  destruct ended as [[] | e].
  - unfold after_publisher, bind, get. destruct (w_shutdown w) eqn:Hs.
    + left. reflexivity.
    + apply Hrestart.
  - destruct e;
      try (unfold after_publisher, bind, print, emit, modify; cbn [fst snd]; apply Hrestart).
    unfold after_publisher.
    destruct w as [db redis sessions shutdown clock faults trace].
    unfold bind, print, emit, modify, get. cbn [w_active_sessions set_trace w_trace].
    destruct (sessions !! robot_id) as [sid |].
    + unfold end_robot_session, await_call, bind, get, modify, fate.
      cbn [w_faults set_faults set_trace w_trace w_clock].
      destruct faults as [| [e |] faults]; cbn;
        try destruct (Database.end_robot_session clock robot_id "task_cancelled" db);
        cbn; eauto.
    + left. reflexivity.
Qed.

Lemma manager_step_count (st : manager * world) (i : input) :
  (entered_wait (fst st) (fst (manager_step st i)) = None /\
   restart_count (fst (manager_step st i)) = restart_count (fst st)) \/
  (entered_wait (fst st) (fst (manager_step st i))
     = Some (Z.min (5 * (restart_count (fst st) + 1)) 60) /\
   restart_count (fst (manager_step st i)) = restart_count (fst st) + 1).
Proof.
  destruct st as [[id count pc] w]. unfold manager_step. cbn [fst mgr_pc mgr_robot_id restart_count].
  destruct pc as [pc l | wait_time | | e]; destruct id as [robot_id |];
    try (left; destruct i; split; reflexivity).
  - destruct (pub_run_step robot_id (pc, (l, w)) i) as [pc' [l' w']].
    assert (Hended : forall ended,
      (entered_wait {| mgr_robot_id := Some robot_id; restart_count := count; mgr_pc := MgrRunning pc l |}
         (fst (manager_settle (Some robot_id) count (after_publisher robot_id count ended w'))) = None /\
       restart_count (fst (manager_settle (Some robot_id) count (after_publisher robot_id count ended w'))) = count) \/
      (entered_wait {| mgr_robot_id := Some robot_id; restart_count := count; mgr_pc := MgrRunning pc l |}
         (fst (manager_settle (Some robot_id) count (after_publisher robot_id count ended w')))
         = Some (Z.min (5 * (count + 1)) 60) /\
       restart_count (fst (manager_settle (Some robot_id) count (after_publisher robot_id count ended w'))) = count + 1)).
    { intros ended.
      destruct (after_publisher_cases robot_id count ended w') as [Hr | [Hr | [e Hr]]];
        destruct (after_publisher robot_id count ended w') as [r w''];
        cbn [fst] in Hr; subst r; cbn; auto. }
    destruct pc'; try (left; split; reflexivity); apply Hended.
  - left. destruct i; try (split; reflexivity).
    unfold manager_loop, bind, get. destruct (w_shutdown w) eqn:Hs; [split; reflexivity |].
    unfold pub_enter, outer_loop_test, print, emit, modify.
    cbn. rewrite Hs. cbn. split; reflexivity.
Qed.

Lemma backoff_waits_cons (first n : nat) :
  backoff_waits first (S n)
  = Z.min (5 * (Z.of_nat first + 1)) 60 :: backoff_waits (S first) n.
Proof.
  unfold backoff_waits. cbn [seq map]. do 3 f_equal. lia.
Qed.

Lemma waits_of_run_counts (inputs : list input) (st : manager * world) :
  0 <= restart_count (fst st) ->
  restart_count (fst st) <= restart_count (fst (fold_left manager_step inputs st)) /\
  waits_of_run st inputs
  = backoff_waits (Z.to_nat (restart_count (fst st)))
      (Z.to_nat (restart_count (fst (fold_left manager_step inputs st)))
       - Z.to_nat (restart_count (fst st))).
Proof.
  revert st. induction inputs as [| i inputs IH]; intros st Hpos.
  - cbn [fold_left waits_of_run]. split; [lia |]. rewrite Nat.sub_diag. reflexivity.
  - cbn [fold_left waits_of_run].
    destruct (manager_step_count st i) as [[Hw Hc] | [Hw Hc]]; rewrite Hw.
    + destruct (IH (manager_step st i)) as [Hle Hrun]; [lia |].
      rewrite Hc in Hle, Hrun. split; [exact Hle |]. exact Hrun.
    + destruct (IH (manager_step st i)) as [Hle Hrun]; [lia |].
      rewrite Hc in Hle, Hrun. split; [lia |].
      rewrite Hrun. cbn [app].
      replace (Z.to_nat (restart_count (fst (fold_left manager_step inputs (manager_step st i))))
               - Z.to_nat (restart_count (fst st)))%nat
        with (S (Z.to_nat (restart_count (fst (fold_left manager_step inputs (manager_step st i))))
               - Z.to_nat (restart_count (fst st) + 1)))%nat by lia.
      rewrite backoff_waits_cons. rewrite Z2Nat.id by lia.
      replace (S (Z.to_nat (restart_count (fst st)))) with (Z.to_nat (restart_count (fst st) + 1)) by lia.
      reflexivity.
Qed.

Lemma manager_enter_count (w : world) :
  restart_count (fst (manager_enter w)) = 0 /\
  (forall wait_time, mgr_pc (fst (manager_enter w)) <> MgrBackoff wait_time).
Proof.
  unfold manager_enter.
  destruct (get_robot_id_by_sn serial_number w) as [[[id |] | e] w']; try (split; [reflexivity | discriminate]).
  destruct (negb (id =? 0)); [| split; [reflexivity | discriminate]].
  unfold manager_loop, bind, get. destruct (w_shutdown w') eqn:Hs; [split; [reflexivity | discriminate] |].
  unfold pub_enter, outer_loop_test, print, emit, modify.
  cbn. rewrite Hs. cbn. split; [reflexivity | discriminate].
Qed.


Lemma crash_line (robot_id count : Z) (e : exn) (w : world) :
  is_Exception e = true -> w_shutdown w = false ->
  after_publisher robot_id count (Raise e) w
  = (Ok (count + 1, MgrBackoff (Z.min (5 * (count + 1)) 60)),
     set_trace (w_trace w ++
                [Printed "Robot status publisher crahsed: {e}" [AExn e];
                 Traceback e;
                 Printed "Restarting robot monitor in {wait_time}s..."
                   [AInt (Z.min (5 * (count + 1)) 60)]]) w).
Proof.
  intros He Halive.
  destruct w as [db redis sessions shutdown clock faults trace].
  cbn [w_shutdown] in Halive. subst shutdown.
  destruct e; try discriminate He;
    unfold after_publisher, restart_block, bind, print, emit, modify, get, ret;
    cbv [set_trace w_trace w_shutdown w_db w_redis w_active_sessions w_clock w_faults negb];
    rewrite <- !app_assoc; reflexivity.
Qed.

(** C7: when the awaited telemetry loop has raised an exception and the
    process is not shutting down, the manager counts the restart and waits
    [min(5 * restart_count, 60)] seconds before it starts the loop again:
    5, 10, 15, 20, 25 seconds for the first five restarts and 60 seconds
    from the twelfth on. In the run of the manager: the step in which the
    loop raises takes the manager from [restart_count = n - 1] into the
    wait of [min(5 * n, 60)] seconds with [restart_count = n]; when the
    wait has timed out the loop is started again with [restart_count = n];
    and in every run of [pub_robot_status_manager] the waits entered are,
    in order, [min(5 * k, 60)] for [k = 1 .. restart_count]. *)
Theorem C7_backoff_wait
    (robot_id n : Z) (e : exn) (w : world)
    (Hn : 1 <= n) (He : is_Exception e = true) (Halive : w_shutdown w = false) :
  fst (after_publisher robot_id (n - 1) (Raise e) w)
    = Ok (n, MgrBackoff (Z.min (5 * n) 60)) /\
  backoff_after (n - 1) w = Some (Z.min (5 * n) 60) /\
  map (fun k => backoff_after (k - 1) w) [1; 2; 3; 4; 5]
    = [Some 5; Some 10; Some 15; Some 20; Some 25] /\
  (12 <= n -> backoff_after (n - 1) w = Some 60) /\
  (forall (pc : pub_pc) (l l' : locals) (w0 : world) (i : input),
     pub_run_step robot_id (pc, (l, w0)) i = (PubRaised e, (l', w)) ->
     manager_step
       ({| mgr_robot_id := Some robot_id; restart_count := n - 1; mgr_pc := MgrRunning pc l |},
        w0) i
     = ({| mgr_robot_id := Some robot_id; restart_count := n;
           mgr_pc := MgrBackoff (Z.min (5 * n) 60) |},
        set_trace (w_trace w ++
                   [Printed "Robot status publisher crahsed: {e}" [AExn e];
                    Traceback e;
                    Printed "Restarting robot monitor in {wait_time}s..."
                      [AInt (Z.min (5 * n) 60)]]) w)) /\
  manager_step
    ({| mgr_robot_id := Some robot_id; restart_count := n;
        mgr_pc := MgrBackoff (Z.min (5 * n) 60) |}, w) Elapsed
  = ({| mgr_robot_id := Some robot_id; restart_count := n;
        mgr_pc := MgrRunning Connecting initial_locals |},
     set_trace (w_trace w ++
                [Printed "Starting robot status publisher (restart #{restart_count})"
                   [AInt n]]) w) /\
  (forall (inputs : list input) (w0 : world),
     0 <= restart_count (fst (pub_robot_status_manager inputs w0)) /\
     waits_of_run (manager_enter w0) inputs
     = map (fun k => Z.min (5 * Z.of_nat k) 60)
         (seq 1 (Z.to_nat (restart_count (fst (pub_robot_status_manager inputs w0)))))).
Proof.
  assert (Hwait : forall k, backoff_after (k - 1) w = Some (Z.min (5 * k) 60)).
  { intros k. unfold backoff_after. rewrite (restart_block_run _ w Halive).
    cbn [fst]. replace (k - 1 + 1) with k by lia. reflexivity. }
  split; [| split; [| split; [| split; [| split; [| split]]]]].
  - destruct e; try discriminate He;
      unfold after_publisher, bind, print, emit, modify; cbn [fst snd];
      rewrite restart_block_run by exact Halive;
      cbn [fst]; replace (n - 1 + 1) with n by lia; reflexivity.
  - apply Hwait.
  - cbn [map]. rewrite !Hwait. reflexivity.
  - intros Hbig. rewrite Hwait. f_equal. lia.
  - intros pc l l' w0 i Hcrash.
    unfold manager_step. cbn [mgr_pc mgr_robot_id restart_count].
    rewrite Hcrash. unfold follow.
    rewrite (crash_line robot_id (n - 1) e w He Halive).
    replace (n - 1 + 1) with n by lia. reflexivity.
  - unfold manager_step. cbn [mgr_pc mgr_robot_id restart_count].
    unfold manager_loop, bind, get. rewrite Halive.
    unfold pub_enter, outer_loop_test, print, emit, modify.
    cbn. rewrite Halive. reflexivity.
  - intros inputs w0. unfold pub_robot_status_manager.
    destruct (manager_enter_count w0) as [Hzero _].
    destruct (waits_of_run_counts inputs (manager_enter w0)) as [Hle Hrun]; [lia |].
    rewrite Hzero in Hle, Hrun. split; [exact Hle |].
    rewrite Hrun. unfold backoff_waits. cbn [Z.to_nat]. rewrite Nat.sub_0_r. reflexivity.
Qed.

Lemma manager_stopped_step (m : manager) (w : world) (i : input) :
  mgr_pc m = MgrStopped ->
  fst (manager_step (m, w) i) = m /\
  w_trace (snd (manager_step (m, w) i)) = w_trace w /\
  w_db (snd (manager_step (m, w) i)) = w_db w /\
  w_redis (snd (manager_step (m, w) i)) = w_redis w /\
  w_active_sessions (snd (manager_step (m, w) i)) = w_active_sessions w.
Proof.
  intros Hpc. unfold manager_step. rewrite Hpc.
  destruct i; cbn; repeat split; reflexivity.
Qed.

Lemma manager_stopped_run (inputs : list input) (m : manager) (w : world) :
  mgr_pc m = MgrStopped ->
  fst (fold_left manager_step inputs (m, w)) = m /\
  w_trace (snd (fold_left manager_step inputs (m, w))) = w_trace w /\
  w_db (snd (fold_left manager_step inputs (m, w))) = w_db w /\
  w_redis (snd (fold_left manager_step inputs (m, w))) = w_redis w /\
  w_active_sessions (snd (fold_left manager_step inputs (m, w))) = w_active_sessions w.
Proof.
  revert w. induction inputs as [| i inputs IH]; intros w Hpc; [repeat split |].
  cbn [fold_left].
  destruct (manager_stopped_step m w i Hpc) as (Hm & Ht & Hd & Hr & Ha).
  destruct (manager_step (m, w) i) as [m' w'] eqn:Hstep. cbn [fst snd] in *. subst m'.
  destruct (IH w' Hpc) as (Hm' & Ht' & Hd' & Hr' & Ha').
  repeat split; congruence.
Qed.

(** C9: when the serial number resolves to no robot id, the manager logs
    the error and returns: whatever happens afterwards, it stays stopped
    with no restart counted, nothing more is traced (no telemetry
    connection, no session call, no broker command), and the database, the
    broker store and the session registry are as they were. *)
Theorem C9_unresolved_serial_stops_manager
    (w : world) (inputs : list input)
    (Hnone : Database.get_robot_id_by_sn serial_number (w_db w) = None)
    (Hcall : hd None (w_faults w) = None) :
  fst (pub_robot_status_manager inputs w)
    = {| mgr_robot_id := None; restart_count := 0; mgr_pc := MgrStopped |} /\
  w_trace (snd (pub_robot_status_manager inputs w))
    = (w_trace w ++
       [Db (GetRobotIdBySn serial_number);
        Printed "ERROR: Robot not found in database. cannot start monitor." []])%list /\
  w_db (snd (pub_robot_status_manager inputs w)) = w_db w /\
  w_redis (snd (pub_robot_status_manager inputs w)) = w_redis w /\
  w_active_sessions (snd (pub_robot_status_manager inputs w)) = w_active_sessions w.
Proof.
  unfold pub_robot_status_manager.
  assert (Henter : exists w0,
            manager_enter w =
              ({| mgr_robot_id := None; restart_count := 0; mgr_pc := MgrStopped |}, w0) /\
            w_trace w0 = (w_trace w ++
              [Db (GetRobotIdBySn serial_number);
               Printed "ERROR: Robot not found in database. cannot start monitor." []])%list /\
            w_db w0 = w_db w /\ w_redis w0 = w_redis w /\
            w_active_sessions w0 = w_active_sessions w).
  { destruct w as [d redis active stop clock faults trace]. cbn in Hnone, Hcall.
    unfold manager_enter, RedisServer.get_robot_id_by_sn, await_call, fate, on_db,
      bind, emit, modify, get, ret, raise.
    cbn -[Database.get_robot_id_by_sn serial_number].
    destruct faults as [| [exc |] rest]; [| discriminate Hcall |];
      cbn -[Database.get_robot_id_by_sn serial_number]; rewrite Hnone;
      cbn -[serial_number]; eexists; (split; [reflexivity |]);
      cbn; rewrite <- ?app_assoc; repeat split; reflexivity. }
  destruct Henter as (w0 & -> & Ht & Hd & Hr & Ha).
  destruct (manager_stopped_run inputs
              {| mgr_robot_id := None; restart_count := 0; mgr_pc := MgrStopped |}
              w0 eq_refl) as (Hm' & Ht' & Hd' & Hr' & Ha').
  repeat split; congruence.
Qed.

(** C1, the code at the failing input: with the cross-reference of task 7
    in the broker, the events moving, moving, succeeded cause one
    [update_task_status(7, "completed")] and one publish on
    [robot:task_completed], but the cross-reference is still there, and a
    further succeeded event causes a second write and a second publish. *)
Theorem C1_succeeded_leaves_cross_reference :
  count (is_task_write 7 "completed")
    (w_trace (snd (monitor_planning_state
       [ConnectOk; Recv (planning_frame "moving"); Recv (planning_frame "moving");
        Recv (planning_frame "succeeded")] tracking_world))) = 1%nat /\
  count (is_publish_on "robot:task_completed")
    (w_trace (snd (monitor_planning_state
       [ConnectOk; Recv (planning_frame "moving"); Recv (planning_frame "moving");
        Recv (planning_frame "succeeded")] tracking_world))) = 1%nat /\
  w_redis (snd (monitor_planning_state
       [ConnectOk; Recv (planning_frame "moving"); Recv (planning_frame "moving");
        Recv (planning_frame "succeeded")] tracking_world)) !! "robot:current_task_id"
    = Some (Dumps (JInt 7)) /\
  count (is_task_write 7 "completed")
    (w_trace (snd (monitor_planning_state
       [ConnectOk; Recv (planning_frame "moving"); Recv (planning_frame "moving");
        Recv (planning_frame "succeeded"); Recv (planning_frame "succeeded")]
       tracking_world))) = 2%nat /\
  count (is_publish_on "robot:task_completed")
    (w_trace (snd (monitor_planning_state
       [ConnectOk; Recv (planning_frame "moving"); Recv (planning_frame "moving");
        Recv (planning_frame "succeeded"); Recv (planning_frame "succeeded")]
       tracking_world))) = 2%nat.
Proof. repeat split; vm_compute; reflexivity. Qed.

End ManagerFacts.

(** ** Example runs *)

(** Runs of the telemetry loop of robot 1 on the database [fleet_db]. None
    of their frames hands a [str] to [int] or [float]: the outcome is the
    same under every numeral parser. *)
Section ExampleRuns.
Import Python Database RedisServer.
Context `{StrNumerals}.

(** Connect, pose (0,0), connection closed, reconnect, pose (3,4). *)
Lemma reconnect_run :
  map m_distance
    (robot_movement (w_db (snd (snd
       (pub_robot_status 1
          [ConnectOk; Recv (pose_frame 0 0); RecvFail ConnectionClosed; Elapsed;
           ConnectOk; Recv (pose_frame 3 4)]
          (initial_world fleet_db))))))
    = [float_zero; float_of_Z_round 5] /\
  float_of_Z_round 5 <> float_zero /\
  In (Db (RecordPosition 1 (float_of_Z_round 3) (float_of_Z_round 4) float_zero
            (Some float_zero) (Some float_zero)))
     (w_trace (snd (snd
       (pub_robot_status 1
          [ConnectOk; Recv (pose_frame 0 0); RecvFail ConnectionClosed; Elapsed;
           ConnectOk; Recv (pose_frame 3 4)]
          (initial_world fleet_db))))).
Proof.
  split; [vm_compute; reflexivity |]. split; [vm_compute; discriminate |].
  vm_compute. auto 50.
Qed.

(** Connect, then one malformed frame. *)
Lemma malformed_frame_run :
  fst (pub_robot_status 1 [ConnectOk; Recv (Garbled "not json")]
         (initial_world fleet_db)) = Sleeping /\
  session_id (fst (snd (pub_robot_status 1 [ConnectOk; Recv (Garbled "not json")]
                          (initial_world fleet_db)))) = None /\
  map s_status (robot_sessions (w_db (snd (snd
        (pub_robot_status 1 [ConnectOk; Recv (Garbled "not json")]
           (initial_world fleet_db)))))) = ["online"; "offline"] /\
  count (fun e => match e with WsClose => true | _ => false end)
    (w_trace (snd (snd (pub_robot_status 1 [ConnectOk; Recv (Garbled "not json")]
                          (initial_world fleet_db))))) = 1%nat.
Proof. repeat split; vm_compute; reflexivity. Qed.


(** The manager when the telemetry loop is left by an exception twice:
    it waits 5 seconds, starts the loop again after the wait, and waits 10
    seconds after the second failure. *)
Lemma manager_backoff_run :
  fst (pub_robot_status_manager [ConnectOk; Recv (Garbled "not json")] crashing_world)
    = {| mgr_robot_id := Some 1; restart_count := 1; mgr_pc := MgrBackoff 5 |} /\
  mgr_pc (fst (pub_robot_status_manager
                 [ConnectOk; Recv (Garbled "not json"); Elapsed] crashing_world))
    = MgrRunning Connecting initial_locals /\
  fst (pub_robot_status_manager
         [ConnectOk; Recv (Garbled "not json"); Elapsed;
          ConnectOk; Recv (Garbled "not json")] crashing_world)
    = {| mgr_robot_id := Some 1; restart_count := 2; mgr_pc := MgrBackoff 10 |}.
Proof. repeat split; vm_compute; reflexivity. Qed.

End ExampleRuns.

(** ** The closed examples *)

Section Examples.
Import Python Database RedisServer.

(** C3, counterexample: connect, pose (0,0), connection closed, reconnect,
    pose (3,4). The first sample after the reconnect is recorded with the
    pose from before the disconnect as previous pose and gets distance
    5.0, not 0. *)
Lemma C3_distance_carried_over_reconnect :
  map m_distance
    (robot_movement (w_db (snd (snd
       (@pub_robot_status no_numeral_strings 1
          [ConnectOk; Recv (pose_frame 0 0); RecvFail ConnectionClosed; Elapsed;
           ConnectOk; Recv (pose_frame 3 4)]
          (initial_world fleet_db))))))
    = [float_zero; float_of_Z_round 5] /\
  float_of_Z_round 5 <> float_zero /\
  In (Db (RecordPosition 1 (float_of_Z_round 3) (float_of_Z_round 4) float_zero
            (Some float_zero) (Some float_zero)))
     (w_trace (snd (snd
       (@pub_robot_status no_numeral_strings 1
          [ConnectOk; Recv (pose_frame 0 0); RecvFail ConnectionClosed; Elapsed;
           ConnectOk; Recv (pose_frame 3 4)]
          (initial_world fleet_db))))).
Proof. exact (reconnect_run (H := no_numeral_strings)). Qed.

(** C5, counterexample: after connect, one malformed frame leaves the
    receive loop: the socket is closed, the session is ended (its offline
    row is written) and the loop sleeps. *)
Lemma C5_malformed_frame_tears_down :
  fst (@pub_robot_status no_numeral_strings 1 [ConnectOk; Recv (Garbled "not json")]
         (initial_world fleet_db)) = Sleeping /\
  session_id (fst (snd (@pub_robot_status no_numeral_strings 1
                          [ConnectOk; Recv (Garbled "not json")]
                          (initial_world fleet_db)))) = None /\
  map s_status (robot_sessions (w_db (snd (snd
        (@pub_robot_status no_numeral_strings 1 [ConnectOk; Recv (Garbled "not json")]
           (initial_world fleet_db)))))) = ["online"; "offline"] /\
  count (fun e => match e with WsClose => true | _ => false end)
    (w_trace (snd (snd (@pub_robot_status no_numeral_strings 1
                          [ConnectOk; Recv (Garbled "not json")]
                          (initial_world fleet_db))))) = 1%nat.
Proof. exact (malformed_frame_run (H := no_numeral_strings)). Qed.

(** C5 at the state after the first connect of robot 1. *)
Lemma C5_malformed_frame_ends_session_witness :
  session_id (fst online_state) = Some 1 /\ 1 <> 0 /\
  w_faults (snd online_state) = [] /\ w_shutdown (snd online_state) = false /\
  @pub_run_step no_numeral_strings 1
    (Receiving, (fst online_state, snd online_state)) (Recv (Garbled "not json"))
  = (Sleeping,
     (set_session_id None (fst online_state),
      session_ended 1 "unexpected_error: JSONDecodeError"
        [WsClose;
         Printed "Unexpected error in pub_robot_status: {e}" [AExn JSONDecodeError];
         Traceback JSONDecodeError;
         Db (EndRobotSession 1 "unexpected_error: JSONDecodeError")]
        (snd online_state))).
Proof.
  split; [reflexivity |]. split; [discriminate |].
  split; [reflexivity |]. split; [reflexivity |].
  apply (C5_malformed_frame_ends_session (H := no_numeral_strings) 1 "not json"
           (fst online_state) (snd online_state) 1).
  - reflexivity.
  - discriminate.
  - reflexivity.
  - reflexivity.
Defined.



(** C7 at the third restart: the hypotheses at the world in which the
    telemetry loop has just raised, the step of the manager that takes it
    from the running loop into the wait, and the waits of a run in which
    the loop raises twice. *)
Lemma C7_backoff_wait_witness :
  1 <= 3 /\ is_Exception PostgresError = true /\
  w_shutdown (snd (snd crashed_state)) = false /\
  fst (after_publisher 1 (3 - 1) (Raise PostgresError) (snd (snd crashed_state)))
    = Ok (3, MgrBackoff 15) /\
  fst (@manager_step no_numeral_strings
         ({| mgr_robot_id := Some 1; restart_count := 3 - 1;
             mgr_pc := MgrRunning Receiving (fst (failing_next PostgresError online_state)) |},
          snd (failing_next PostgresError online_state))
         (Recv (Garbled "not json")))
    = {| mgr_robot_id := Some 1; restart_count := 3; mgr_pc := MgrBackoff 15 |} /\
  @waits_of_run no_numeral_strings (manager_enter crashing_world)
    [ConnectOk; Recv (Garbled "not json"); Elapsed; ConnectOk; Recv (Garbled "not json")]
    = [5; 10].
Proof.
  assert (Hn : 1 <= 3) by lia.
  assert (He : is_Exception PostgresError = true) by reflexivity.
  assert (Halive : w_shutdown (snd (snd crashed_state)) = false) by (vm_compute; reflexivity).
  destruct (C7_backoff_wait (H := no_numeral_strings) 1 3 PostgresError
              (snd (snd crashed_state)) Hn He Halive)
    as (Hafter & _ & _ & _ & Hstep & _ & Hrun).
  split; [exact Hn |]. split; [exact He |]. split; [exact Halive |].
  split; [exact Hafter |]. split.
  - rewrite (Hstep Receiving (fst (failing_next PostgresError online_state))
               (fst (snd crashed_state)) (snd (failing_next PostgresError online_state))
               (Recv (Garbled "not json"))) by (vm_compute; reflexivity).
    reflexivity.
  - destruct (Hrun [ConnectOk; Recv (Garbled "not json"); Elapsed;
                    ConnectOk; Recv (Garbled "not json")] crashing_world) as [_ Hwaits].
    rewrite Hwaits. vm_compute. reflexivity.
Defined.

(** C9 on a database without robots. *)
Lemma C9_unresolved_serial_stops_manager_witness :
  Database.get_robot_id_by_sn serial_number (w_db (initial_world empty_db)) = None /\
  hd None (w_faults (initial_world empty_db)) = None /\
  fst (@pub_robot_status_manager no_numeral_strings [ConnectOk; Elapsed; Recv battery_frame]
         (initial_world empty_db))
    = {| mgr_robot_id := None; restart_count := 0; mgr_pc := MgrStopped |}.
Proof.
  split; [reflexivity |]. split; [reflexivity |].
  apply (C9_unresolved_serial_stops_manager (H := no_numeral_strings)
           (initial_world empty_db) [ConnectOk; Elapsed; Recv battery_frame]).
  - reflexivity.
  - reflexivity.
Defined.

End Examples.

(* ===================================================================== *)
(** * Further properties of database.py and redis_server.py *)
(* ===================================================================== *)

Section DistanceFacts.
Import Python Database.

(** ** The sign and the symmetry of a distance *)

Lemma binary_round_aux_sign s mx ex lx :
  float_sign_bit (binary_round_aux prec emax s mx ex lx) = s \/
  binary_round_aux prec emax s mx ex lx = S754_nan.
Proof.
  unfold binary_round_aux.
  destruct (shr_fexp prec emax mx ex lx) as [mrs' e'].
  destruct (shr_fexp prec emax _ e' loc_Exact) as [mrs'' e''].
  destruct (shr_m mrs''); [left; reflexivity | | right; reflexivity].
  destruct (_ <=? _); left; reflexivity.
Qed.

Lemma binary_round_sign s m e :
  float_sign_bit (binary_round prec emax s m e) = s \/
  binary_round prec emax s m e = S754_nan.
Proof.
  unfold binary_round. destruct (shl_align m e _) as [mz ez].
  apply binary_round_aux_sign.
Qed.

(** The sign is the only thing in which the two roundings differ. *)
Lemma binary_round_aux_opp mx ex lx :
  binary_round_aux prec emax true mx ex lx = SFopp (binary_round_aux prec emax false mx ex lx).
Proof.
  unfold binary_round_aux.
  destruct (shr_fexp prec emax mx ex lx) as [mrs' e'].
  destruct (shr_fexp prec emax _ e' loc_Exact) as [mrs'' e''].
  destruct (shr_m mrs''); [reflexivity | | reflexivity].
  destruct (_ <=? _); reflexivity.
Qed.

Lemma binary_round_opp m e :
  binary_round prec emax true m e = SFopp (binary_round prec emax false m e).
Proof.
  unfold binary_round. destruct (shl_align m e _) as [mz ez].
  apply binary_round_aux_opp.
Qed.

Lemma float_pow2_opp x : float_pow2 (SFopp x) = float_pow2 x.
Proof. destruct x as [s | s | | s m e]; try reflexivity. destruct s; reflexivity. Qed.

Lemma float_sub_swap x y :
  float_sub y x = SFopp (float_sub x y) \/
  (exists s s', float_sub x y = S754_zero s /\ float_sub y x = S754_zero s').
Proof.
  destruct x as [sx | sx | | sx mx ex], y as [sy | sy | | sy my ey];
    try (left; reflexivity);
    try (destruct sx; left; reflexivity);
    try (destruct sy; left; reflexivity);
    try (destruct sx, sy;
         first [left; reflexivity | right; eexists; eexists; split; reflexivity]).
  unfold float_sub, SFsub.
  rewrite (Z.min_comm ey ex).
  set (ez := Z.min ex ey).
  set (a := cond_Zopp sx (Z.pos (fst (shl_align mx ex ez)))).
  set (b := cond_Zopp sy (Z.pos (fst (shl_align my ey ez)))).
  replace (b - a) with (- (a - b)) by lia.
  destruct (a - b) as [| p | p]; unfold binary_normalize.
  - right. eexists; eexists; split; reflexivity.
  - left. change (- Z.pos p) with (Z.neg p). cbv iota. apply binary_round_opp.
  - left. change (- Z.neg p) with (Z.pos p). cbv iota. rewrite binary_round_opp.
    destruct (binary_round prec emax false p ez) as [s | s | | s m e]; try reflexivity;
      destruct s; reflexivity.
Qed.

Lemma float_pow2_sub_swap x y : float_pow2 (float_sub y x) = float_pow2 (float_sub x y).
Proof.
  destruct (float_sub_swap x y) as [-> | (s & s' & -> & ->)];
    [apply float_pow2_opp | reflexivity].
Qed.

Lemma float_pow2_sign x r : float_pow2 x = Ok r -> float_sign_bit r = false.
Proof.
  destruct x as [s | s | | s m e]; simpl; try (intros [= <-]; reflexivity).
  unfold float_mul, SFmul. rewrite xorb_nilpotent.
  pose proof (binary_round_aux_sign false (Z.pos (m * m)) (e + e) loc_Exact) as Hs.
  revert Hs.
  destruct (binary_round_aux prec emax false (Z.pos (m * m)) (e + e) loc_Exact);
    intros [Hs | Hn]; try discriminate; intros [= <-]; first [exact Hs | reflexivity].
Qed.

Lemma float_pow2_raises x e : float_pow2 x = Raise e -> e = OverflowError.
Proof.
  destruct x as [s | s | | s m ex]; cbn [float_pow2]; try discriminate.
  destruct (float_mul (S754_finite s m ex) (S754_finite s m ex)); try discriminate.
  congruence.
Qed.

Lemma float_add_sign x y :
  float_sign_bit x = false -> float_sign_bit y = false ->
  float_sign_bit (float_add x y) = false.
Proof.
  destruct x as [sx | sx | | sx mx ex], y as [sy | sy | | sy my ey]; simpl;
    intros Hx Hy; subst; try reflexivity.
  unfold float_add, SFadd. cbv zeta. cbn [cond_Zopp].
  rewrite <- Pos2Z.inj_add. unfold binary_normalize.
  destruct (binary_round_sign false
              (fst (shl_align mx ex (Z.min ex ey)) + fst (shl_align my ey (Z.min ex ey)))%positive
              (Z.min ex ey)) as [Hs | Hn].
  - exact Hs.
  - rewrite Hn. reflexivity.
Qed.

Lemma math_sqrt_sign x :
  float_sign_bit x = false ->
  exists r, math_sqrt x = Ok r /\ float_sign_bit r = false.
Proof.
  destruct x as [s | s | | s m e]; simpl; intros Hs; subst.
  - eexists; split; reflexivity.
  - eexists; split; reflexivity.
  - eexists; split; reflexivity.
  - eexists; split; [reflexivity |]. unfold SFsqrt.
    destruct (SFsqrt_core_binary prec emax (Z.pos m) e) as [[mz ez] lz].
    destruct (binary_round_aux_sign false mz ez lz) as [Hs | Hn];
      [exact Hs | rewrite Hn; reflexivity].
Qed.

(** X1: the distance between two points does not depend on the direction:
    [calculate_distance] gives the same result, and raises the same
    exception, when the two points are swapped. *)
Theorem calculate_distance_symmetric (x1 y1 x2 y2 : float) :
  calculate_distance x1 y1 x2 y2 = calculate_distance x2 y2 x1 y1.
Proof.
  unfold calculate_distance.
  rewrite (float_pow2_sub_swap x1 x2), (float_pow2_sub_swap y1 y2). reflexivity.
Qed.

Lemma calculate_distance_cases (x1 y1 x2 y2 : float) :
  (exists distance,
     calculate_distance x1 y1 x2 y2 = Ok distance /\ float_sign_bit distance = false) \/
  calculate_distance x1 y1 x2 y2 = Raise OverflowError.
Proof.
  unfold calculate_distance.
  destruct (float_pow2 (float_sub x2 x1)) as [dx2 | e] eqn:Hdx; cbn [obind];
    [| right; rewrite (float_pow2_raises _ _ Hdx); reflexivity].
  destruct (float_pow2 (float_sub y2 y1)) as [dy2 | e] eqn:Hdy; cbn [obind];
    [| right; rewrite (float_pow2_raises _ _ Hdy); reflexivity].
  left. apply math_sqrt_sign.
  apply float_add_sign; eapply float_pow2_sign; eassumption.
Qed.

(** X2: [calculate_distance] never returns a negative number (nor -0.0)
    and raises nothing but [OverflowError]: the argument it hands to
    [math.sqrt] is a sum of two squares, so the math domain error of
    [math.sqrt] cannot occur. *)
Theorem calculate_distance_never_negative (x1 y1 x2 y2 : float) :
  match calculate_distance x1 y1 x2 y2 with
  | Ok distance => float_sign_bit distance = false
  | Raise e => e = OverflowError
  end.
Proof.
  destruct (calculate_distance_cases x1 y1 x2 y2) as [(distance & -> & Hsign) | ->];
    [exact Hsign | reflexivity].
Qed.

(** X3: [record_position] either stores one sample whose distance is not
    negative and leaves everything else as it was, or raises
    [OverflowError] (from the distance); it raises nothing else of its
    own. *)
Theorem record_position_fails_only_by_overflow
    (now robot_id : Z) (x y ori : float) (prev_x prev_y : option float) (d : db) :
  match record_position now robot_id x y ori prev_x prev_y d with
  | Ok d' => exists distance,
               d' = with_sample now robot_id x y ori distance d /\
               float_sign_bit distance = false
  | Raise e => e = OverflowError
  end.
Proof.
  unfold record_position.
  destruct prev_x as [px |], prev_y as [py |]; cbn [obind];
    try (exists float_zero; split; reflexivity).
  destruct (calculate_distance_cases px py x y) as [(distance & -> & Hsign) | ->]; cbn [obind].
  - exists distance. split; [reflexivity | exact Hsign].
  - reflexivity.
Qed.

End DistanceFacts.

Section LogFacts.
Import Python Database.

(** ** The session log is append-only and its ids are fresh *)

Lemma latest_max rows best :
  latest rows = Some best ->
  Forall (fun row => s_timestamp row <= s_timestamp best) rows.
Proof.
  revert best. induction rows as [| r rest IH]; intros best; [constructor |].
  simpl. destruct (latest rest) as [b |] eqn:Hl.
  - specialize (IH b eq_refl).
    destruct (Z.ltb_spec (s_timestamp r) (s_timestamp b)); intros [= <-].
    + constructor; [lia | exact IH].
    + constructor; [lia |]. eapply Forall_impl; [exact IH |]. simpl. intros; lia.
  - apply latest_None in Hl. subst rest. intros [= <-]. constructor; [lia | constructor].
Qed.

(** What a call appends. *)
Lemma start_robot_session_appends now robot_id d :
  exists closing,
    robot_sessions (snd (start_robot_session now robot_id d)) =
      (robot_sessions d ++ closing ++
       [{| s_id := fst (start_robot_session now robot_id d); s_robot_id := robot_id;
           s_status := "online"; s_timestamp := now; s_session_duration := None;
           s_notes := None |}])%list /\
    fst (start_robot_session now robot_id d) =
      robot_sessions_seq d + Z.of_nat (List.length closing) /\
    robot_sessions_seq (snd (start_robot_session now robot_id d)) =
      fst (start_robot_session now robot_id d) + 1 /\
    (List.length closing <= 1)%nat /\
    Forall (fun row => s_id row = robot_sessions_seq d /\ s_robot_id row = robot_id /\
                       s_status row = "offline") closing /\
    robots (snd (start_robot_session now robot_id d)) = robots d /\
    tasks_history (snd (start_robot_session now robot_id d)) = tasks_history d /\
    robot_movement (snd (start_robot_session now robot_id d)) = robot_movement d.
Proof.
  unfold start_robot_session.
  destruct (option_map s_id (last_online_session robot_id d)) as [id |].
  - destruct (negb (id =? 0)).
    + eexists [_]. cbn. rewrite <- app_assoc. cbn.
      repeat split; try reflexivity; try lia. repeat constructor.
    + exists []. cbn. repeat split; try reflexivity; try lia. constructor.
  - exists []. cbn. repeat split; try reflexivity; try lia. constructor.
Qed.

Lemma end_robot_session_appends now robot_id reason d :
  exists added,
    robot_sessions (snd (end_robot_session now robot_id reason d)) =
      (robot_sessions d ++ added)%list /\
    robot_sessions_seq (snd (end_robot_session now robot_id reason d)) =
      robot_sessions_seq d + Z.of_nat (List.length added) /\
    (List.length added <= 1)%nat /\
    Forall (fun row => s_id row = robot_sessions_seq d /\ s_robot_id row = robot_id /\
                       s_status row = "offline" /\
                       fst (end_robot_session now robot_id reason d) = Some (s_id row)) added /\
    (added = [] -> fst (end_robot_session now robot_id reason d) = None) /\
    robots (snd (end_robot_session now robot_id reason d)) = robots d /\
    tasks_history (snd (end_robot_session now robot_id reason d)) = tasks_history d /\
    robot_movement (snd (end_robot_session now robot_id reason d)) = robot_movement d.
Proof.
  unfold end_robot_session.
  destruct (last_online_session robot_id d) as [row |].
  - eexists [_]. cbn. repeat split; try reflexivity; try lia.
    + repeat constructor.
    + discriminate.
  - exists []. cbn. rewrite app_nil_r. repeat split; try reflexivity; try lia. constructor.
Qed.

Lemma do_call_appends d c :
  exists added,
    robot_sessions (do_call d c) = (robot_sessions d ++ added)%list /\
    robot_sessions_seq (do_call d c) = robot_sessions_seq d + Z.of_nat (List.length added) /\
    Forall (fun row => robot_sessions_seq d <= s_id row < robot_sessions_seq (do_call d c) /\
                       s_robot_id row = call_robot c) added /\
    NoDup (map s_id added) /\
    robots (do_call d c) = robots d /\
    tasks_history (do_call d c) = tasks_history d /\
    robot_movement (do_call d c) = robot_movement d.
Proof.
  destruct c as [now r | now r reason]; cbn [do_call call_robot].
  - destruct (start_robot_session_appends now r d)
      as (closing & Hrows & Hid & Hseq & Hlen & Hclosing & Hr & Ht & Hm).
    exists (closing ++ [{| s_id := fst (start_robot_session now r d); s_robot_id := r;
                           s_status := "online"; s_timestamp := now;
                           s_session_duration := None; s_notes := None |}])%list.
    split; [exact Hrows |].
    rewrite Hseq, Hid. rewrite length_app. cbn [List.length].
    split; [lia |].
    destruct closing as [| c [| c' rest]]; [| | cbn in Hlen; lia].
    + cbn. repeat split; try assumption; try lia.
      * repeat constructor; cbn; lia.
      * repeat constructor. intros Hin. inversion Hin.
    + inversion Hclosing as [| ? ? (Hc & Hcr & _) _]; subst.
      cbn. repeat split; try assumption; try lia.
      * repeat constructor; cbn; try lia; assumption.
      * rewrite Hc. repeat constructor.
        -- intros Hin. apply list_elem_of_In in Hin. destruct Hin as [Heq | []]. lia.
        -- intros Hin. inversion Hin.
  - destruct (end_robot_session_appends now r reason d)
      as (added & Hrows & Hseq & Hlen & Hadded & _ & Hr & Ht & Hm).
    exists added. rewrite Hseq. repeat split; try assumption.
    + destruct added as [| a [| a' rest]]; [constructor | | cbn in Hlen; lia].
      inversion Hadded as [| ? ? (Ha & Har & _) _]; subst.
      repeat constructor; cbn; try lia; assumption.
    + destruct added as [| a [| a' rest]]; [constructor | | cbn in Hlen; lia].
      repeat constructor. intros Hin. inversion Hin.
Qed.

Lemma ids_below_seq_call d c :
  ids_below_seq d -> NoDup (session_ids d) ->
  ids_below_seq (do_call d c) /\ NoDup (session_ids (do_call d c)).
Proof.
  intros Hbelow Hnodup.
  destruct (do_call_appends d c) as (added & Hrows & Hseq & Hadded & Hnd & _).
  unfold ids_below_seq, session_ids. rewrite Hrows. split.
  - apply Forall_app. split.
    + eapply Forall_impl; [exact Hbelow |]. simpl. intros row Hrow. lia.
    + eapply Forall_impl; [exact Hadded |]. simpl. intros row [Hrow _]. lia.
  - rewrite map_app. apply NoDup_app. split; [exact Hnodup |]. split; [| exact Hnd].
    intros id Hold Hnew.
    apply list_elem_of_In, in_map_iff in Hold as (row & <- & Hold).
    apply list_elem_of_In, in_map_iff in Hnew as (row' & Heq & Hnew).
    unfold ids_below_seq in Hbelow. rewrite Forall_forall in Hbelow, Hadded.
    apply list_elem_of_In in Hold, Hnew.
    specialize (Hbelow _ Hold). destruct (Hadded _ Hnew) as [Hrange _]. lia.
Qed.

Lemma ids_below_seq_run calls d :
  ids_below_seq d -> NoDup (session_ids d) ->
  ids_below_seq (run_calls calls d) /\ NoDup (session_ids (run_calls calls d)).
Proof.
  revert d. induction calls as [| c calls IH]; intros d Hb Hn; [auto |].
  cbn [run_calls fold_left]. destruct (ids_below_seq_call d c Hb Hn) as [Hb' Hn'].
  apply IH; assumption.
Qed.

(** X4: the session functions only insert. After any sequence of
    [start_robot_session] and [end_robot_session] calls on any table, the
    rows that were there are still there, unchanged and in place, with the
    new rows after them; the robots, the tasks and the movement samples are
    untouched. *)
Theorem session_log_is_append_only (calls : list session_call) (d : db) :
  (exists added, robot_sessions (run_calls calls d) = (robot_sessions d ++ added)%list) /\
  robots (run_calls calls d) = robots d /\
  tasks_history (run_calls calls d) = tasks_history d /\
  robot_movement (run_calls calls d) = robot_movement d.
Proof.
  revert d. induction calls as [| c calls IH]; intros d.
  - split; [exists []; rewrite app_nil_r; reflexivity | auto].
  - cbn [run_calls fold_left].
    destruct (do_call_appends d c) as (added & Hrows & _ & _ & _ & Hr & Ht & Hm).
    destruct (IH (do_call d c)) as ((added' & Hrows') & Hr' & Ht' & Hm').
    unfold run_calls in *. split.
    + exists (added ++ added')%list. rewrite Hrows', Hrows, app_assoc. reflexivity.
    + repeat split; congruence.
Qed.

(** X5: the ids of the session rows written by the two session functions
    are pairwise distinct, and the id a call returns is the id of no row
    that was there before the call. *)
Theorem session_ids_are_fresh (calls : list session_call) (now robot_id : Z) (reason : string) :
  NoDup (session_ids (run_calls calls empty_db)) /\
  ~ In (fst (start_robot_session now robot_id (run_calls calls empty_db)))
       (session_ids (run_calls calls empty_db)) /\
  (forall id, fst (end_robot_session now robot_id reason (run_calls calls empty_db)) = Some id ->
              ~ In id (session_ids (run_calls calls empty_db))).
Proof.
  assert (Hempty : ids_below_seq empty_db /\ NoDup (session_ids empty_db))
    by (split; constructor).
  destruct (ids_below_seq_run calls empty_db (proj1 Hempty) (proj2 Hempty)) as [Hb Hn].
  set (d := run_calls calls empty_db) in *.
  assert (Hold : forall id, In id (session_ids d) -> id < robot_sessions_seq d).
  { intros id Hin. apply in_map_iff in Hin as (row & <- & Hin).
    unfold ids_below_seq in Hb. rewrite Forall_forall in Hb.
    apply Hb, list_elem_of_In, Hin. }
  split; [exact Hn |]. split.
  - intros Hin. apply Hold in Hin.
    destruct (start_robot_session_appends now robot_id d) as (closing & _ & Hid & _).
    lia.
  - intros id Hid Hin. apply Hold in Hin.
    destruct (end_robot_session_appends now robot_id reason d)
      as (added & _ & _ & _ & Hadded & Hnone & _).
    destruct added as [| a rest]; [rewrite (Hnone eq_refl) in Hid; discriminate |].
    inversion Hadded as [| ? ? (Ha & _ & _ & Hret) _]; subst.
    rewrite Hret in Hid. injection Hid as <-. lia.
Qed.

(** X6: session calls for other robots leave the rows of a robot as
    they were. *)
Theorem sessions_of_other_robots_untouched
    (calls : list session_call) (robot_id : Z) (d : db)
    (Hother : Forall (fun c => call_robot c <> robot_id) calls) :
  rows_of robot_id (run_calls calls d) = rows_of robot_id d.
Proof.
  revert d. induction Hother as [| c calls Hc _ IH]; intros d; [reflexivity |].
  cbn [run_calls fold_left]. unfold run_calls in IH. rewrite IH.
  destruct (do_call_appends d c) as (added & Hrows & _ & Hadded & _).
  unfold rows_of. rewrite Hrows, List.filter_app.
  replace (List.filter (fun row => s_robot_id row =? robot_id) added) with (@nil session_row);
    [apply app_nil_r |].
  symmetry. clear Hrows. induction Hadded as [| row added [_ Hrow] _ IHa]; [reflexivity |].
  cbn. destruct (Z.eqb_spec (s_robot_id row) robot_id); [congruence | exact IHa].
Qed.



(** ** The duration of a session *)

Lemma online_rows_start now robot_id d :
  online_rows robot_id (snd (start_robot_session now robot_id d)) =
  (online_rows robot_id d ++
   [{| s_id := fst (start_robot_session now robot_id d); s_robot_id := robot_id;
       s_status := "online"; s_timestamp := now; s_session_duration := None;
       s_notes := None |}])%list.
Proof.
  destruct (start_robot_session_appends now robot_id d)
    as (closing & Hrows & _ & _ & _ & Hclosing & _).
  unfold online_rows. rewrite Hrows, !List.filter_app.
  replace (List.filter (is_online_of robot_id) closing) with (@nil session_row).
  - cbn. unfold is_online_of. cbn. rewrite Z.eqb_refl. reflexivity.
  - symmetry. clear Hrows.
    induction Hclosing as [| row closing (_ & _ & Hst) _ IH]; [reflexivity |].
    cbn. unfold is_online_of at 1. rewrite Hst. cbn. rewrite andb_false_r. exact IH.
Qed.

Lemma latest_snoc_timestamp rows row :
  Forall (fun r => s_timestamp r <= s_timestamp row) rows ->
  option_map s_timestamp (latest (rows ++ [row])) = Some (s_timestamp row).
Proof.
  intros Hle. destruct (latest (rows ++ [row])) as [best |] eqn:Hl.
  - cbn. f_equal. pose proof (latest_max _ _ Hl) as Hmax.
    apply Forall_app in Hmax as [_ Hrow]. inversion Hrow as [| ? ? Hr _]; subst.
    apply latest_In, in_app_iff in Hl as [Hin | [<- | []]]; [| reflexivity].
    rewrite Forall_forall in Hle. apply list_elem_of_In in Hin. specialize (Hle _ Hin). lia.
  - apply latest_None in Hl. destruct rows; discriminate.
Qed.

(** X7: a session started at [t1] and ended at [t2] is closed with the
    duration [t2 - t1], provided no online row of the robot carries a
    timestamp later than [t1]; the call returns the id of the offline row
    it inserts. *)
Theorem session_duration_round_trip
    (t1 t2 robot_id : Z) (reason : string) (d : db)
    (Hclock : Forall (fun row => s_timestamp row <= t1) (online_rows robot_id d)) :
  let d1 := snd (start_robot_session t1 robot_id d) in
  end_robot_session t2 robot_id reason d1 =
  (Some (robot_sessions_seq d1),
   snd (insert_session robot_id "offline" t2 (Some (t2 - t1))
          (Some ("Disconnected: " +:+ reason)) d1)).
Proof.
  intros d1. unfold end_robot_session, last_online_session.
  fold (online_rows robot_id d1). unfold d1 at 1. rewrite online_rows_start.
  pose proof (latest_snoc_timestamp (online_rows robot_id d)
    {| s_id := fst (start_robot_session t1 robot_id d); s_robot_id := robot_id;
       s_status := "online"; s_timestamp := t1; s_session_duration := None;
       s_notes := None |} Hclock) as Hts.
  destruct (latest _) as [best |]; [| discriminate Hts].
  cbn in Hts. injection Hts as ->. reflexivity.
Qed.

End LogFacts.

(** ** Tasks *)

Section TaskFacts.
Import Python Database RedisServer.
Local Open Scope py_scope.

(** X8: [update_task_status] with the id of no task changes no table. When
    the call completes, its [UPDATE] has matched no row; when the call
    raises (the driver refuses an id outside int64 with a [DataError], the
    connection fails), nothing was written either, and the exception is
    the caller's. *)
Theorem update_task_status_unknown_task
    (now task_id : Z) (status : string) (fail_reason : option json) (d : db)
    (Hunknown : unknown_task task_id d = true) :
  Database.update_task_status now task_id status fail_reason d = d /\
  (forall w : world, w_db w = d ->
     w_db (snd (RedisServer.update_task_status task_id status fail_reason w)) = d /\
     fst (RedisServer.update_task_status task_id status fail_reason w)
     = match w_faults w with
       | Some e :: _ => Raise e
       | _ => Ok tt
       end).
Proof.
  assert (Hsame : forall t, Database.update_task_status t task_id status fail_reason d = d).
  { intros t. destruct d as [rb tasks mv ss sq].
    unfold Database.update_task_status, unknown_task in *.
    cbn in *. f_equal.
    induction tasks as [| r tasks IH]; [reflexivity |].
    cbn in Hunknown. apply andb_true_iff in Hunknown as [Ht Hrest].
    cbn. rewrite (IH Hrest). apply negb_true_iff in Ht. rewrite Ht. reflexivity. }
  split; [apply Hsame |].
  intros w Hdb. destruct w as [d0 redis active stop clock faults trace].
  cbn [w_db] in Hdb. subst d0.
  unfold RedisServer.update_task_status, await_call, fate, on_db, emit, bind, modify, get, ret, raise.
  cbn [w_faults set_trace w_trace w_clock w_db set_faults].
  destruct faults as [| [e |] rest];
    cbn [w_faults set_trace w_trace w_clock w_db set_faults set_db fst snd];
    rewrite ?Hsame; split; reflexivity.
Qed.

End TaskFacts.

Section ClosedSessionFacts.
Import Python Database.

(** X9: for a robot without any online row, [end_robot_session] returns
    [None] and writes nothing, and the status test of
    [get_robot_current_session_duration] finds the robot offline too. *)
Theorem end_without_session_writes_nothing
    (now robot_id : Z) (reason : string) (d : db)
    (Hnone : online_rows robot_id d = []) :
  end_robot_session now robot_id reason d = (None, d) /\
  latest_row_is_online robot_id d = false.
Proof.
  split; [exact (end_robot_session_without_online_row now robot_id reason d Hnone) |].
  unfold latest_row_is_online.
  destruct (latest _) as [row |] eqn:Hlatest; [| reflexivity].
  apply latest_In, filter_In in Hlatest as [Hin Hrobot].
  destruct (String.eqb_spec (s_status row) "online") as [Hon | _]; [| reflexivity].
  exfalso.
  assert (Hrow : In row (online_rows robot_id d)).
  { apply filter_In. split; [exact Hin |]. unfold is_online_of.
    rewrite Hrobot, Hon. reflexivity. }
  rewrite Hnone in Hrow. destruct Hrow.
Qed.
End ClosedSessionFacts.

Section ReconnectFacts.
Import Python Database.

(** X10: [start_robot_session] looks for the latest online row of the
    robot, whether or not an offline row follows it. Whenever the robot has
    an online row, the call first inserts an offline row with the note
    [Auto-closed: New session started] and the time since the row of that
    id, and then the online row, whose id it returns. *)
Theorem reconnect_writes_auto_closed_row
    (now robot_id : Z) (d : db) (row : session_row)
    (Honline : last_online_session robot_id d = Some row)
    (Hid : s_id row <> 0) :
  start_robot_session now robot_id d =
  (robot_sessions_seq d + 1,
   snd (insert_session robot_id "online" now None None
          (snd (insert_session robot_id "offline" now
                  (option_map (fun found => now - s_timestamp found)
                     (List.find (fun r => s_id r =? s_id row) (robot_sessions d)))
                  (Some "Auto-closed: New session started") d)))) /\
  map s_status (robot_sessions (snd (start_robot_session now robot_id d))) =
    (map s_status (robot_sessions d) ++ ["offline"; "online"])%list.
Proof.
  unfold start_robot_session. rewrite Honline. cbn [option_map].
  apply Z.eqb_neq in Hid. rewrite Hid. cbn [negb].
  split; [reflexivity |].
  cbn. rewrite <- app_assoc, map_app. reflexivity.
Qed.

End ReconnectFacts.

Section PlanningFacts.
Import Python Database RedisServer.
Context `{StrNumerals}.
Local Open Scope py_scope.

(** ** Calls that succeed, one at a time *)

Lemma count_app p t t' : count p (t ++ t') = (count p t + count p t')%nat.
Proof. unfold count. rewrite List.filter_app, length_app. reflexivity. Qed.

Lemma bind_ok {S A B} (m : M S A) (k : A -> M S B) s a s' :
  m s = (Ok a, s') -> bind m k s = k a s'.
Proof. intros Hm. unfold bind. rewrite Hm. reflexivity. Qed.

Lemma bind_value {S A B} (a : A) (k : A -> M S B) s :
  bind (of_outcome (Ok a)) k s = k a s.
Proof. reflexivity. Qed.

Lemma print_ok fmt args w :
  print fmt args w = (Ok tt, set_trace (w_trace w ++ [Printed fmt args]) w).
Proof. reflexivity. Qed.

Lemma await_call_ok e w :
  w_faults w = [] -> await_call e w = (Ok tt, set_trace (w_trace w ++ [e]) w).
Proof.
  intros Hfaults. unfold await_call, fate, emit, bind, modify, get, ret. cbn.
  rewrite Hfaults. reflexivity.
Qed.

Lemma redis_set_ok k v w :
  w_faults w = [] ->
  redis_set k v w =
  (Ok tt, set_redis (<[k := v]> (w_redis w)) (set_trace (w_trace w ++ [Redis (RedisSet k v)]) w)).
Proof.
  intros Hfaults. unfold redis_set.
  rewrite (bind_ok _ _ _ _ _ (await_call_ok _ w Hfaults)). reflexivity.
Qed.

Lemma redis_get_ok k w :
  w_faults w = [] ->
  redis_get k w = (Ok (w_redis w !! k), set_trace (w_trace w ++ [Redis (RedisGet k)]) w).
Proof.
  intros Hfaults. unfold redis_get.
  rewrite (bind_ok _ _ _ _ _ (await_call_ok _ w Hfaults)). reflexivity.
Qed.

Lemma redis_delete_ok k w :
  w_faults w = [] ->
  redis_delete k w =
  (Ok tt, set_redis (delete k (w_redis w)) (set_trace (w_trace w ++ [Redis (RedisDelete k)]) w)).
Proof.
  intros Hfaults. unfold redis_delete.
  rewrite (bind_ok _ _ _ _ _ (await_call_ok _ w Hfaults)). reflexivity.
Qed.

Lemma redis_publish_ok c m w :
  w_faults w = [] ->
  redis_publish c m w = (Ok tt, set_trace (w_trace w ++ [Redis (RedisPublish c m)]) w).
Proof. apply await_call_ok. Qed.

Lemma update_task_status_ok t st fr w :
  w_faults w = [] ->
  RedisServer.update_task_status t st fr w =
  (Ok tt, set_db (Database.update_task_status (w_clock w) t st fr (w_db w))
            (set_trace (w_trace w ++ [Db (UpdateTaskStatus t st fr)]) w)).
Proof.
  intros Hfaults. unfold RedisServer.update_task_status.
  rewrite (bind_ok _ _ _ _ _ (await_call_ok _ w Hfaults)). reflexivity.
Qed.

Lemma time_time_ok w : time_time w = (Ok (JFloat (float_of_Z_round (w_clock w))), w).
Proof. reflexivity. Qed.

(** One statement of a body whose calls succeed, in a world given by its
    fields. *)
Ltac settle_world :=
  cbv [set_trace set_redis set_db set_active_sessions set_faults set_clock set_shutdown
       w_db w_redis w_active_sessions w_shutdown w_clock w_faults w_trace].

Ltac call_ok :=
  first
    [ rewrite bind_value
    | erewrite bind_ok by apply print_ok
    | erewrite bind_ok by apply time_time_ok
    | erewrite bind_ok by (apply redis_set_ok; reflexivity)
    | erewrite bind_ok by (apply redis_get_ok; reflexivity)
    | erewrite bind_ok by (apply redis_delete_ok; reflexivity)
    | erewrite bind_ok by (apply redis_publish_ok; reflexivity)
    | erewrite bind_ok by (apply update_task_status_ok; reflexivity) ];
  settle_world.

(** Without a cross-reference an event only stores the planning state. *)
Lemma handle_planning_state_untracked (d : list (string * json)) (w : world) :
  w_faults w = [] ->
  str_truthy (w_redis w !! "robot:current_task_id") = false ->
  handle_planning_state (JDict d) w =
  (Ok tt,
   set_redis (<["robot:planning_state" := Dumps (JDict d)]> (w_redis w))
     (set_trace (w_trace w ++
                 [planning_state_line d;
                  Redis (RedisSet "robot:planning_state" (Dumps (JDict d)));
                  Redis (RedisGet "robot:current_task_id");
                  Printed "No active task ID found" []]) w)).
Proof.
  intros Hfaults Hkey. destruct w as [db redis active stop clock faults trace].
  cbn [w_faults w_redis] in Hfaults, Hkey. subst faults. settle_world.
  unfold handle_planning_state. cbn [json_get].
  do 7 call_ok.
  rewrite lookup_insert_ne by discriminate.
  destruct (redis !! "robot:current_task_id") as [id_str |];
    [rewrite Hkey |]; rewrite print_ok; settle_world;
    unfold planning_state_line; rewrite <- !app_assoc; reflexivity.
Qed.

(** X11: without a cross-reference ([robot:current_task_id] absent or
    empty) [handle_planning_state] stores the event under
    [robot:planning_state] and does nothing else, whatever the event says:
    no task is written and nothing is published. *)
Theorem untracked_event_is_only_stored
    (d : list (string * json)) (w : world)
    (Hfaults : w_faults w = [])
    (Hkey : str_truthy (w_redis w !! "robot:current_task_id") = false) :
  let w' := snd (handle_planning_state (JDict d) w) in
  fst (handle_planning_state (JDict d) w) = Ok tt /\
  w_db w' = w_db w /\
  w_redis w' = <["robot:planning_state" := Dumps (JDict d)]> (w_redis w) /\
  count is_any_task_write (w_trace w') = count is_any_task_write (w_trace w) /\
  count is_publish (w_trace w') = count is_publish (w_trace w).
Proof.
  cbv zeta. rewrite (handle_planning_state_untracked d w Hfaults Hkey).
  cbn [fst snd]. destruct w as [db redis active stop clock faults trace].
  cbn -[insert count]. rewrite !count_app. cbn. repeat split; lia.
Qed.

(** The world after a failed or cancelled event of a tracked task. *)
Lemma handle_planning_state_final (d : list (string * json)) (w : world)
    (state : string) (id_str : pystr) (task_id : Z) :
  state = "failed" \/ state = "cancelled" ->
  assoc "move_state" d = Some (JStr state) ->
  w_faults w = [] ->
  w_redis w !! "robot:current_task_id" = Some id_str ->
  str_truthy (Some id_str) = true ->
  py_int id_str = Ok task_id ->
  exists effects redis,
    handle_planning_state (JDict d) w =
      (Ok tt,
       set_redis (delete "robot:current_task_id" redis)
         (set_db (Database.update_task_status (w_clock w) task_id state
                    (if String.eqb state "failed" then Some (fail_reason_of d) else None)
                    (w_db w))
            (set_trace (w_trace w ++ effects) w))) /\
    count (is_task_write task_id state) effects = 1%nat /\
    count is_any_task_write effects = 1%nat /\
    count (is_publish_on ("robot:task_" +:+ state)) effects = 1%nat.
Proof.
  intros Hfinal Hstate Hfaults Hkey Htrue Hint.
  destruct w as [db redis active stop clock faults trace].
  cbn [w_faults w_redis] in Hfaults, Hkey. subst faults. settle_world.
  destruct Hfinal; subst state; (eexists; eexists; split;
    [ unfold handle_planning_state; cbn [json_get]; rewrite Hstate;
      do 7 call_ok;
      rewrite lookup_insert_ne by discriminate;
      rewrite Hkey, Htrue, Hint; call_ok;
      cbn [json_eq_str String.eqb Ascii.eqb Bool.eqb];
      do 6 call_ok;
      rewrite redis_publish_ok by reflexivity; settle_world;
      rewrite <- !app_assoc; cbn [app]; reflexivity
    | cbv [String.append]; cbn; rewrite Z.eqb_refl; repeat split; reflexivity ]).
Qed.

(** X12: a failed or cancelled event for the tracked task writes the
    task status once (with the failure reason as note for failed), publishes
    once on [robot:task_failed] or [robot:task_cancelled] and deletes the
    cross-reference; whatever event follows causes no further task write. *)
Theorem failed_or_cancelled_event_is_final
    (d : list (string * json)) (w : world) (state : string) (id_str : pystr) (task_id : Z)
    (Hfinal : state = "failed" \/ state = "cancelled")
    (Hstate : assoc "move_state" d = Some (JStr state))
    (Hfaults : w_faults w = [])
    (Hkey : w_redis w !! "robot:current_task_id" = Some id_str)
    (Htrue : str_truthy (Some id_str) = true)
    (Hint : py_int id_str = Ok task_id) :
  let w' := snd (handle_planning_state (JDict d) w) in
  fst (handle_planning_state (JDict d) w) = Ok tt /\
  w_db w' = Database.update_task_status (w_clock w) task_id state
              (if String.eqb state "failed" then Some (fail_reason_of d) else None) (w_db w) /\
  w_redis w' !! "robot:current_task_id" = None /\
  count (is_task_write task_id state) (w_trace w') =
    S (count (is_task_write task_id state) (w_trace w)) /\
  count is_any_task_write (w_trace w') = S (count is_any_task_write (w_trace w)) /\
  count (is_publish_on ("robot:task_" +:+ state)) (w_trace w') =
    S (count (is_publish_on ("robot:task_" +:+ state)) (w_trace w)) /\
  (forall d2,
     count is_any_task_write (w_trace (snd (handle_planning_state (JDict d2) w')))
       = count is_any_task_write (w_trace w') /\
     w_db (snd (handle_planning_state (JDict d2) w')) = w_db w').
Proof.
  cbv zeta.
  destruct (handle_planning_state_final d w state id_str task_id
              Hfinal Hstate Hfaults Hkey Htrue Hint)
    as (effects & redis & -> & Hwrite & Hany & Hpub).
  cbn [fst snd].
  set (w' := set_redis _ _).
  assert (Hf' : w_faults w' = []) by (destruct w; exact Hfaults).
  assert (Hgone : w_redis w' !! "robot:current_task_id" = None).
  { unfold w'. destruct w. cbn -[delete]. apply lookup_delete_eq. }
  assert (Htrace : w_trace w' = (w_trace w ++ effects)%list) by (destruct w; reflexivity).
  assert (Hdb : w_db w' = Database.update_task_status (w_clock w) task_id state
                            (if String.eqb state "failed" then Some (fail_reason_of d)
                             else None) (w_db w)) by (destruct w; reflexivity).
  clearbody w'.
  split; [reflexivity |]. split; [exact Hdb |]. split; [exact Hgone |].
  rewrite Htrace, !count_app, Hwrite, Hany, Hpub.
  split; [lia |]. split; [lia |]. split; [lia |].
  intros d2.
  rewrite (handle_planning_state_untracked d2 w' Hf') by (rewrite Hgone; reflexivity).
  cbn [snd]. split.
  - destruct w'. cbn -[count] in *. subst. rewrite !count_app. cbn. lia.
  - destruct w'. reflexivity.
Qed.

End PlanningFacts.

Section TelemetryFacts.
Import Python Database RedisServer.
Context `{StrNumerals}.
Local Open Scope py_scope.

Ltac run_frame :=
  unfold telemetry_frame, redis_set, redis_get, redis_delete, redis_publish,
    RedisServer.update_task_status, in_world, local, assign, await_call, fate, on_db,
    print, emit, bind, modify, get, ret, raise, of_outcome;
  cbn -[insert delete lookup Database.update_task_status String.eqb String.append pretty
        json_eq_str].

(** X13: the telemetry loop ignores, without any effect, a frame whose
    topic is none of the three it handles, and a pose frame that has no
    [pos], fewer than two coordinates, or arrives for robot id 0. *)
Theorem telemetry_frame_without_content_is_ignored
    (robot_id : Z) (d : list (string * json)) (s : locals * world)
    (Hignored :
       (forall t, In t ["/battery_state"; "/tracked_pose"; "/planning_state"] ->
                  assoc "topic" d <> Some (JStr t)) \/
       (assoc "topic" d = Some (JStr "/tracked_pose") /\
        (robot_id = 0 \/ assoc "pos" d = None \/
         exists ps, assoc "pos" d = Some (JList ps) /\ (List.length ps < 2)%nat))) :
  telemetry_frame robot_id (Frame (JDict d)) s = (Ok tt, s).
Proof.
  destruct s as [l w].
  destruct Hignored as [Hother | [Htopic Hpose]].
  - run_frame.
    assert (Hno : forall t, In t ["/battery_state"; "/tracked_pose"; "/planning_state"] ->
              json_eq_str (match assoc "topic" d with Some v => v | None => JNull end) t = false).
    { intros t Hin. specialize (Hother t Hin).
      destruct (assoc "topic" d) as [[| | | | t' | |] |]; try reflexivity.
      cbn. apply String.eqb_neq. congruence. }
    rewrite !Hno by (cbn; auto). reflexivity.
  - run_frame. rewrite Htopic. cbn -[pretty].
    destruct Hpose as [-> | [Hpos | (ps & Hpos & Hlen)]].
    + reflexivity.
    + rewrite Hpos. destruct (robot_id =? 0); reflexivity.
    + rewrite Hpos. destruct (robot_id =? 0); [reflexivity |]. cbn.
      destruct (Z.leb_spec 2 (Z.of_nat (List.length ps))); [lia | reflexivity].
Qed.

(** X14: in the telemetry loop a [succeed] event for the task in
    [robot:{id}:current_task] writes the task as completed and deletes the
    key; the same event once more only reads the key. *)
Theorem inline_succeed_is_written_once
    (robot_id : Z) (d : list (string * json)) (l : locals) (w : world)
    (id_str : pystr) (task_id : Z)
    (Htopic : assoc "topic" d = Some (JStr "/planning_state"))
    (Hstate : assoc "move_state" d = Some (JStr "succeed"))
    (Hfaults : w_faults w = [])
    (Hkey : w_redis w !! current_task_key robot_id = Some id_str)
    (Htrue : str_truthy (Some id_str) = true)
    (Hint : py_int id_str = Ok task_id) :
  let w' :=
    set_redis (delete (current_task_key robot_id) (w_redis w))
      (set_db (Database.update_task_status (w_clock w) task_id "completed" None (w_db w))
         (set_trace (w_trace w ++
                     [Redis (RedisGet (current_task_key robot_id));
                      Db (UpdateTaskStatus task_id "completed" None);
                      Redis (RedisDelete (current_task_key robot_id));
                      Printed "Task {task_id} completed" [AInt task_id]]) w)) in
  telemetry_frame robot_id (Frame (JDict d)) (l, w) = (Ok tt, (l, w')) /\
  telemetry_frame robot_id (Frame (JDict d)) (l, w')
    = (Ok tt, (l, set_trace (w_trace w' ++ [Redis (RedisGet (current_task_key robot_id))]) w')).
Proof.
  destruct w as [db redis active stop clock faults trace]. cbn in Hfaults, Hkey. subst faults.
  cbv zeta. unfold current_task_key in *. split.
  - run_frame. rewrite Htopic, Hstate. cbn -[insert delete lookup Database.update_task_status String.append pretty str_truthy].
    rewrite Hkey. cbn -[insert delete lookup Database.update_task_status String.append pretty str_truthy].
    rewrite Htrue, Hint. cbn -[insert delete lookup Database.update_task_status String.append pretty].
    rewrite <- ?app_assoc. reflexivity.
  - run_frame. rewrite Htopic, Hstate. cbn -[insert delete lookup Database.update_task_status String.append pretty str_truthy].
    rewrite lookup_delete_eq. reflexivity.
Qed.

(** Once the monitor has ended, nothing it is given has an effect. *)
Lemma monitor_ended_step (pc : monitor_pc) (w : world) (i : input) :
  pc = MonReturned \/ (exists e, pc = MonRaised e) ->
  fst (monitor_run_step (pc, w) i) = pc /\
  w_trace (snd (monitor_run_step (pc, w) i)) = w_trace w /\
  w_db (snd (monitor_run_step (pc, w) i)) = w_db w /\
  w_redis (snd (monitor_run_step (pc, w) i)) = w_redis w.
Proof.
  intros [-> | [e ->]]; destruct i; cbn; repeat split; reflexivity.
Qed.

Lemma monitor_ended_run (inputs : list input) (pc : monitor_pc) (w : world) :
  pc = MonReturned \/ (exists e, pc = MonRaised e) ->
  fst (fold_left monitor_run_step inputs (pc, w)) = pc /\
  w_trace (snd (fold_left monitor_run_step inputs (pc, w))) = w_trace w /\
  w_db (snd (fold_left monitor_run_step inputs (pc, w))) = w_db w /\
  w_redis (snd (fold_left monitor_run_step inputs (pc, w))) = w_redis w.
Proof.
  revert w. induction inputs as [| i inputs IH]; intros w Hpc; [repeat split |].
  cbn [fold_left].
  destruct (monitor_ended_step pc w i Hpc) as (Hp & Ht & Hd & Hr).
  destruct (monitor_run_step (pc, w) i) as [pc' w'] eqn:Hstep. cbn [fst snd] in *. subst pc'.
  destruct (IH w' Hpc) as (Hp' & Ht' & Hd' & Hr').
  repeat split; congruence.
Qed.

End TelemetryFacts.

Section ReceiveFacts.
Import Python Database RedisServer.
Context `{StrNumerals}.
Local Open Scope py_scope.

(** X15: while the process is not shutting down, receive timeouts leave
    the telemetry loop as it is: it keeps waiting on the same connection
    with the same session, and nothing is logged, written or published. *)
Theorem idle_connection_changes_nothing
    (robot_id : Z) (inputs : list input) (s : locals * world)
    (Hidle : forallb is_receive_timeout inputs = true)
    (Halive : w_shutdown (snd s) = false) :
  fold_left (pub_run_step robot_id) inputs (Receiving, s) = (Receiving, s).
Proof.
  induction inputs as [| i inputs IH]; [reflexivity |].
  cbn in Hidle. apply andb_true_iff in Hidle as [Hi Hrest].
  cbn [fold_left].
  assert (Hstep : pub_run_step robot_id (Receiving, s) i = (Receiving, s)).
  { destruct s as [l w]. cbn in Halive.
    destruct i as [| | | | | | | e |]; try discriminate Hi;
      [| destruct e; try discriminate Hi];
      unfold pub_run_step, settle; cbn [pub_step fst snd];
      unfold inner_loop_test, bind, shutdown_is_set; cbn [fst snd];
      rewrite Halive; reflexivity. }
  rewrite Hstep. exact (IH Hrest).
Qed.

(** X16: an exception while a frame is handled ends
    [monitor_planning_state]: the error is printed, the socket is closed and
    the task returns. It is not started again: whatever comes next, nothing
    more is traced and the database and the broker stay as they are. *)
Theorem failed_frame_ends_monitor_for_good
    (msg : frame) (e : exn) (w w1 : world) (inputs : list input)
    (Hraise : monitor_frame msg w = (Raise e, w1))
    (He : is_Exception e = true) :
  let ended := monitor_run_step (MonReceiving, w) (Recv msg) in
  ended = (MonReturned,
           set_trace (w_trace w1 ++
                      [Printed "Planning state monitor error: {e}" [AExn e]; WsClose]) w1) /\
  fst (fold_left monitor_run_step inputs ended) = MonReturned /\
  w_trace (snd (fold_left monitor_run_step inputs ended)) = w_trace (snd ended) /\
  w_db (snd (fold_left monitor_run_step inputs ended)) = w_db w1 /\
  w_redis (snd (fold_left monitor_run_step inputs ended)) = w_redis w1.
Proof.
  cbv zeta.
  assert (Hstep : monitor_run_step (MonReceiving, w) (Recv msg) =
            (MonReturned,
             set_trace (w_trace w1 ++
                        [Printed "Planning state monitor error: {e}" [AExn e]; WsClose]) w1)).
  { unfold monitor_run_step. cbn [fst snd monitor_step]. unfold monitor_guard.
    rewrite Hraise. unfold monitor_leave, bind, when, print, emit, modify, ret.
    rewrite He. destruct w1. cbn. rewrite <- app_assoc. reflexivity. }
  split; [exact Hstep |]. rewrite Hstep.
  destruct (monitor_ended_run inputs MonReturned
              (set_trace (w_trace w1 ++
                          [Printed "Planning state monitor error: {e}" [AExn e]; WsClose]) w1)
              (or_introl eq_refl)) as (Hp & Ht & Hd & Hr).
  destruct w1. repeat split; assumption.
Qed.

End ReceiveFacts.

Section LoopFacts.
Import Python Database RedisServer.
Context `{StrNumerals}.
Local Open Scope py_scope.

Ltac run_loop :=
  unfold pub_run_step, settle, pub_step, unexpected_error, connection_lost, connected,
    pub_finish, outer_loop_test,
    inner_loop_test, leave_connection, pub_except, start_redis_status,
    redis_set, redis_publish, bind, in_world, print, emit, modify, local, when,
    pop_active_session, shutdown_is_set, assign, RedisServer.end_robot_session,
    RedisServer.start_robot_session, await_call, fate, on_db, get, ret, raise,
    opt_int_truthy;
  cbn -[Database.end_robot_session Database.start_robot_session String.append exn_name
        insert delete].

Ltac flat_state :=
  cbv [session_ended gone_offline session_started
       set_trace set_db set_redis set_active_sessions set_faults set_clock set_shutdown
       w_db w_redis w_active_sessions w_shutdown w_clock w_faults w_trace
       set_session_id set_compile_list set_prev_pose set_connection_lost_logged
       compile_list prev_pose session_id connection_lost_logged].

Ltac equal_state :=
  flat_state; cbv [String.append exn_name];
  repeat match goal with
         | |- context [Database.end_robot_session ?c ?r ?why ?t] =>
             destruct (Database.end_robot_session c r why t)
         | |- context [Database.start_robot_session ?c ?r ?t] =>
             destruct (Database.start_robot_session c r t)
         end;
  cbn -[String.append exn_name insert delete]; flat_state;
  rewrite <- ?app_assoc; cbn [app]; reflexivity.

(** The receive timeout that finds [shutdown_event] set: both loops are
    left and the open session is closed. *)
Lemma shutdown_timeout_run (robot_id : Z) (l : locals) (w : world) (sid : Z) :
  session_id l = Some sid -> sid <> 0 -> w_faults w = [] -> w_shutdown w = true ->
  pub_run_step robot_id (Receiving, (l, w)) RecvTimeout =
  (PubReturned,
   (l, gone_offline robot_id "server_shutdown"
         [WsClose;
          Db (EndRobotSession robot_id "server_shutdown");
          Printed "ROBOT REDIS BOOL STATUS: " [ABool false];
          Redis (RedisSet "robot:status" (Lit "offline"));
          Redis (RedisSet "robot:last_poi" (Lit "origin"));
          Printed "ROBOT SESSION CLOSED - Server shutdown - Session {session_id}"
                [AOptInt (Some sid)]] w)).
Proof.
  intros Hsid Hnz Hfaults Hstop.
  destruct l as [cl pp sess logged], w as [d redis active stop clock faults trace].
  cbn in Hsid, Hfaults, Hstop. subst sess faults stop. apply Z.eqb_neq in Hnz.
  run_loop. run_loop. rewrite Hnz.
  cbn -[Database.end_robot_session String.append exn_name insert delete].
  equal_state.
Qed.

(** X17: when the shutdown signal arrives while the telemetry loop waits
    for a frame, the next receive timeout leaves both loops: the socket is
    closed, the session is ended with reason [server_shutdown], the broker
    status is set to offline, the registry entry is removed and
    [pub_robot_status] returns. *)
Theorem shutdown_signal_closes_session
    (robot_id : Z) (l : locals) (w : world) (sid : Z)
    (Hsid : session_id l = Some sid) (Hnz : sid <> 0) (Hfaults : w_faults w = []) :
  fold_left (pub_run_step robot_id) [Signal; RecvTimeout] (Receiving, (l, w)) =
  (PubReturned,
   (l, gone_offline robot_id "server_shutdown"
         [WsClose;
          Db (EndRobotSession robot_id "server_shutdown");
          Printed "ROBOT REDIS BOOL STATUS: " [ABool false];
          Redis (RedisSet "robot:status" (Lit "offline"));
          Redis (RedisSet "robot:last_poi" (Lit "origin"));
          Printed "ROBOT SESSION CLOSED - Server shutdown - Session {session_id}"
                [AOptInt (Some sid)]]
         (set_shutdown true w))).
Proof.
  cbn [fold_left].
  assert (Hsignal : pub_run_step robot_id (Receiving, (l, w)) Signal
                    = (Receiving, (l, set_shutdown true w))) by reflexivity.
  rewrite Hsignal.
  apply (shutdown_timeout_run robot_id l (set_shutdown true w) sid Hsid Hnz);
    [destruct w; exact Hfaults | reflexivity].
Qed.

Lemma retry_round (robot_id : Z) (e : exn) (l : locals) (w : world) :
  is_connection_error e = true -> session_id l = None -> w_shutdown w = false ->
  fold_left (pub_run_step robot_id) [ConnectFail e; Elapsed] (Connecting, (l, w)) =
  (Connecting,
   (set_connection_lost_logged true l,
    set_trace (w_trace w ++
               (if connection_lost_logged l then [] else [connection_lost_line e]) ++
               [reconnecting_line]) w)).
Proof.
  intros He Hsid Halive.
  destruct l as [cl pp sess logged], w as [d redis active stop clock faults trace].
  cbn in Hsid, Halive. subst sess stop.
  cbn [fold_left]. unfold pub_run_step at 2. cbn [fst snd pub_step]. unfold pub_except.
  rewrite He. destruct logged; run_loop; rewrite <- ?app_assoc; reflexivity.
Qed.

Lemma retry_rounds (robot_id : Z) (errors : list exn) (l : locals) (w : world) :
  Forall (fun e => is_connection_error e = true) errors ->
  session_id l = None -> w_shutdown w = false -> connection_lost_logged l = true ->
  fold_left (pub_run_step robot_id) (retries errors) (Connecting, (l, w)) =
  (Connecting,
   (l, set_trace (w_trace w ++ map (fun _ => reconnecting_line) errors) w)).
Proof.
  intros Herrors. revert l w.
  induction Herrors as [| e errors He _ IH]; intros l w Hsid Halive Hlogged.
  - cbn. rewrite app_nil_r. destruct w; reflexivity.
  - change (retries (e :: errors)) with ([ConnectFail e; Elapsed] ++ retries errors)%list.
    rewrite fold_left_app, (retry_round robot_id e l w He Hsid Halive), Hlogged.
    assert (Hl : set_connection_lost_logged true l = l).
    { destruct l as [cl pp sess logged]. cbn in Hlogged. subst logged. reflexivity. }
    rewrite Hl, IH by assumption.
    destruct w. cbn. rewrite <- app_assoc. reflexivity.
Qed.

(** X18: while the robot cannot be reached and no session is open, the
    telemetry loop tries again after every wait, any number of times: the
    loss is logged at most once, each attempt logs the reconnect line, and
    the database, the broker and the registry are not touched. *)
Theorem unreachable_robot_is_retried_forever
    (robot_id : Z) (e : exn) (errors : list exn) (l : locals) (w : world)
    (Herrors : Forall (fun e => is_connection_error e = true) (e :: errors))
    (Hsid : session_id l = None) (Halive : w_shutdown w = false) :
  fold_left (pub_run_step robot_id) (retries (e :: errors)) (Connecting, (l, w)) =
  (Connecting,
   (set_connection_lost_logged true l,
    set_trace (w_trace w ++
               (if connection_lost_logged l then [] else [connection_lost_line e]) ++
               map (fun _ => reconnecting_line) (e :: errors)) w)).
Proof.
  inversion Herrors as [| ? ? He Hrest]; subst.
  change (retries (e :: errors)) with ([ConnectFail e; Elapsed] ++ retries errors)%list.
  rewrite fold_left_app, (retry_round robot_id e l w He Hsid Halive).
  rewrite retry_rounds by first [assumption | reflexivity].
  destruct w. cbn. rewrite <- !app_assoc. reflexivity.
Qed.

End LoopFacts.

Section ShutdownFacts.
Import Python Database RedisServer.
Context `{StrNumerals}.
Local Open Scope py_scope.

Ltac run_manager :=
  unfold manager_step, manager_settle, follow, after_publisher, manager_loop, manager_stop,
    restart_block, pub_enter, pub_run_step, settle, pub_step, leave_connection, pub_except,
    outer_loop_test, pub_finish, shutdown_is_set, in_world, local, when,
    RedisServer.end_robot_session, await_call, fate, on_db, print, emit,
    bind, modify, get, ret, raise;
  cbn -[Database.end_robot_session String.append insert delete lookup].

(** X19: when the manager is cancelled while the telemetry loop waits for
    a frame and the robot has a session in the registry, the socket is
    closed, the session is ended with reason [task_cancelled], the registry
    entry is removed and the manager stops without a restart. *)
Theorem cancelled_manager_ends_registered_session
    (robot_id count : Z) (l : locals) (w : world) (sid : Z)
    (Hreg : w_active_sessions w !! robot_id = Some sid)
    (Hfaults : w_faults w = []) :
  manager_step ({| mgr_robot_id := Some robot_id; restart_count := count;
                   mgr_pc := MgrRunning Receiving l |}, w) Cancel =
  ({| mgr_robot_id := Some robot_id; restart_count := count; mgr_pc := MgrStopped |},
   session_ended robot_id "task_cancelled"
     [WsClose;
      Printed "Robot status publisher cancelled" [];
      Db (EndRobotSession robot_id "task_cancelled");
      Printed "Session {session_id} ended on cancellation" [AInt sid];
      Printed "Robot status manager stopped" []] w).
Proof.
  destruct w as [d redis active stop clock faults trace]. cbn in Hreg, Hfaults. subst faults.
  run_manager. rewrite Hreg.
  cbn -[Database.end_robot_session String.append insert delete lookup].
  unfold session_ended. cbn -[Database.end_robot_session String.append insert delete lookup].
  destruct (Database.end_robot_session clock robot_id "task_cancelled" d).
  cbn. rewrite <- ?app_assoc. reflexivity.
Qed.

Lemma manager_raised_step (m : manager) (w : world) (i : input) (e : exn) :
  mgr_pc m = MgrRaised e ->
  fst (manager_step (m, w) i) = m /\
  w_trace (snd (manager_step (m, w) i)) = w_trace w /\
  w_db (snd (manager_step (m, w) i)) = w_db w /\
  w_redis (snd (manager_step (m, w) i)) = w_redis w /\
  w_active_sessions (snd (manager_step (m, w) i)) = w_active_sessions w.
Proof.
  intros Hpc. unfold manager_step. rewrite Hpc.
  destruct i; cbn; repeat split; reflexivity.
Qed.

Lemma manager_raised_run (inputs : list input) (m : manager) (w : world) (e : exn) :
  mgr_pc m = MgrRaised e ->
  fst (fold_left manager_step inputs (m, w)) = m /\
  w_trace (snd (fold_left manager_step inputs (m, w))) = w_trace w /\
  w_db (snd (fold_left manager_step inputs (m, w))) = w_db w /\
  w_redis (snd (fold_left manager_step inputs (m, w))) = w_redis w /\
  w_active_sessions (snd (fold_left manager_step inputs (m, w))) = w_active_sessions w.
Proof.
  revert w. induction inputs as [| i inputs IH]; intros w Hpc; [repeat split |].
  cbn [fold_left].
  destruct (manager_raised_step m w i e Hpc) as (Hm & Ht & Hd & Hr & Ha).
  destruct (manager_step (m, w) i) as [m' w'] eqn:Hstep. cbn [fst snd] in *. subst m'.
  destruct (IH w' Hpc) as (Hm' & Ht' & Hd' & Hr' & Ha').
  repeat split; congruence.
Qed.

(** X20: the backoff wait of the manager ends in one of three ways. A
    shutdown signal stops the manager at once and for good: no further run
    of the telemetry loop, nothing more traced. The end of the wait starts
    the telemetry loop again with fresh locals and the restart count in the
    log line (with the shutdown event already set it stops the manager
    instead). A cancellation leaves the manager by [CancelledError], for
    good and as the world is: the wait stands outside the [try] of the
    loop body, so no session is ended and the line
    ["Robot status manager stopped"] is not printed. Every other event
    leaves the manager waiting with its count and wait time. *)
Theorem backoff_wait_ends_in_stop_fresh_run_or_cancellation
    (robot_id count wait_time : Z) (w : world) (inputs : list input) :
  let waiting := {| mgr_robot_id := Some robot_id; restart_count := count;
                    mgr_pc := MgrBackoff wait_time |} in
  let stopped := {| mgr_robot_id := Some robot_id; restart_count := count;
                    mgr_pc := MgrStopped |} in
  let cancelled := {| mgr_robot_id := Some robot_id; restart_count := count;
                      mgr_pc := MgrRaised CancelledError |} in
  manager_step (waiting, w) Signal =
    (stopped,
     set_trace (w_trace w ++ [Printed "Robot status manager stopped" []])
       (set_shutdown true w)) /\
  fst (fold_left manager_step (Signal :: inputs) (waiting, w)) = stopped /\
  w_trace (snd (fold_left manager_step (Signal :: inputs) (waiting, w)))
    = (w_trace w ++ [Printed "Robot status manager stopped" []])%list /\
  w_db (snd (fold_left manager_step (Signal :: inputs) (waiting, w))) = w_db w /\
  (w_shutdown w = false ->
   manager_step (waiting, w) Elapsed =
     ({| mgr_robot_id := Some robot_id; restart_count := count;
         mgr_pc := MgrRunning Connecting initial_locals |},
      set_trace (w_trace w ++
                 [Printed "Starting robot status publisher (restart #{restart_count})"
                        [AInt count]]) w)) /\
  (w_shutdown w = true ->
   manager_step (waiting, w) Elapsed =
     (stopped, set_trace (w_trace w ++ [Printed "Robot status manager stopped" []]) w)) /\
  manager_step (waiting, w) Cancel = (cancelled, w) /\
  fst (fold_left manager_step (Cancel :: inputs) (waiting, w)) = cancelled /\
  w_trace (snd (fold_left manager_step (Cancel :: inputs) (waiting, w))) = w_trace w /\
  w_db (snd (fold_left manager_step (Cancel :: inputs) (waiting, w))) = w_db w /\
  w_active_sessions (snd (fold_left manager_step (Cancel :: inputs) (waiting, w)))
    = w_active_sessions w /\
  (forall i : input,
     i <> Signal -> i <> Elapsed -> i <> Cancel ->
     manager_step (waiting, w) i
     = (waiting, match i with Clock t => set_clock t w | _ => w end)).
Proof.
  cbv zeta.
  assert (Hstop : manager_step
            ({| mgr_robot_id := Some robot_id; restart_count := count;
                mgr_pc := MgrBackoff wait_time |}, w) Signal =
          ({| mgr_robot_id := Some robot_id; restart_count := count; mgr_pc := MgrStopped |},
           set_trace (w_trace w ++ [Printed "Robot status manager stopped" []])
             (set_shutdown true w))).
  { destruct w. reflexivity. }
  split; [exact Hstop |].
  cbn [fold_left]. rewrite Hstop.
  destruct (manager_stopped_run inputs
              {| mgr_robot_id := Some robot_id; restart_count := count; mgr_pc := MgrStopped |}
              (set_trace (w_trace w ++ [Printed "Robot status manager stopped" []])
                 (set_shutdown true w)) eq_refl) as (Hm & Ht & Hd & _).
  split; [exact Hm |]. split; [exact Ht |]. split; [exact Hd |].
  split.
  { intros Halive. destruct w as [d redis active stop clock faults trace].
    cbn in Halive. subst stop. reflexivity. }
  split.
  { intros Hset. destruct w as [d redis active stop clock faults trace].
    cbn in Hset. subst stop. reflexivity. }
  assert (Hcancel : manager_step
            ({| mgr_robot_id := Some robot_id; restart_count := count;
                mgr_pc := MgrBackoff wait_time |}, w) Cancel =
          ({| mgr_robot_id := Some robot_id; restart_count := count;
              mgr_pc := MgrRaised CancelledError |}, w)) by reflexivity.
  split; [exact Hcancel |].
  rewrite Hcancel.
  destruct (manager_raised_run inputs
              {| mgr_robot_id := Some robot_id; restart_count := count;
                 mgr_pc := MgrRaised CancelledError |} w CancelledError eq_refl)
    as (Hm' & Ht' & Hd' & _ & Ha').
  split; [exact Hm' |]. split; [exact Ht' |]. split; [exact Hd' |]. split; [exact Ha' |].
  intros i Hsignal Helapsed Hcancelled.
  destruct i; try reflexivity; congruence.
Qed.

(** ** cleanup_active_sessions *)

Lemma cleanup_session_run (item : Z * Z) (w : world) :
  harmless (w_faults w) ->
  exists w' line,
    cleanup_session item w = (Ok tt, w') /\
    harmless (w_faults w') /\
    w_active_sessions w' = w_active_sessions w /\
    w_trace w' = (w_trace w ++ [shutdown_end item; line])%list /\
    is_session_end line = false /\
    (w_faults w = [] ->
     w_faults w' = [] /\
     w_db w' = snd (Database.end_robot_session (w_clock w) (fst item) "server_shutdown" (w_db w)) /\
     w_clock w' = w_clock w).
Proof.
  destruct w as [d redis active stop clock faults trace]. cbn. intros Hfaults.
  unfold cleanup_session, RedisServer.end_robot_session, await_call, fate, on_db, print, emit,
    bind, modify, get, ret, raise.
  cbn -[Database.end_robot_session].
  destruct faults as [| [e |] rest]; cbn -[Database.end_robot_session].
  - destruct (Database.end_robot_session clock (fst item) "server_shutdown" d) as [sid' d'].
    cbn. eexists; eexists. split; [reflexivity |]. cbn. rewrite <- app_assoc.
    repeat split; try reflexivity; constructor.
  - inversion Hfaults as [| ? ? He Hrest]; subst. rewrite He.
    cbn. eexists; eexists. split; [reflexivity |]. cbn. rewrite <- app_assoc.
    repeat split; try reflexivity; try assumption; discriminate.
  - inversion Hfaults as [| ? ? _ Hrest]; subst.
    destruct (Database.end_robot_session clock (fst item) "server_shutdown" d) as [sid' d'].
    cbn. eexists; eexists. split; [reflexivity |]. cbn. rewrite <- app_assoc.
    repeat split; try reflexivity; try assumption; discriminate.
Qed.

Lemma filter_session_end_app t t' :
  List.filter is_session_end (t ++ t') =
  (List.filter is_session_end t ++ List.filter is_session_end t')%list.
Proof. apply List.filter_app. Qed.

Lemma for_each_cleanup_run (items : list (Z * Z)) (w : world) :
  harmless (w_faults w) ->
  exists w',
    for_each items cleanup_session w = (Ok tt, w') /\
    harmless (w_faults w') /\
    w_active_sessions w' = w_active_sessions w /\
    List.filter is_session_end (w_trace w') =
      (List.filter is_session_end (w_trace w) ++ map shutdown_end items)%list.
Proof.
  revert w. induction items as [| item items IH]; intros w Hfaults.
  - exists w. cbn. rewrite app_nil_r. auto.
  - destruct (cleanup_session_run item w Hfaults)
      as (w1 & line & Hrun & Hf1 & Ha1 & Ht1 & Hline & _).
    destruct (IH w1 Hf1) as (w' & Hrest & Hf' & Ha' & Ht').
    exists w'. cbn [for_each]. unfold bind. rewrite Hrun, Hrest.
    split; [reflexivity |]. split; [exact Hf' |]. split; [congruence |].
    rewrite Ht', Ht1, filter_session_end_app. cbn [List.filter is_session_end shutdown_end].
    rewrite Hline. cbn. rewrite <- app_assoc. reflexivity.
Qed.

(** X21: [cleanup_active_sessions] calls [end_robot_session] with reason
    [server_shutdown] once for every entry of the registry, in the order of
    the iteration, goes on with the next entry when a call raises an
    [Exception], and leaves the registry empty. *)
Theorem cleanup_empties_registry
    (items : list (Z * Z)) (w : world)
    (Hitems : items ≡ₚ map_to_list (w_active_sessions w))
    (Hfaults : harmless (w_faults w)) :
  let w' := snd (cleanup_active_sessions items w) in
  fst (cleanup_active_sessions items w) = Ok tt /\
  w_active_sessions w' = ∅ /\
  List.filter is_session_end (w_trace w') =
    (List.filter is_session_end (w_trace w) ++ map shutdown_end items)%list /\
  (forall robot_id sid,
     w_active_sessions w !! robot_id = Some sid ->
     In (Db (EndRobotSession robot_id "server_shutdown")) (w_trace w')).
Proof.
  cbv zeta.
  assert (Hcalls : forall robot_id sid,
            w_active_sessions w !! robot_id = Some sid ->
            In (Db (EndRobotSession robot_id "server_shutdown")) (map shutdown_end items)).
  { intros robot_id sid Hreg. apply in_map_iff. exists (robot_id, sid). split; [reflexivity |].
    apply list_elem_of_In. rewrite Hitems. apply elem_of_map_to_list. exact Hreg. }
  assert (Hrun : exists w',
            cleanup_active_sessions items w = (Ok tt, w') /\
            w_active_sessions w' = ∅ /\
            List.filter is_session_end (w_trace w') =
              (List.filter is_session_end (w_trace w) ++ map shutdown_end items)%list).
  { unfold cleanup_active_sessions. unfold bind at 1. unfold get. cbv beta iota.
    destruct (Nat.eqb_spec (size (w_active_sessions w)) 0) as [Hempty | Hsome].
    - apply map_size_empty_iff in Hempty.
      assert (Hnil : items = []).
      { apply Permutation_nil_r. rewrite Hitems, Hempty, map_to_list_empty. reflexivity. }
      subst items. eexists. split; [reflexivity |].
      destruct w as [d redis active stop clock faults trace].
      cbn -[List.filter] in *. rewrite filter_session_end_app. cbn. rewrite !app_nil_r.
      split; [exact Hempty | reflexivity].
    - unfold bind, print, emit, modify.
      destruct (for_each_cleanup_run items
                  (set_trace (w_trace w ++
                     [Printed "Cleaning up {len(active_sessions)} active sessions..."
                            [AInt (Z.of_nat (size (w_active_sessions w)))]]) w))
        as (w1 & Hrun & Hf1 & Ha1 & Ht1); [destruct w; exact Hfaults |].
      rewrite Hrun. eexists. split; [reflexivity |].
      destruct w1, w. cbn -[List.filter] in *.
      rewrite filter_session_end_app, Ht1, filter_session_end_app.
      cbn. rewrite !app_nil_r. split; reflexivity. }
  destruct Hrun as (w' & -> & Hreg' & Htrace). cbn [fst snd].
  repeat split; try assumption.
  intros robot_id sid Hreg.
  assert (Hin : In (Db (EndRobotSession robot_id "server_shutdown"))
                   (List.filter is_session_end (w_trace w'))).
  { rewrite Htrace. apply in_or_app. right. exact (Hcalls robot_id sid Hreg). }
  apply filter_In in Hin. exact (proj1 Hin).
Qed.

End ShutdownFacts.

Section DoubleEndFacts.
Import Python Database RedisServer.
Context `{StrNumerals}.
Local Open Scope py_scope.

Lemma last_online_session_after_offline robot_id r ts du notes d :
  last_online_session robot_id (snd (insert_session r "offline" ts du notes d)) =
  last_online_session robot_id d.
Proof.
  unfold last_online_session. cbn. rewrite List.filter_app. cbn.
  unfold is_online_of at 2. cbn. rewrite andb_false_r, app_nil_r. reflexivity.
Qed.

Lemma end_robot_session_online now robot_id reason d row :
  last_online_session robot_id d = Some row ->
  Database.end_robot_session now robot_id reason d =
  (Some (robot_sessions_seq d),
   snd (insert_session robot_id "offline" now (Some (now - s_timestamp row))
          (Some ("Disconnected: " +:+ reason)) d)).
Proof. intros Hrow. unfold Database.end_robot_session. rewrite Hrow. reflexivity. Qed.

(** The cleanup of a registry that holds one session. *)
Lemma cleanup_one_session (robot_id sid : Z) (w : world) :
  w_active_sessions w = {[ robot_id := sid ]} -> w_faults w = [] ->
  cleanup_active_sessions [(robot_id, sid)] w =
  (Ok tt,
   set_active_sessions ∅
     (set_db (snd (Database.end_robot_session (w_clock w) robot_id "server_shutdown" (w_db w)))
        (set_trace (w_trace w ++
                    [Printed "Cleaning up {len(active_sessions)} active sessions..." [AInt 1];
                     Db (EndRobotSession robot_id "server_shutdown");
                     Printed "Ended session {session_id} for robot {robot_id}"
                           [AInt sid; AInt robot_id];
                     Printed "All session cleaned up" []]) w))).
Proof.
  intros Hreg Hfaults.
  destruct w as [d redis active stop clock faults trace]. cbn in Hreg, Hfaults.
  subst active faults.
  unfold cleanup_active_sessions, for_each, cleanup_session,
    RedisServer.end_robot_session, await_call, fate, on_db, print, emit,
    bind, modify, get, ret, raise.
  cbn -[Database.end_robot_session size]. rewrite map_size_singleton.
  cbn -[Database.end_robot_session].
  destruct (Database.end_robot_session clock robot_id "server_shutdown" d).
  cbn. rewrite <- !app_assoc. reflexivity.
Qed.

(** X22: at shutdown the session of a connected robot is ended twice when
    the cleanup runs before the telemetry loop sees the event: the cleanup
    inserts an offline row, and the loop, whose own [session_id] is still
    set, inserts a second one, both measured from the same online row. *)
Theorem shutdown_ends_session_twice
    (robot_id sid : Z) (l : locals) (w : world) (row : session_row)
    (Hsid : session_id l = Some sid) (Hnz : sid <> 0)
    (Hreg : w_active_sessions w = {[ robot_id := sid ]})
    (Hfaults : w_faults w = [])
    (Honline : last_online_session robot_id (w_db w) = Some row) :
  let cleaned := snd (cleanup_active_sessions [(robot_id, sid)] (set_shutdown true w)) in
  let ended := pub_run_step robot_id (Receiving, (l, cleaned)) RecvTimeout in
  let offline_row id :=
    {| s_id := id; s_robot_id := robot_id; s_status := "offline";
       s_timestamp := w_clock w;
       s_session_duration := Some (w_clock w - s_timestamp row);
       s_notes := Some "Disconnected: server_shutdown" |} in
  fst ended = PubReturned /\
  robot_sessions (w_db (snd (snd ended))) =
    (robot_sessions (w_db w) ++
     [offline_row (robot_sessions_seq (w_db w));
      offline_row (robot_sessions_seq (w_db w) + 1)])%list.
Proof.
  cbv zeta.
  rewrite (cleanup_one_session robot_id sid (set_shutdown true w))
    by (destruct w; assumption).
  cbn [snd].
  rewrite (shutdown_timeout_run robot_id l _ sid Hsid Hnz)
    by (destruct w; first [exact Hfaults | reflexivity]).
  cbn [fst snd]. split; [reflexivity |].
  destruct w as [d redis active stop clock faults trace]. cbn [w_db w_clock] in *.
  unfold gone_offline, session_ended.
  cbn [w_db w_clock set_redis set_active_sessions set_db set_trace set_shutdown].
  rewrite (end_robot_session_online clock robot_id "server_shutdown" d row Honline).
  cbn [snd].
  rewrite (end_robot_session_online clock robot_id "server_shutdown" _ row)
    by (rewrite last_online_session_after_offline; exact Honline).
  cbn -[String.append]. rewrite <- app_assoc. reflexivity.
Qed.

End DoubleEndFacts.

Section HistoryFacts.
Import Python Database RedisServer.
Context `{StrNumerals}.
Local Open Scope py_scope.

(** ** What the tasks of the process do to the database *)

Lemma db_step_intro d d' moved logged :
  robots d' = robots d ->
  map t_task_id (tasks_history d') = map t_task_id (tasks_history d) ->
  robot_movement d' = (robot_movement d ++ moved)%list ->
  robot_sessions d' = (robot_sessions d ++ logged)%list ->
  (sessions_ok d -> sessions_ok d') ->
  db_step d d'.
Proof. intros Hr Ht Hm Hs Hok. repeat (split; [eauto |]). exact Hok. Qed.

Lemma db_step_preorder : PreOrder db_step.
Proof.
  split.
  - intros d. apply (db_step_intro d d [] []); rewrite ?app_nil_r; auto.
  - intros d1 d2 d3 (Hr & Ht & [m Hm] & [s Hs] & Hok) (Hr' & Ht' & [m' Hm'] & [s' Hs'] & Hok').
    apply (db_step_intro d1 d3 (m ++ m') (s ++ s')); try congruence; auto.
    + rewrite Hm', Hm, app_assoc. reflexivity.
    + rewrite Hs', Hs, app_assoc. reflexivity.
Qed.

Lemma task_step_preorder : PreOrder task_step.
Proof.
  split.
  - intros d. repeat split.
  - intros d1 d2 d3 (A1 & A2 & A3 & A4 & A5 & A6) (B1 & B2 & B3 & B4 & B5 & B6).
    repeat split; congruence.
Qed.

#[local] Existing Instance db_step_preorder.
#[local] Existing Instance task_step_preorder.

Lemma task_step_db_step d d' : task_step d d' -> db_step d d'.
Proof.
  intros (Hr & Hm & Hs & Hq & Ht & _).
  apply (db_step_intro d d' [] []); rewrite ?app_nil_r; auto.
  intros [Hseq Hids Hst Halt Hdur]. split.
  - rewrite Hq. exact Hseq.
  - rewrite Hs. exact Hids.
  - rewrite Hs. exact Hst.
  - intros r. unfold rows_of. rewrite Hs. apply Halt.
  - rewrite Hs. exact Hdur.
Qed.

Lemma db_step_start now robot_id d :
  db_step d (snd (Database.start_robot_session now robot_id d)).
Proof.
  destruct (start_robot_session_appends now robot_id d)
    as (closing & Hrows & _ & _ & _ & _ & Hr & Ht & Hm).
  eapply (db_step_intro _ _ []);
    [exact Hr | rewrite Ht; reflexivity | | exact Hrows | apply sessions_ok_start].
  rewrite Hm, app_nil_r. reflexivity.
Qed.

Lemma db_step_end now robot_id reason d :
  db_step d (snd (Database.end_robot_session now robot_id reason d)).
Proof.
  destruct (end_robot_session_appends now robot_id reason d)
    as (added & Hrows & _ & _ & _ & _ & Hr & Ht & Hm).
  eapply (db_step_intro _ _ []);
    [exact Hr | rewrite Ht; reflexivity | | exact Hrows | apply sessions_ok_end].
  rewrite Hm, app_nil_r. reflexivity.
Qed.

Lemma db_step_record now robot_id x y ori px py d d' :
  Database.record_position now robot_id x y ori px py d = Ok d' -> db_step d d'.
Proof.
  unfold Database.record_position.
  destruct (match px, py with
            | Some px, Some py => calculate_distance px py x y
            | _, _ => Ok float_zero
            end) as [distance | e]; cbn [obind]; [| discriminate].
  intros [= <-].
  eapply (db_step_intro _ _ _ []); cbn; try reflexivity.
  - rewrite app_nil_r. reflexivity.
  - intros [Hseq Hids Hst Halt Hdur]. split; assumption.
Qed.

Lemma task_step_update now task_id status fail_reason d :
  task_step d (Database.update_task_status now task_id status fail_reason d).
Proof.
  repeat split; cbn; rewrite map_map; apply map_ext; intros t;
    destruct (t_task_id t =? task_id); reflexivity.
Qed.

(** *** Code of the world *)

Section Respect.
Context (R : db -> db -> Prop) `{!PreOrder R}.

Lemma respects_w_ret {A} (a : A) : respects_w R (ret a).
Proof. intros w r w' [= _ <-]. reflexivity. Qed.

Lemma respects_w_raise {A} e : respects_w R (@raise world A e).
Proof. intros w r w' [= _ <-]. reflexivity. Qed.

Lemma respects_w_of_outcome {A} (o : outcome A) : respects_w R (of_outcome o).
Proof. intros w r w' [= _ <-]. reflexivity. Qed.

Lemma respects_w_get : respects_w R get.
Proof. intros w r w' [= _ <-]. reflexivity. Qed.

Lemma respects_w_bind {A B} (m : M world A) (k : A -> M world B) :
  respects_w R m -> (forall a, respects_w R (k a)) -> respects_w R (bind m k).
Proof.
  intros Hm Hk w r w' Hrun. unfold bind in Hrun.
  destruct (m w) as [[a | e] w1] eqn:Hmw.
  - transitivity (w_db w1); [exact (Hm _ _ _ Hmw) | exact (Hk a _ _ _ Hrun)].
  - injection Hrun as _ <-. exact (Hm _ _ _ Hmw).
Qed.

Lemma respects_w_modify (f : world -> world) :
  (forall w, w_db (f w) = w_db w) -> respects_w R (modify f).
Proof. intros Hf w r w' [= _ <-]. rewrite Hf. reflexivity. Qed.

Lemma respects_w_when (b : bool) (m : M world unit) :
  respects_w R m -> respects_w R (when b m).
Proof. destruct b; [auto | intros _; apply respects_w_ret]. Qed.

Lemma respects_w_on_db {A} (f : Z -> db -> outcome (A * db)) :
  (forall now d a d', f now d = Ok (a, d') -> R d d') -> respects_w R (on_db f).
Proof.
  intros Hf w r w' Hrun. unfold on_db in Hrun.
  destruct (f (w_clock w) (w_db w)) as [[a d'] | e] eqn:Hcall.
  - injection Hrun as _ <-. exact (Hf _ _ _ _ Hcall).
  - injection Hrun as _ <-. reflexivity.
Qed.

Lemma respects_ret {A} (a : A) : respects R (ret a).
Proof. intros s r s' [= _ <-]. reflexivity. Qed.

Lemma respects_raise {A} e : respects R (@raise (locals * world) A e).
Proof. intros s r s' [= _ <-]. reflexivity. Qed.

Lemma respects_of_outcome {A} (o : outcome A) : respects R (of_outcome o).
Proof. intros s r s' [= _ <-]. reflexivity. Qed.

Lemma respects_local {A} (f : locals -> A) : respects R (local f).
Proof. intros s r s' [= _ <-]. reflexivity. Qed.

Lemma respects_shutdown_is_set : respects R shutdown_is_set.
Proof. intros s r s' [= _ <-]. reflexivity. Qed.

Lemma respects_assign (f : locals -> locals) : respects R (assign f).
Proof. intros s r s' [= _ <-]. reflexivity. Qed.

Lemma respects_in_world {A} (m : M world A) : respects_w R m -> respects R (in_world m).
Proof.
  intros Hm [l w] r s' Hrun. unfold in_world in Hrun. simpl in Hrun.
  destruct (m w) as [r' w'] eqn:Hmw. injection Hrun as _ <-.
  exact (Hm _ _ _ Hmw).
Qed.

Lemma respects_bind {A B} (m : P A) (k : A -> P B) :
  respects R m -> (forall a, respects R (k a)) -> respects R (bind m k).
Proof.
  intros Hm Hk s r s' Hrun. unfold bind in Hrun.
  destruct (m s) as [[a | e] s1] eqn:Hms.
  - transitivity (w_db (snd s1)); [exact (Hm _ _ _ Hms) | exact (Hk a _ _ _ Hrun)].
  - injection Hrun as _ <-. exact (Hm _ _ _ Hms).
Qed.

Lemma respects_when (b : bool) (m : P unit) : respects R m -> respects R (when b m).
Proof. destruct b; [auto | intros _; apply respects_ret]. Qed.

End Respect.

Create HintDb respects discriminated.
#[local] Hint Resolve respects_w_ret respects_w_raise respects_w_of_outcome respects_w_get
  respects_ret respects_raise respects_of_outcome respects_local respects_shutdown_is_set
  respects_assign : respects.

Ltac respects_w_step :=
  first
    [ solve [eauto 2 with respects typeclass_instances]
    | apply respects_w_bind; [exact _ | | intros ?]
    | apply respects_w_when; [exact _ |]
    | apply respects_w_modify; [exact _ | intros ?; reflexivity]
    | match goal with
      | |- respects_w _ (match ?x with _ => _ end) => destruct x
      | |- respects_w _ (if ?b then _ else _) => destruct b
      end ].

Section Respect2.
Context (R : db -> db -> Prop) `{!PreOrder R}.

Lemma respects_w_emit e : respects_w R (emit e).
Proof. unfold emit. repeat respects_w_step. Qed.

Lemma respects_w_print fmt args : respects_w R (print fmt args).
Proof. apply respects_w_emit. Qed.

Lemma respects_w_fate : respects_w R fate.
Proof. unfold fate. repeat respects_w_step. Qed.

Lemma respects_w_await_call e : respects_w R (await_call e).
Proof.
  unfold await_call. apply respects_w_bind; [exact _ | apply respects_w_emit | intros _].
  apply respects_w_fate.
Qed.

Lemma respects_w_time_time : respects_w R time_time.
Proof. unfold time_time. repeat respects_w_step. Qed.

Lemma respects_w_redis_get k : respects_w R (redis_get k).
Proof.
  unfold redis_get. apply respects_w_bind; [exact _ | apply respects_w_await_call | intros _].
  repeat respects_w_step.
Qed.

Lemma respects_w_redis_set k v : respects_w R (redis_set k v).
Proof.
  unfold redis_set. apply respects_w_bind; [exact _ | apply respects_w_await_call | intros _].
  repeat respects_w_step.
Qed.

Lemma respects_w_redis_delete k : respects_w R (redis_delete k).
Proof.
  unfold redis_delete. apply respects_w_bind; [exact _ | apply respects_w_await_call | intros _].
  repeat respects_w_step.
Qed.

Lemma respects_w_redis_publish c m : respects_w R (redis_publish c m).
Proof. apply respects_w_await_call. Qed.

End Respect2.

#[local] Hint Resolve respects_w_emit respects_w_print respects_w_fate respects_w_await_call
  respects_w_time_time respects_w_redis_get respects_w_redis_set respects_w_redis_delete
  respects_w_redis_publish : respects.

Lemma respects_w_start_redis_status R `{!PreOrder R} stat :
  respects_w R (start_redis_status stat).
Proof. unfold start_redis_status. repeat respects_w_step. Qed.
#[local] Hint Resolve respects_w_start_redis_status : respects.

Lemma respects_w_update_task_status t st fr :
  respects_w task_step (RedisServer.update_task_status t st fr).
Proof.
  unfold RedisServer.update_task_status.
  apply respects_w_bind; [exact _ | eauto with respects typeclass_instances | intros _].
  apply respects_w_on_db; [exact _ |]. intros now d a d' [= _ <-]. apply task_step_update.
Qed.
#[local] Hint Resolve respects_w_update_task_status : respects.

(** ** The planning-state monitor only updates tasks *)

Lemma respects_w_handle_planning_state data :
  respects_w task_step (handle_planning_state data).
Proof. unfold handle_planning_state. repeat respects_w_step. Qed.

Lemma respects_w_monitor_step i pc : respects_w task_step (monitor_step i pc).
Proof.
  assert (Hleave : forall e, respects_w task_step (monitor_leave e))
    by (intros e; unfold monitor_leave; repeat respects_w_step).
  assert (Hguard : forall body, respects_w task_step body ->
                                respects_w task_step (monitor_guard body)).
  { intros body Hbody w r w' Hrun. unfold monitor_guard in Hrun.
    destruct (body w) as [[[] | e] w1] eqn:Hb.
    - injection Hrun as _ <-. exact (Hbody _ _ _ Hb).
    - transitivity (w_db w1); [exact (Hbody _ _ _ Hb) | exact (Hleave e _ _ _ Hrun)]. }
  destruct i, pc; cbn [monitor_step]; try solve [repeat respects_w_step]; try apply Hleave.
  - apply respects_w_bind; [exact _ | eauto with respects typeclass_instances | intros _].
    apply Hguard. repeat respects_w_step.
  - apply Hguard. unfold monitor_frame. repeat respects_w_step.
Qed.

(** X23: whatever it receives and whichever call fails,
    [monitor_planning_state] changes nothing in the database but the status,
    end time and notes of task rows: the robots, the movement samples and
    the session log stay as they are, and no task row is added, removed or
    given to another robot. *)
Theorem monitor_only_updates_tasks (inputs : list input) (w : world) :
  let d := w_db w in
  let d' := w_db (snd (monitor_planning_state inputs w)) in
  robots d' = robots d /\
  robot_movement d' = robot_movement d /\
  robot_sessions d' = robot_sessions d /\
  robot_sessions_seq d' = robot_sessions_seq d /\
  map t_task_id (tasks_history d') = map t_task_id (tasks_history d) /\
  map t_robot_id (tasks_history d') = map t_robot_id (tasks_history d).
Proof.
  cbv zeta. change (task_step (w_db w) (w_db (snd (monitor_planning_state inputs w)))).
  unfold monitor_planning_state.
  assert (Hrun : forall st, task_step (w_db (snd st))
                              (w_db (snd (fold_left monitor_run_step inputs st)))).
  { induction inputs as [| i inputs IH]; intros st; [reflexivity |].
    cbn [fold_left]. transitivity (w_db (snd (monitor_run_step st i))); [| apply IH].
    unfold monitor_run_step.
    destruct (monitor_step i (fst st) (snd st)) as [[pc | e] w'] eqn:Hstep;
      exact (respects_w_monitor_step _ _ _ _ _ Hstep). }
  exact (Hrun (MonConnecting, w)).
Qed.

(** ** The telemetry loop and its manager only append *)

Lemma grows_w_task {A} (m : M world A) : respects_w task_step m -> respects_w db_step m.
Proof. intros Hm w r w' Hrun. apply task_step_db_step. exact (Hm _ _ _ Hrun). Qed.

Lemma grows_w_get_robot_id_by_sn sn : respects_w db_step (RedisServer.get_robot_id_by_sn sn).
Proof.
  unfold RedisServer.get_robot_id_by_sn.
  apply respects_w_bind; [exact _ | eauto with respects typeclass_instances | intros _].
  apply respects_w_on_db; [exact _ |]. intros now d a d' [= _ <-]. reflexivity.
Qed.

Lemma grows_w_start_robot_session r : respects_w db_step (RedisServer.start_robot_session r).
Proof.
  unfold RedisServer.start_robot_session.
  apply respects_w_bind; [exact _ | eauto with respects typeclass_instances | intros _].
  apply respects_w_on_db; [exact _ |]. intros now d a d' Heq.
  assert (Hd : snd (Database.start_robot_session now r d) = d')
    by (injection Heq as Heq; first [rewrite Heq; reflexivity | assumption]).
  subst d'. apply db_step_start.
Qed.

Lemma grows_w_end_robot_session r reason :
  respects_w db_step (RedisServer.end_robot_session r reason).
Proof.
  unfold RedisServer.end_robot_session.
  apply respects_w_bind; [exact _ | eauto with respects typeclass_instances | intros _].
  apply respects_w_on_db; [exact _ |]. intros now d a d' Heq.
  assert (Hd : snd (Database.end_robot_session now r reason d) = d')
    by (injection Heq as Heq; first [rewrite Heq; reflexivity | assumption]).
  subst d'. apply db_step_end.
Qed.

Lemma grows_w_update_task_status t st fr :
  respects_w db_step (RedisServer.update_task_status t st fr).
Proof. apply grows_w_task, respects_w_update_task_status. Qed.

Lemma grows_w_record_position r x y ori px py :
  respects_w db_step (RedisServer.record_position r x y ori px py).
Proof.
  unfold RedisServer.record_position.
  apply respects_w_bind; [exact _ | eauto with respects typeclass_instances | intros _].
  apply respects_w_bind; [exact _ | | intros _].
  - apply respects_w_on_db; [exact _ |]. intros now d a d' Heq.
    destruct (Database.record_position now r x y ori px py d); cbn in Heq; [| discriminate].
    injection Heq as _ <-. reflexivity.
  - apply respects_w_bind; [exact _ | eauto with respects typeclass_instances | intros _].
    apply respects_w_on_db; [exact _ |]. intros now d a d' Heq.
    destruct (Database.record_position now r x y ori px py d) as [d1 |] eqn:Hrec;
      cbn in Heq; [| discriminate].
    injection Heq as _ <-. exact (db_step_record _ _ _ _ _ _ _ _ _ Hrec).
Qed.
#[local] Hint Resolve grows_w_get_robot_id_by_sn grows_w_start_robot_session
  grows_w_end_robot_session grows_w_update_task_status grows_w_record_position : respects.

Ltac respects_step :=
  first
    [ solve [eauto 2 with respects typeclass_instances]
    | apply respects_bind; [exact _ | | intros ?]
    | apply respects_when; [exact _ |]
    | apply respects_in_world; solve [eauto 3 with respects typeclass_instances]
    | apply respects_in_world, respects_w_modify; [exact _ | intros ?; reflexivity]
    | match goal with
      | |- respects _ (match ?x with _ => _ end) => destruct x
      | |- respects _ (if ?b then _ else _) => destruct b
      end ].

Lemma grows_telemetry_frame r msg : respects db_step (telemetry_frame r msg).
Proof. unfold telemetry_frame. repeat respects_step. Qed.

Lemma grows_pop_active_session r : respects db_step (pop_active_session r).
Proof. unfold pop_active_session. repeat respects_step. Qed.
#[local] Hint Resolve grows_pop_active_session : respects.

Lemma grows_pub_finish r : respects db_step (pub_finish r).
Proof. unfold pub_finish. repeat respects_step. Qed.
#[local] Hint Resolve grows_pub_finish : respects.

Lemma grows_outer_loop_test r : respects db_step (outer_loop_test r).
Proof. unfold outer_loop_test. repeat respects_step. Qed.
#[local] Hint Resolve grows_outer_loop_test : respects.

Lemma grows_inner_loop_test r : respects db_step (inner_loop_test r).
Proof. unfold inner_loop_test. repeat respects_step. Qed.
#[local] Hint Resolve grows_inner_loop_test : respects.

Lemma grows_connection_lost r e : respects db_step (connection_lost r e).
Proof. unfold connection_lost. repeat respects_step. Qed.

Lemma grows_unexpected_error r e : respects db_step (unexpected_error r e).
Proof. unfold unexpected_error. repeat respects_step. Qed.
#[local] Hint Resolve grows_connection_lost grows_unexpected_error : respects.

Lemma grows_pub_except r e : respects db_step (pub_except r e).
Proof. unfold pub_except. repeat respects_step. Qed.
#[local] Hint Resolve grows_pub_except : respects.

Lemma grows_leave_connection r e : respects db_step (leave_connection r e).
Proof. unfold leave_connection. repeat respects_step. Qed.
#[local] Hint Resolve grows_leave_connection : respects.

Lemma grows_connected r : respects db_step (connected r).
Proof. unfold connected. repeat respects_step. Qed.

Lemma grows_setup r : respects db_step (setup r).
Proof.
  intros s res s' Hrun. unfold setup in Hrun.
  destruct (connected r s) as [[[] | e] s1] eqn:Hc.
  - transitivity (w_db (snd s1));
      [exact (grows_connected _ _ _ _ Hc) | exact (grows_inner_loop_test _ _ _ _ Hrun)].
  - transitivity (w_db (snd s1));
      [exact (grows_connected _ _ _ _ Hc) | exact (grows_leave_connection _ _ _ _ _ Hrun)].
Qed.
#[local] Hint Resolve grows_setup : respects.

Lemma grows_inner_turn r msg : respects db_step (inner_turn r msg).
Proof.
  intros s res s' Hrun. unfold inner_turn in Hrun.
  destruct (telemetry_frame r msg s) as [[[] | e] s1] eqn:Hframe.
  - transitivity (w_db (snd s1));
      [exact (grows_telemetry_frame _ _ _ _ _ Hframe)
      | exact (grows_inner_loop_test _ _ _ _ Hrun)].
  - transitivity (w_db (snd s1)); [exact (grows_telemetry_frame _ _ _ _ _ Hframe) |].
    destruct e;
      first [ exact (grows_inner_loop_test _ _ _ _ Hrun)
            | exact (grows_leave_connection _ _ _ _ _ Hrun) ].
Qed.
#[local] Hint Resolve grows_inner_turn : respects.

Lemma grows_pub_step r i pc : respects db_step (pub_step r i pc).
Proof.
  destruct i as [t | | | | e | msg | | e |], pc; cbn [pub_step];
    try solve [repeat respects_step].
  all: destruct e; repeat respects_step.
Qed.

Lemma pub_run_step_grows r st i :
  db_step (w_db (snd (snd st))) (w_db (snd (snd (pub_run_step r st i)))).
Proof.
  unfold pub_run_step, settle.
  destruct (pub_step r i (fst st) (snd st)) as [[pc | e] s'] eqn:Hstep;
    exact (grows_pub_step _ _ _ _ _ _ Hstep).
Qed.

Lemma pub_enter_grows r w : db_step (w_db w) (w_db (snd (snd (pub_enter r w)))).
Proof.
  unfold pub_enter, settle.
  destruct (outer_loop_test r (initial_locals, w)) as [[pc | e] s'] eqn:Htest;
    exact (grows_outer_loop_test _ _ _ _ Htest).
Qed.

Lemma grows_w_manager_stop : respects_w db_step manager_stop.
Proof. unfold manager_stop. repeat respects_w_step. Qed.
#[local] Hint Resolve grows_w_manager_stop : respects.

Lemma grows_w_restart_block count : respects_w db_step (restart_block count).
Proof. unfold restart_block. repeat respects_w_step. Qed.
#[local] Hint Resolve grows_w_restart_block : respects.

Lemma grows_w_after_publisher r count ended :
  respects_w db_step (after_publisher r count ended).
Proof. unfold after_publisher. repeat respects_w_step. Qed.

Lemma follow_grows r count st :
  db_step (w_db (snd (snd st))) (w_db (snd (follow r count st))).
Proof.
  destruct st as [pc [l w]]. cbn [fst snd].
  destruct pc; cbn [follow]; try reflexivity.
  - destruct (after_publisher r count (Ok tt) w) as [res w'] eqn:Hrun.
    exact (grows_w_after_publisher _ _ _ _ _ _ Hrun).
  - destruct (after_publisher r count (Raise e) w) as [res w'] eqn:Hrun.
    exact (grows_w_after_publisher _ _ _ _ _ _ Hrun).
Qed.

Lemma manager_settle_world robot_id count r :
  snd (manager_settle robot_id count r) = snd r.
Proof. destruct r as [[[c pc] | e] w]; reflexivity. Qed.

Lemma manager_loop_grows r count w :
  db_step (w_db w) (w_db (snd (manager_loop r count w))).
Proof.
  unfold manager_loop, bind, get. cbv beta iota.
  destruct (w_shutdown w).
  - destruct (manager_stop w) as [[pc | e] w'] eqn:Hstop; cbn;
      exact (grows_w_manager_stop _ _ _ Hstop).
  - unfold print, emit, modify. cbv beta iota.
    etransitivity; [| apply follow_grows].
    etransitivity; [| apply pub_enter_grows].
    destruct w; reflexivity.
Qed.

Lemma manager_step_grows st i :
  db_step (w_db (snd st)) (w_db (snd (manager_step st i))).
Proof.
  destruct st as [m w]. unfold manager_step. cbn [fst snd].
  destruct (mgr_pc m) as [pc l | wait_time | | e], (mgr_robot_id m) as [robot_id |];
    try (destruct i; cbn; reflexivity).
  - rewrite manager_settle_world.
    etransitivity; [| apply follow_grows].
    exact (pub_run_step_grows robot_id (pc, (l, w)) i).
  - rewrite manager_settle_world.
    destruct i;
      first [ reflexivity | apply manager_loop_grows | destruct w; reflexivity ].
Qed.

Lemma manager_enter_grows w : db_step (w_db w) (w_db (snd (manager_enter w))).
Proof.
  unfold manager_enter.
  destruct (RedisServer.get_robot_id_by_sn serial_number w) as [[robot_id | e] w'] eqn:Hget;
    pose proof (grows_w_get_robot_id_by_sn _ _ _ _ Hget) as Hstep; [| exact Hstep].
  destruct robot_id as [id |].
  - destruct (negb (id =? 0)); rewrite manager_settle_world.
    + etransitivity; [exact Hstep | apply manager_loop_grows].
    + destruct w'; exact Hstep.
  - rewrite manager_settle_world. destruct w'; exact Hstep.
Qed.

Lemma manager_run_grows inputs st :
  db_step (w_db (snd st)) (w_db (snd (fold_left manager_step inputs st))).
Proof.
  revert st. induction inputs as [| i inputs IH]; intros st; [reflexivity |].
  cbn [fold_left]. etransitivity; [apply manager_step_grows | apply IH].
Qed.

(** X24: whatever it receives and whichever call fails or is cancelled, a
    run of [pub_robot_status_manager] (with the telemetry loop it drives)
    never rewrites or deletes a movement sample or a session row, adds or
    removes no task and no robot, and leaves a well-formed session log well
    formed. *)
Theorem telemetry_manager_only_appends (inputs : list input) (w : world) :
  let d := w_db w in
  let d' := w_db (snd (pub_robot_status_manager inputs w)) in
  robots d' = robots d /\
  map t_task_id (tasks_history d') = map t_task_id (tasks_history d) /\
  (exists added, robot_movement d' = (robot_movement d ++ added)%list) /\
  (exists added, robot_sessions d' = (robot_sessions d ++ added)%list) /\
  (sessions_ok d -> sessions_ok d').
Proof.
  cbv zeta. change (db_step (w_db w) (w_db (snd (pub_robot_status_manager inputs w)))).
  unfold pub_robot_status_manager.
  etransitivity; [apply manager_enter_grows | apply manager_run_grows].
Qed.

End HistoryFacts.

Section RelayFacts.
Import Python Database RedisServer.
Local Open Scope py_scope.

(** ** pub_lidar_points *)

Lemma lidar_frames_run (frames : list frame) (w : world) :
  w_faults w = [] ->
  fold_left lidar_run_step (map Recv frames) (LidarReceiving, w) =
  (LidarReceiving, set_trace (w_trace w ++ map lidar_publish frames) w).
Proof.
  revert w. induction frames as [| f frames IH]; intros w Hfaults.
  - cbn. rewrite app_nil_r. destruct w; reflexivity.
  - cbn [map fold_left].
    assert (Hstep : lidar_run_step (LidarReceiving, w) (Recv f) =
                    (LidarReceiving, set_trace (w_trace w ++ [lidar_publish f]) w)).
    { destruct w as [d redis active stop clock faults trace]. cbn in Hfaults. subst faults.
      reflexivity. }
    rewrite Hstep, IH by (destruct w; exact Hfaults).
    destruct w. cbn. rewrite <- app_assoc. reflexivity.
Qed.

(** X25: [pub_lidar_points] subscribes once and then publishes every
    frame it receives on [robot:lidar], unparsed and in order, also a frame
    that is not JSON. *)
Theorem lidar_frames_are_relayed_verbatim
    (frames : list frame) (w : world) (Hfaults : w_faults w = []) :
  pub_lidar_points (ConnectOk :: map Recv frames) w =
  (LidarReceiving,
   set_trace (w_trace w ++ lidar_subscription ++ map lidar_publish frames) w).
Proof.
  unfold pub_lidar_points. cbn [fold_left].
  assert (Hopen : lidar_run_step (LidarConnecting, w) ConnectOk =
                  (LidarReceiving, set_trace (w_trace w ++ lidar_subscription) w)).
  { destruct w as [d redis active stop clock faults trace]. cbn in Hfaults. subst faults.
    cbn. rewrite <- !app_assoc. reflexivity. }
  rewrite Hopen, lidar_frames_run by (destruct w; exact Hfaults).
  destruct w. cbn. rewrite <- !app_assoc. reflexivity.
Qed.

Lemma lidar_ended_run (inputs : list input) (pc : lidar_pc) (w : world) :
  pc = LidarReturned \/ (exists e, pc = LidarRaised e) ->
  fst (fold_left lidar_run_step inputs (pc, w)) = pc /\
  w_trace (snd (fold_left lidar_run_step inputs (pc, w))) = w_trace w.
Proof.
  revert w. induction inputs as [| i inputs IH]; intros w Hpc; [split; reflexivity |].
  cbn [fold_left].
  assert (Hstep : fst (lidar_run_step (pc, w) i) = pc /\
                  w_trace (snd (lidar_run_step (pc, w) i)) = w_trace w).
  { destruct Hpc as [-> | [e ->]]; destruct i; cbn; split; reflexivity. }
  destruct (lidar_run_step (pc, w) i) as [pc' w'] eqn:Hrun. cbn [fst snd] in Hstep.
  destruct Hstep as [-> Ht]. destruct (IH w' Hpc) as [Hp' Ht'].
  split; congruence.
Qed.

(** X26: the first publish that raises an [Exception] ends
    [pub_lidar_points]: the exception is printed, the socket is closed and
    the task returns; no later frame is relayed. *)
Theorem lidar_relay_ends_at_first_failure
    (f : frame) (e : exn) (rest : list (option exn)) (w : world) (inputs : list input)
    (He : is_Exception e = true) (Hfaults : w_faults w = Some e :: rest) :
  let failed := lidar_run_step (LidarReceiving, w) (Recv f) in
  failed = (LidarReturned,
            set_faults rest
              (set_trace (w_trace w ++ [lidar_publish f; Printed "{e}" [AExn e]; WsClose]) w)) /\
  fst (fold_left lidar_run_step inputs failed) = LidarReturned /\
  w_trace (snd (fold_left lidar_run_step inputs failed)) = w_trace (snd failed).
Proof.
  cbv zeta.
  assert (Hstep : lidar_run_step (LidarReceiving, w) (Recv f) =
            (LidarReturned,
             set_faults rest
               (set_trace (w_trace w ++ [lidar_publish f; Printed "{e}" [AExn e]; WsClose])
                  w))).
  { destruct w as [d redis active stop clock faults trace]. cbn in Hfaults. subst faults.
    unfold lidar_run_step, lidar_step, lidar_guard, lidar_leave, redis_publish, await_call,
      fate, print, emit, when, bind, modify, get, ret, raise.
    cbn. rewrite He. cbn. rewrite <- !app_assoc. reflexivity. }
  split; [exact Hstep |]. rewrite Hstep.
  apply lidar_ended_run. left. reflexivity.
Qed.

(** ** ConnectionManager *)

Lemma list_remove_absent (x : client) (l : list client) :
  ~ In x l -> list_remove x l = None.
Proof.
  induction l as [| y l IH]; intros Hin; [reflexivity |].
  cbn. destruct (Z.eqb_spec y x) as [-> | Hne].
  - exfalso. apply Hin. left. reflexivity.
  - rewrite IH; [reflexivity |]. intros Hx. apply Hin. right. exact Hx.
Qed.

Lemma list_remove_snoc (x : client) (l : list client) :
  ~ In x l -> list_remove x (l ++ [x]) = Some l.
Proof.
  induction l as [| y l IH]; intros Hin.
  - cbn. rewrite Z.eqb_refl. reflexivity.
  - cbn. destruct (Z.eqb_spec y x) as [-> | Hne].
    + exfalso. apply Hin. left. reflexivity.
    + rewrite IH; [reflexivity |]. intros Hx. apply Hin. right. exact Hx.
Qed.

(** X27: [ConnectionManager.disconnect] of a socket that is not connected
    raises [ValueError] and changes nothing. *)
Theorem disconnect_unknown_client_raises
    (websocket : client) (h : hub) (Hnew : ~ In websocket (active_connections h)) :
  disconnect websocket h = (Raise ValueError, h).
Proof.
  unfold disconnect, bind, get. cbn. rewrite (list_remove_absent _ _ Hnew). reflexivity.
Qed.

(** X28: [connect] appends an accepted socket to the connections, and
    [disconnect] of it gives the connections back as they were. *)
Theorem connect_then_disconnect_restores
    (websocket : client) (h : hub)
    (Hnew : ~ In websocket (active_connections h))
    (Haccept : hd None (hub_faults h) = None) :
  exists h1 h2,
    connect websocket h = (Ok tt, h1) /\
    active_connections h1 = (active_connections h ++ [websocket])%list /\
    disconnect websocket h1 = (Ok tt, h2) /\
    active_connections h2 = active_connections h.
Proof.
  destruct h as [conns faults trace]. cbn in Hnew, Haccept.
  unfold connect, disconnect, hub_await, hub_emit, set_connections, bind, modify, get, ret, raise.
  destruct faults as [| [e |] rest]; [| discriminate Haccept |]; cbn;
    eexists; eexists; (split; [reflexivity |]); (split; [reflexivity |]); cbn;
    rewrite (list_remove_snoc _ _ Hnew); cbn; split; reflexivity.
Qed.

Lemma send_each_all (message : pystr) (connections : list client) (h : hub) :
  hub_faults h = [] ->
  send_each message connections h =
  (Ok tt, {| active_connections := active_connections h; hub_faults := [];
             hub_trace := hub_trace h ++ map (fun c => SendText c message) connections |}).
Proof.
  revert h. induction connections as [| c connections IH]; intros h Hfaults.
  - cbn. rewrite app_nil_r. destruct h. cbn in Hfaults. subst. reflexivity.
  - destruct h as [conns faults trace]. cbn in Hfaults. subst faults.
    cbn [send_each]. unfold bind at 1. unfold hub_await, hub_emit, bind, modify, get, ret.
    cbn. rewrite IH by reflexivity. cbn. rewrite <- app_assoc. reflexivity.
Qed.

Lemma send_each_stops (message : pystr) (before after : list client) (dead : client)
    (e : exn) (rest : list (option exn)) (h : hub) :
  hub_faults h = (map (fun _ => None) before ++ Some e :: rest)%list ->
  send_each message (before ++ dead :: after) h =
  (Raise e, {| active_connections := active_connections h; hub_faults := rest;
               hub_trace := hub_trace h ++
                            map (fun c => SendText c message) (before ++ [dead]) |}).
Proof.
  revert h. induction before as [| c before IH]; intros h Hfaults.
  - destruct h as [conns faults trace]. cbn in Hfaults. subst faults. reflexivity.
  - destruct h as [conns faults trace]. cbn in Hfaults. subst faults.
    cbn [send_each app]. unfold bind at 1. unfold hub_await, hub_emit, bind, modify, get, ret.
    cbn. rewrite IH by reflexivity. cbn. rewrite <- app_assoc. reflexivity.
Qed.

(** X29: [broadcast] sends the message to every connection once, in the
    order of the list. A send that raises ends the broadcast: the
    connections after it get nothing, and the failing connection stays in
    the list. *)
Theorem broadcast_reaches_clients_in_order
    (message : pystr) (h : hub) :
  (hub_faults h = [] ->
   broadcast message h =
   (Ok tt, {| active_connections := active_connections h; hub_faults := [];
              hub_trace := hub_trace h ++
                           map (fun c => SendText c message) (active_connections h) |})) /\
  (forall before dead after e rest,
     active_connections h = (before ++ dead :: after)%list ->
     hub_faults h = (map (fun _ => None) before ++ Some e :: rest)%list ->
     broadcast message h =
     (Raise e, {| active_connections := active_connections h; hub_faults := rest;
                  hub_trace := hub_trace h ++
                               map (fun c => SendText c message) (before ++ [dead]) |})).
Proof.
  split.
  - intros Hfaults. unfold broadcast, bind, get. apply send_each_all. exact Hfaults.
  - intros before dead after e rest Hconns Hfaults. unfold broadcast, bind, get.
    rewrite Hconns at 1. apply send_each_stops. exact Hfaults.
Qed.

End RelayFacts.

Section FurtherExamples.
Import Python Database RedisServer.

(** X6 for the rows of robot 2 and two calls for robot 1. *)
Lemma sessions_of_other_robots_untouched_witness :
  Forall (fun c => call_robot c <> 2) [StartSession 10 1; EndSession 20 1 "normal"] /\
  rows_of 2 (run_calls [StartSession 10 1; EndSession 20 1 "normal"]
               (run_calls [StartSession 5 2] empty_db))
  = rows_of 2 (run_calls [StartSession 5 2] empty_db).
Proof.
  split; [repeat constructor; discriminate |].
  apply (sessions_of_other_robots_untouched
           [StartSession 10 1; EndSession 20 1 "normal"] 2
           (run_calls [StartSession 5 2] empty_db)).
  repeat constructor; discriminate.
Defined.

(** X7 for a second session from 30 to 45. *)
Lemma session_duration_round_trip_witness :
  Forall (fun row => s_timestamp row <= 30) (online_rows 1 reconnected_db) /\
  Database.end_robot_session 45 1 "normal" (snd (Database.start_robot_session 30 1 reconnected_db)) =
  (Some (robot_sessions_seq (snd (Database.start_robot_session 30 1 reconnected_db))),
   snd (insert_session 1 "offline" 45 (Some (45 - 30)) (Some ("Disconnected: " +:+ "normal"))
          (snd (Database.start_robot_session 30 1 reconnected_db)))).
Proof.
  split; [repeat constructor; cbn; lia |].
  apply (session_duration_round_trip 30 45 1 "normal" reconnected_db).
  repeat constructor; cbn; lia.
Defined.

(** X10 for a robot whose first session was ended properly. *)
Lemma reconnect_writes_auto_closed_row_witness :
  last_online_session 1 reconnected_db
    = Some {| s_id := 1; s_robot_id := 1; s_status := "online"; s_timestamp := 10;
              s_session_duration := None; s_notes := None |} /\
  map s_status (robot_sessions (snd (Database.start_robot_session 30 1 reconnected_db)))
    = (map s_status (robot_sessions reconnected_db) ++ ["offline"; "online"])%list.
Proof.
  split; [reflexivity |].
  apply (reconnect_writes_auto_closed_row 30 1 reconnected_db
           {| s_id := 1; s_robot_id := 1; s_status := "online"; s_timestamp := 10;
              s_session_duration := None; s_notes := None |}).
  - reflexivity.
  - discriminate.
Defined.

(** X9 for robot 2, which never connected. *)
Lemma end_without_session_writes_nothing_witness :
  online_rows 2 reconnected_db = [] /\
  Database.end_robot_session 50 2 "normal" reconnected_db = (None, reconnected_db).
Proof.
  split; [reflexivity |].
  apply (end_without_session_writes_nothing 50 2 "normal" reconnected_db). reflexivity.
Defined.

(** X8 on the fleet database, which has no task 8, for a call that
    completes and for a call that raises. *)
Lemma update_task_status_unknown_task_witness :
  unknown_task 8 fleet_db = true /\
  Database.update_task_status 50 8 "completed" None fleet_db = fleet_db /\
  w_db (snd (RedisServer.update_task_status 8 "completed" None
               (set_faults [Some PostgresError] (initial_world fleet_db)))) = fleet_db /\
  fst (RedisServer.update_task_status 8 "completed" None
         (set_faults [Some PostgresError] (initial_world fleet_db))) = Raise PostgresError.
Proof.
  assert (Hunknown : unknown_task 8 fleet_db = true) by reflexivity.
  destruct (update_task_status_unknown_task 50 8 "completed" None fleet_db Hunknown)
    as [Hdb Hcall].
  destruct (Hcall (set_faults [Some PostgresError] (initial_world fleet_db)) eq_refl)
    as [Hkept Hraised].
  split; [exact Hunknown |]. split; [exact Hdb |]. split; [exact Hkept | exact Hraised].
Defined.

(** X11 for a succeeded event in a world without cross-reference. *)
Lemma untracked_event_is_only_stored_witness :
  w_faults (initial_world fleet_db) = [] /\
  str_truthy (w_redis (initial_world fleet_db) !! "robot:current_task_id") = false /\
  fst (@handle_planning_state no_numeral_strings (JDict (planning_event "succeeded"))
         (initial_world fleet_db)) = Ok tt.
Proof.
  split; [reflexivity |]. split; [reflexivity |].
  apply (untracked_event_is_only_stored (H := no_numeral_strings)
           (planning_event "succeeded") (initial_world fleet_db)).
  - reflexivity.
  - reflexivity.
Defined.

(** X12 for a failed event of task 7. *)
Lemma failed_or_cancelled_event_is_final_witness :
  assoc "move_state" (planning_event "failed") = Some (JStr "failed") /\
  w_faults tracking_world = [] /\
  w_redis tracking_world !! "robot:current_task_id" = Some (Dumps (JInt 7)) /\
  @py_int no_numeral_strings (Dumps (JInt 7)) = Ok 7 /\
  fst (@handle_planning_state no_numeral_strings (JDict (planning_event "failed"))
         tracking_world) = Ok tt.
Proof.
  split; [reflexivity |]. split; [reflexivity |]. split; [reflexivity |].
  split; [reflexivity |].
  apply (failed_or_cancelled_event_is_final (H := no_numeral_strings)
           (planning_event "failed") tracking_world "failed" (Dumps (JInt 7)) 7).
  - left. reflexivity.
  - reflexivity.
  - reflexivity.
  - reflexivity.
  - reflexivity.
  - reflexivity.
Defined.

(** X13 for a pose frame with one coordinate. *)
Lemma telemetry_frame_without_content_is_ignored_witness :
  assoc "topic" [("topic", JStr "/tracked_pose"); ("pos", JList [JInt 1])]
    = Some (JStr "/tracked_pose") /\
  @telemetry_frame no_numeral_strings 1
    (Frame (JDict [("topic", JStr "/tracked_pose"); ("pos", JList [JInt 1])]))
    (fst online_state, snd online_state)
  = (Ok tt, (fst online_state, snd online_state)).
Proof.
  split; [reflexivity |].
  apply (telemetry_frame_without_content_is_ignored (H := no_numeral_strings) 1
           [("topic", JStr "/tracked_pose"); ("pos", JList [JInt 1])]
           (fst online_state, snd online_state)).
  right. split; [reflexivity |]. right. right.
  exists [JInt 1]. split; [reflexivity | cbn; lia].
Defined.

(** X14 for task 7 of robot 1. *)
Lemma inline_succeed_is_written_once_witness :
  w_faults (snd inline_tracking_state) = [] /\
  w_redis (snd inline_tracking_state) !! current_task_key 1 = Some (Dumps (JInt 7)) /\
  @telemetry_frame no_numeral_strings 1
    (Frame (JDict [("topic", JStr "/planning_state"); ("move_state", JStr "succeed")]))
    (fst inline_tracking_state, snd inline_tracking_state)
  = (Ok tt,
     (fst inline_tracking_state,
      set_redis (delete (current_task_key 1) (w_redis (snd inline_tracking_state)))
        (set_db (Database.update_task_status (w_clock (snd inline_tracking_state)) 7
                   "completed" None (w_db (snd inline_tracking_state)))
           (set_trace (w_trace (snd inline_tracking_state) ++
                       [Redis (RedisGet (current_task_key 1));
                        Db (UpdateTaskStatus 7 "completed" None);
                        Redis (RedisDelete (current_task_key 1));
                        Printed "Task {task_id} completed" [AInt 7]])
              (snd inline_tracking_state))))).
Proof.
  split; [reflexivity |]. split; [vm_compute; reflexivity |].
  apply (inline_succeed_is_written_once (H := no_numeral_strings) 1
           [("topic", JStr "/planning_state"); ("move_state", JStr "succeed")]
           (fst inline_tracking_state) (snd inline_tracking_state) (Dumps (JInt 7)) 7).
  - reflexivity.
  - reflexivity.
  - reflexivity.
  - vm_compute. reflexivity.
  - reflexivity.
  - reflexivity.
Defined.

(** X16 for a malformed frame. *)
Lemma failed_frame_ends_monitor_for_good_witness :
  @monitor_frame no_numeral_strings (Garbled "not json") tracking_world
    = (Raise JSONDecodeError, tracking_world) /\
  is_Exception JSONDecodeError = true /\
  @monitor_run_step no_numeral_strings (MonReceiving, tracking_world)
    (Recv (Garbled "not json"))
  = (MonReturned,
     set_trace (w_trace tracking_world ++
                [Printed "Planning state monitor error: {e}" [AExn JSONDecodeError];
                 WsClose]) tracking_world).
Proof.
  split; [reflexivity |]. split; [reflexivity |].
  apply (failed_frame_ends_monitor_for_good (H := no_numeral_strings)
           (Garbled "not json") JSONDecodeError tracking_world tracking_world []).
  - reflexivity.
  - reflexivity.
Defined.

(** X17 at the state after the first connect of robot 1. *)
Lemma shutdown_signal_closes_session_witness :
  session_id (fst online_state) = Some 1 /\ 1 <> 0 /\ w_faults (snd online_state) = [] /\
  fold_left (@pub_run_step no_numeral_strings 1) [Signal; RecvTimeout]
    (Receiving, (fst online_state, snd online_state)) =
  (PubReturned,
   (fst online_state,
    gone_offline 1 "server_shutdown"
      [WsClose;
       Db (EndRobotSession 1 "server_shutdown");
       Printed "ROBOT REDIS BOOL STATUS: " [ABool false];
       Redis (RedisSet "robot:status" (Lit "offline"));
       Redis (RedisSet "robot:last_poi" (Lit "origin"));
       Printed "ROBOT SESSION CLOSED - Server shutdown - Session {session_id}"
             [AOptInt (Some 1)]]
      (set_shutdown true (snd online_state)))).
Proof.
  split; [reflexivity |]. split; [discriminate |]. split; [reflexivity |].
  apply (shutdown_signal_closes_session (H := no_numeral_strings) 1
           (fst online_state) (snd online_state) 1).
  - reflexivity.
  - discriminate.
  - reflexivity.
Defined.

(** X18 for three failed attempts from the start of the loop. *)
Lemma unreachable_robot_is_retried_forever_witness :
  Forall (fun e => is_connection_error e = true) [OSError; ConnectionClosed; TimeoutError] /\
  session_id initial_locals = None /\ w_shutdown (initial_world fleet_db) = false /\
  fold_left (@pub_run_step no_numeral_strings 1)
    (retries [OSError; ConnectionClosed; TimeoutError])
    (Connecting, (initial_locals, initial_world fleet_db)) =
  (Connecting,
   (set_connection_lost_logged true initial_locals,
    set_trace (w_trace (initial_world fleet_db) ++
               (if connection_lost_logged initial_locals then []
                else [connection_lost_line OSError]) ++
               map (fun _ => reconnecting_line) [OSError; ConnectionClosed; TimeoutError])
      (initial_world fleet_db))).
Proof.
  split; [repeat constructor |]. split; [reflexivity |]. split; [reflexivity |].
  apply (unreachable_robot_is_retried_forever (H := no_numeral_strings) 1 OSError
           [ConnectionClosed; TimeoutError] initial_locals (initial_world fleet_db)).
  - repeat constructor.
  - reflexivity.
  - reflexivity.
Defined.

(** X15 for three timeouts after the first connect. *)
Lemma idle_connection_changes_nothing_witness :
  forallb is_receive_timeout [RecvTimeout; RecvFail TimeoutError; RecvTimeout] = true /\
  w_shutdown (snd online_state) = false /\
  fold_left (@pub_run_step no_numeral_strings 1)
    [RecvTimeout; RecvFail TimeoutError; RecvTimeout] (Receiving, online_state)
  = (Receiving, online_state).
Proof.
  split; [reflexivity |]. split; [reflexivity |].
  apply (idle_connection_changes_nothing (H := no_numeral_strings) 1
           [RecvTimeout; RecvFail TimeoutError; RecvTimeout] online_state).
  - reflexivity.
  - reflexivity.
Defined.

(** X19 at the state after the first connect of robot 1. *)
Lemma cancelled_manager_ends_registered_session_witness :
  w_active_sessions (snd online_state) !! 1 = Some 1 /\
  w_faults (snd online_state) = [] /\
  @manager_step no_numeral_strings
    ({| mgr_robot_id := Some 1; restart_count := 0;
        mgr_pc := MgrRunning Receiving (fst online_state) |}, snd online_state) Cancel =
  ({| mgr_robot_id := Some 1; restart_count := 0; mgr_pc := MgrStopped |},
   session_ended 1 "task_cancelled"
     [WsClose;
      Printed "Robot status publisher cancelled" [];
      Db (EndRobotSession 1 "task_cancelled");
      Printed "Session {session_id} ended on cancellation" [AInt 1];
      Printed "Robot status manager stopped" []] (snd online_state)).
Proof.
  split; [vm_compute; reflexivity |]. split; [reflexivity |].
  apply (cancelled_manager_ends_registered_session (H := no_numeral_strings) 1 0
           (fst online_state) (snd online_state) 1).
  - vm_compute. reflexivity.
  - reflexivity.
Defined.

(** X21 for a registry with the sessions of robots 1 and 2, iterated in
    the order of insertion, when the first call raises: the loop reports
    the failure, goes on to robot 2 and empties the registry. *)
Lemma cleanup_empties_registry_witness :
  [(1, 1); (2, 2)] ≡ₚ map_to_list (w_active_sessions two_sessions_world) /\
  harmless (w_faults two_sessions_world) /\
  w_faults two_sessions_world = [Some PostgresError] /\
  fst (cleanup_active_sessions [(1, 1); (2, 2)] two_sessions_world) = Ok tt /\
  w_active_sessions (snd (cleanup_active_sessions [(1, 1); (2, 2)] two_sessions_world)) = ∅ /\
  List.filter is_session_end
    (w_trace (snd (cleanup_active_sessions [(1, 1); (2, 2)] two_sessions_world)))
  = [Db (EndRobotSession 1 "server_shutdown"); Db (EndRobotSession 2 "server_shutdown")] /\
  In (Db (EndRobotSession 2 "server_shutdown"))
    (w_trace (snd (cleanup_active_sessions [(1, 1); (2, 2)] two_sessions_world))) /\
  w_trace (snd (cleanup_active_sessions [(1, 1); (2, 2)] two_sessions_world))
  = [Printed "Cleaning up {len(active_sessions)} active sessions..." [AInt 2];
     Db (EndRobotSession 1 "server_shutdown");
     Printed "Error ending session {session_id}: {e}" [AInt 1; AExn PostgresError];
     Db (EndRobotSession 2 "server_shutdown");
     Printed "Ended session {session_id} for robot {robot_id}" [AInt 2; AInt 2];
     Printed "All session cleaned up" []] /\
  map Database.s_status
    (Database.robot_sessions
       (w_db (snd (cleanup_active_sessions [(1, 1); (2, 2)] two_sessions_world))))
  = ["online"; "online"; "offline"].
Proof.
  assert (Hitems : [(1, 1); (2, 2)] ≡ₚ map_to_list (w_active_sessions two_sessions_world)).
  { vm_compute. apply perm_swap. }
  assert (Hfaults : harmless (w_faults two_sessions_world)).
  { repeat constructor. }
  split; [exact Hitems |]. split; [exact Hfaults |]. split; [reflexivity |].
  destruct (cleanup_empties_registry [(1, 1); (2, 2)] two_sessions_world Hitems Hfaults)
    as (Hok & Hempty & Hends & Hin).
  split; [exact Hok |]. split; [exact Hempty |]. split; [exact Hends |].
  split; [apply (Hin 2 2); vm_compute; reflexivity |].
  split; vm_compute; reflexivity.
Defined.

(** X22 at the state after the first connect of robot 1. *)
Lemma shutdown_ends_session_twice_witness :
  session_id (fst online_state) = Some 1 /\ 1 <> 0 /\
  w_active_sessions (snd online_state) = {[ 1 := 1 ]} /\
  w_faults (snd online_state) = [] /\
  last_online_session 1 (w_db (snd online_state))
    = Some {| s_id := 1; s_robot_id := 1; s_status := "online"; s_timestamp := 0;
              s_session_duration := None; s_notes := None |} /\
  fst (@pub_run_step no_numeral_strings 1
         (Receiving,
          (fst online_state,
           snd (cleanup_active_sessions [(1, 1)] (set_shutdown true (snd online_state)))))
         RecvTimeout) = PubReturned.
Proof.
  split; [reflexivity |]. split; [discriminate |]. split; [vm_compute; reflexivity |].
  split; [reflexivity |]. split; [reflexivity |].
  apply (shutdown_ends_session_twice (H := no_numeral_strings) 1 1
           (fst online_state) (snd online_state)
           {| s_id := 1; s_robot_id := 1; s_status := "online"; s_timestamp := 0;
              s_session_duration := None; s_notes := None |}).
  - reflexivity.
  - discriminate.
  - vm_compute. reflexivity.
  - reflexivity.
  - reflexivity.
Defined.

(** X25 for a malformed frame and a number. *)
Lemma lidar_frames_are_relayed_verbatim_witness :
  w_faults (initial_world empty_db) = [] /\
  pub_lidar_points (ConnectOk :: map Recv [Garbled "not json"; Frame (JInt 1)])
    (initial_world empty_db) =
  (LidarReceiving,
   set_trace (w_trace (initial_world empty_db) ++ lidar_subscription ++
              map lidar_publish [Garbled "not json"; Frame (JInt 1)])
     (initial_world empty_db)).
Proof.
  split; [reflexivity |].
  apply (lidar_frames_are_relayed_verbatim [Garbled "not json"; Frame (JInt 1)]
           (initial_world empty_db)).
  reflexivity.
Defined.

(** X26 for a broker that refuses the publish. *)
Lemma lidar_relay_ends_at_first_failure_witness :
  is_Exception RedisError = true /\
  w_faults (set_faults [Some RedisError] (initial_world empty_db)) = [Some RedisError] /\
  lidar_run_step (LidarReceiving, set_faults [Some RedisError] (initial_world empty_db))
    (Recv (Frame (JInt 1))) =
  (LidarReturned,
   set_faults []
     (set_trace (w_trace (set_faults [Some RedisError] (initial_world empty_db)) ++
                 [lidar_publish (Frame (JInt 1)); Printed "{e}" [AExn RedisError]; WsClose])
        (set_faults [Some RedisError] (initial_world empty_db)))).
Proof.
  split; [reflexivity |]. split; [reflexivity |].
  apply (lidar_relay_ends_at_first_failure (Frame (JInt 1)) RedisError []
           (set_faults [Some RedisError] (initial_world empty_db)) []).
  - reflexivity.
  - reflexivity.
Defined.

(** X27 for a third socket. *)
Lemma disconnect_unknown_client_raises_witness :
  ~ In 3 (active_connections two_clients) /\
  disconnect 3 two_clients = (Raise ValueError, two_clients).
Proof.
  assert (Hnew : ~ In 3 (active_connections two_clients))
    by (intros [Heq | [Heq | []]]; discriminate Heq).
  split; [exact Hnew |].
  apply (disconnect_unknown_client_raises 3 two_clients). exact Hnew.
Defined.

(** X28 for a third socket. *)
Lemma connect_then_disconnect_restores_witness :
  ~ In 3 (active_connections two_clients) /\
  hd None (hub_faults two_clients) = None /\
  exists h1 h2,
    connect 3 two_clients = (Ok tt, h1) /\
    active_connections h1 = [1; 2; 3] /\
    disconnect 3 h1 = (Ok tt, h2) /\
    active_connections h2 = [1; 2].
Proof.
  assert (Hnew : ~ In 3 (active_connections two_clients))
    by (intros [Heq | [Heq | []]]; discriminate Heq).
  split; [exact Hnew |]. split; [reflexivity |].
  apply (connect_then_disconnect_restores 3 two_clients).
  - exact Hnew.
  - reflexivity.
Defined.

End FurtherExamples.
